(** * Techpedia dashboard: cart, checkout, catalog administration,
      brands, categories, users and token revocation.

    A shallow embedding of the route handlers of the repository over an
    explicit relational store.  Every handler is a function from the store
    and the request to the new store and the HTTP response; an exception
    caught by a handler's [try]/[catch] is the 500 answer of that handler,
    with the store as it was when the exception was raised.

    Conventions.
    - Tables are lists of rows in insertion order; [findMany] is [filter],
      [findFirst] and [findUnique] are [find].
    - Prisma [Int] columns are [Z] (the 32-bit range of the column is not
      modelled), [Float] columns and JavaScript numbers are the rationals
      they denote ([Q]); no theorem below uses a law of arithmetic on
      prices, only that the same expression is evaluated.
    - Columns that no handler reads ([createdAt], [updatedAt], the [id] of
      [OrderItem], [InvalidToken] and [ProductReview]) are left out.
    - What a request gets from outside the store (the JWT library, the
      payment gateway, the image host, the uuid drawn for a new row, the
      clock) is the [Env] of that request.  So is what a handler hands to
      the Prisma client without deciding it: [data: body] of the JSON
      product update when the body names more than scalar columns, a
      number that is no integer for an [Int] column, an object for a
      [String] column.  The primary keys, unique columns and relations of
      the schema hold of whatever the client writes there.
    - The product routes exist in two generations, with JSON bodies and
      with multipart forms; both are embedded. *)

From Stdlib Require Import List String Ascii ZArith QArith Qround Bool Lia.
Import ListNotations.
Open Scope string_scope.
Open Scope Z_scope.

(** ** JavaScript values of a parsed JSON body *)

Inductive JsVal : Type :=
| JUndefined
| JNull
| JBool (b : bool)
| JNum (q : Q)
| JStr (s : string)
| JObj.

(** [!v] is [negb (truthy v)]. *)
Definition truthy (v : JsVal) : bool :=
  match v with
  | JUndefined | JNull => false
  | JBool b => b
  | JNum q => negb (Qeq_bool q 0)
  | JStr s => negb (s =? "")%string
  | JObj => true
  end.

(** [typeof v === "number"]. *)
Definition isNumber (v : JsVal) : bool :=
  match v with JNum _ => true | _ => false end.

(** [Number.isInteger(q)]. *)
Definition isInteger (q : Q) : bool := Qeq_bool q (inject_Z (Qfloor q)).

Definition Qltb (a b : Q) : bool := negb (Qle_bool b a).

(** [v < n] and [v <= n] for a [v] already known to be a number. *)
Definition js_lt (v : JsVal) (n : Q) : bool :=
  match v with JNum q => Qltb q n | _ => false end.

Definition js_le (v : JsVal) (n : Q) : bool :=
  match v with JNum q => Qle_bool q n | _ => false end.

(** [s.split(sep)] for a one-character separator. *)
Fixpoint split (sep : ascii) (s : string) : list string :=
  match s with
  | EmptyString => [EmptyString]
  | String c r =>
      if Ascii.eqb c sep then EmptyString :: split sep r
      else match split sep r with
           | h :: t => String c h :: t
           | [] => [String c EmptyString]
           end
  end.

Definition startsWith (s p : string) : bool := prefix p s.

(** ** Data model (prisma schema) *)

Definition Id := string.

Inductive Role : Type := ADMIN | CUSTOMER.

Definition Role_eqb (a b : Role) : bool :=
  match a, b with
  | ADMIN, ADMIN | CUSTOMER, CUSTOMER => true
  | _, _ => false
  end.

Inductive PaymentStatus : Type := PENDING | PAID | FAILED.

Record User : Type := {
  user_id : Id;
  user_name : string;
  user_email : string;
  user_password : string;
  user_role : Role }.

Record InvalidToken : Type := {
  it_token : string;
  it_userId : Id;
  it_expiresAt : Z }.

Record Brand : Type := { brand_id : Id; brand_name : string }.

Record Category : Type := { category_id : Id; category_name : string }.

Record Product : Type := {
  product_id : Id;
  product_name : string;
  product_description : string;
  product_price : Q;
  product_stock : Z;
  product_imageUrl : string;
  product_brandId : Id;
  product_categoryId : Id }.

Record ProductReview : Type := {
  pr_userId : Id;
  pr_productId : Id;
  pr_rating : Z;
  pr_comment : string }.

Record CartItem : Type := {
  ci_id : Id;
  ci_userId : Id;
  ci_productId : Id;
  ci_quantity : Z }.

Record OrderItem : Type := {
  oi_orderId : Id;
  oi_productId : Id;
  oi_price : Q;
  oi_quantity : Z }.

Record Order : Type := {
  order_id : Id;
  order_userId : Id;
  order_totalAmount : Q;
  order_paymentStatus : PaymentStatus;
  order_paymentMethod : string }.

(** The store. *)
Record DB : Type := {
  users : list User;
  invalidTokens : list InvalidToken;
  brands : list Brand;
  categories : list Category;
  products : list Product;
  reviews : list ProductReview;
  cartItems : list CartItem;
  orders : list Order;
  orderItems : list OrderItem }.

Definition set_invalidTokens (db : DB) (l : list InvalidToken) : DB :=
  {| users := users db; invalidTokens := l; brands := brands db;
     categories := categories db; products := products db;
     reviews := reviews db; cartItems := cartItems db;
     orders := orders db; orderItems := orderItems db |}.

Definition set_products (db : DB) (l : list Product) : DB :=
  {| users := users db; invalidTokens := invalidTokens db; brands := brands db;
     categories := categories db; products := l;
     reviews := reviews db; cartItems := cartItems db;
     orders := orders db; orderItems := orderItems db |}.

Definition set_reviews (db : DB) (l : list ProductReview) : DB :=
  {| users := users db; invalidTokens := invalidTokens db; brands := brands db;
     categories := categories db; products := products db;
     reviews := l; cartItems := cartItems db;
     orders := orders db; orderItems := orderItems db |}.

Definition set_cartItems (db : DB) (l : list CartItem) : DB :=
  {| users := users db; invalidTokens := invalidTokens db; brands := brands db;
     categories := categories db; products := products db;
     reviews := reviews db; cartItems := l;
     orders := orders db; orderItems := orderItems db |}.

Definition set_orders (db : DB) (lo : list Order) (li : list OrderItem) : DB :=
  {| users := users db; invalidTokens := invalidTokens db; brands := brands db;
     categories := categories db; products := products db;
     reviews := reviews db; cartItems := cartItems db;
     orders := lo; orderItems := li |}.

(** ** Requests, environment, responses *)

Record JwtPayload : Type := { jwt_userId : Id; jwt_email : string }.

Record InvoiceParams : Type := {
  externalId : string;
  amount : Q;
  payerEmail : string;
  description : string;
  successRedirectUrl : string;
  failureRedirectUrl : string }.

Record Invoice : Type := { invoiceId : string; invoiceUrl : string }.

(** [None] is a thrown exception; for [parseFloat] and [parseInt] it is
    [NaN].

    Four things are left to the libraries, because the handlers do not
    decide them:
    - [prisma_int q] is what the Prisma client writes into an [Int] column
      when it is handed the number [q] that is no integer ([None] when it
      refuses);
    - [field_operation] is the string the client writes into a [String]
      column when the update sends a value that is no string (an object
      is a field operation, [{ set: ... }]), [None] when it refuses the
      value;
    - [prisma_update db id body] is what
      [prisma.product.update({ where: { id }, data: body })] does when
      [body] names more than scalar columns with plain values (relations
      with their nested writes, [id], field operations): the store it
      would leave and the row it returns, or [None] when the client
      refuses the data;
    - [toFixed2 x] is [Number(x.toFixed(2))] on the double [x]. *)
Record Env : Type := {
  jwt_verify : string -> option JwtPayload;
  createXenditInvoice : InvoiceParams -> option Invoice;
  zod_uuid : string -> bool;
  parseFloat : string -> option Q;
  parseInt : string -> option Z;
  cloudinary_upload : string -> option string;
  prisma_int : Q -> option Z;
  field_operation : option string;
  prisma_update : DB -> Id -> (string -> JsVal) -> option (DB * Product);
  toFixed2 : Q -> Q;
  uuid : Id;
  now : Z;
  base_url : string }.

(** A value of a multipart form: a text field or an uploaded file. *)
Inductive FormValue : Type :=
| FText (s : string)
| FFile (type base64 : string).

(** [req_json] is [await request.json()], a field lookup that gives
    [JUndefined] for a missing field, and [req_json_keys] are the keys of
    that object ([Object.keys]); [req_formData] is [await req.formData()],
    whose [get] gives null for a missing field; [None] when parsing
    throws. *)
Record Request : Type := {
  req_authorization : option string;
  req_params_id : string;
  req_query_userId : option string;
  req_json : option (string -> JsVal);
  req_json_keys : list string;
  req_formData : option (string -> option FormValue) }.

Inductive Body : Type :=
| Error (msg : string)
| Message (msg : string)
| InvalidInput
| NotEnoughStock (available : Z)
| ExceedsStock (currentInCart available : Z)
| InsufficientStock (productId productName : string)
    (availableStock requestedQuantity : Z)
| CartItemData (message : string) (data : CartItem)
| CartItemUpdated (data : CartItem) (productName : string) (productPrice : Q)
| CheckoutOk (orderId invoiceUrl : string) (totalAmount : Q)
| ProductData (data : Product)
| CannotDelete (orderCount : nat)
| ProductDeleted (deletedProductId : string) (imageCleaned : bool).

Record Response : Type := { status : nat; body : Body }.

Definition json (b : Body) (st : nat) : Response := {| status := st; body := b |}.

(** ** lib/middleware.ts *)

Record AuthUser : Type := {
  au_id : Id;
  au_email : string;
  au_name : string;
  au_role : Role }.

Definition findInvalidToken (db : DB) (token : string) : option InvalidToken :=
  find (fun t => (it_token t =? token)%string) (invalidTokens db).

Definition findUser (db : DB) (id : Id) : option User :=
  find (fun u => (user_id u =? id)%string) (users db).

Definition auth (env : Env) (db : DB) (req : Request) : option AuthUser :=
  match req_authorization req with
  | None => None
  | Some authHeader =>
      if negb (startsWith authHeader "Bearer ") then None
      else
        match nth_error (split " " authHeader) 1 with
        | None => None
        | Some token =>
            match findInvalidToken db token with
            | Some _ => None
            | None =>
                match jwt_verify env token with
                | None => None
                | Some decoded =>
                    match findUser db (jwt_userId decoded) with
                    | None => None
                    | Some user =>
                        Some {| au_id := user_id user;
                                au_email := user_email user;
                                au_name := user_name user;
                                au_role := user_role user |}
                    end
                end
            end
        end
  end.

Definition authUser (env : Env) (db : DB) (req : Request) : bool :=
  match auth env db req with Some _ => true | None => false end.

Definition authAdminOnly (env : Env) (db : DB) (req : Request) : bool :=
  match auth env db req with
  | Some user => Role_eqb (au_role user) ADMIN
  | None => false
  end.

Definition getCurrentUser (env : Env) (db : DB) (req : Request)
  : option AuthUser := auth env db req.

Definition unauthorizedResponse : Response := json (Error "Unauthorized") 401.

(** ** POST /api/auth/logout *)

Definition logout_POST (env : Env) (db : DB) (req : Request) : DB * Response :=
  match getCurrentUser env db req with
  | None => (db, json (Message "Already logged out") 200)
  | Some user =>
      let ok := json (Message "Logged out successfully") 200 in
      match req_authorization req with
      | None => (db, ok)
      | Some authHeader =>
          if startsWith authHeader "Bearer " then
            match nth_error (split " " authHeader) 1 with
            | None => (db, json (Error "Failed to logout") 500)
            | Some token =>
                (* InvalidToken.token is @unique *)
                match findInvalidToken db token with
                | Some _ => (db, json (Error "Failed to logout") 500)
                | None =>
                    (set_invalidTokens db
                       (invalidTokens db ++
                        [{| it_token := token; it_userId := au_id user;
                            it_expiresAt := now env + 86400000 |}]),
                     ok)
                end
            end
          else (db, ok)
      end
  end.

(** ** Cart: POST /api/cart, PUT and DELETE /api/cart/:id *)

Definition findProduct (db : DB) (id : Id) : option Product :=
  find (fun p => (product_id p =? id)%string) (products db).

Definition findCartItem (db : DB) (id : Id) : option CartItem :=
  find (fun c => (ci_id c =? id)%string) (cartItems db).

(** [prisma.cartItem.findFirst({ where: { userId, productId } })]. *)
Definition findFirstCartItem (db : DB) (userId productId : Id)
  : option CartItem :=
  find (fun c => (ci_userId c =? userId)%string
                 && (ci_productId c =? productId)%string) (cartItems db).

Definition with_quantity (c : CartItem) (quantity : Z) : CartItem :=
  {| ci_id := ci_id c; ci_userId := ci_userId c;
     ci_productId := ci_productId c; ci_quantity := quantity |}.

(** [prisma.cartItem.update({ where: { id }, data: { quantity } })]. *)
Definition updateCartItem (id : Id) (quantity : Z) (l : list CartItem)
  : list CartItem :=
  map (fun c => if (ci_id c =? id)%string then with_quantity c quantity else c) l.

(** [prisma.cartItem.delete({ where: { id } })]. *)
Definition deleteCartItem (id : Id) (l : list CartItem) : list CartItem :=
  filter (fun c => negb (ci_id c =? id)%string) l.

(** [cartInputSchema.safeParse(body)]: [productId] a uuid string,
    [quantity] an integer number, at least 1. *)
Definition cartInputSchema (env : Env) (body : string -> JsVal)
  : option (Id * Z) :=
  match body "productId", body "quantity" with
  | JStr productId, JNum q =>
      if zod_uuid env productId && isInteger q && Qle_bool 1 q
      then Some (productId, Qfloor q)
      else None
  | _, _ => None
  end.

Definition cart_POST (env : Env) (db : DB) (req : Request) : DB * Response :=
  match getCurrentUser env db req with
  | None => (db, unauthorizedResponse)
  | Some user =>
      if negb (Role_eqb (au_role user) CUSTOMER) then
        (db, json (Error "Access denied. Only customers can add to cart.") 403)
      else
        match req_json req with
        | None => (db, json (Error "Failed to add item to cart") 500)
        | Some body =>
            match cartInputSchema env body with
            | None => (db, json InvalidInput 400)
            | Some (productId, quantity) =>
                match findProduct db productId with
                | None => (db, json (Error "Product not found") 404)
                | Some product =>
                    if product_stock product <? quantity then
                      (db, json (NotEnoughStock (product_stock product)) 400)
                    else
                      match findFirstCartItem db (au_id user) productId with
                      | Some existingCartItem =>
                          let newTotalQuantity :=
                            ci_quantity existingCartItem + quantity in
                          if newTotalQuantity >? product_stock product then
                            (db, json (ExceedsStock
                                         (ci_quantity existingCartItem)
                                         (product_stock product)) 400)
                          else
                            (set_cartItems db
                               (updateCartItem (ci_id existingCartItem)
                                  newTotalQuantity (cartItems db)),
                             json (CartItemData "Cart item updated"
                                     (with_quantity existingCartItem
                                        newTotalQuantity)) 200)
                      | None =>
                          let newCartItem :=
                            {| ci_id := uuid env; ci_userId := au_id user;
                               ci_productId := productId;
                               ci_quantity := quantity |} in
                          (* CartItem.id is the primary key *)
                          match findCartItem db (uuid env) with
                          | Some _ =>
                              (db, json (Error "Failed to add item to cart") 500)
                          | None =>
                              (set_cartItems db (cartItems db ++ [newCartItem]),
                               json (CartItemData "Item added to cart"
                                       newCartItem) 201)
                          end
                      end
                end
            end
        end
  end.

Definition asNumber (v : JsVal) : option Q :=
  match v with JNum q => Some q | _ => None end.

(** [a !== s] for a string [s]. *)
Definition differs (a : JsVal) (s : string) : bool :=
  match a with JStr a' => negb (a' =? s)%string | _ => true end.

Definition cart_PUT (env : Env) (db : DB) (req : Request) : DB * Response :=
  match getCurrentUser env db req with
  | None => (db, unauthorizedResponse)
  | Some user =>
      let cartItemId := req_params_id req in
      if (cartItemId =? "")%string then
        (db, json (Error "Cart item ID is required") 400)
      else
        match req_json req with
        | None => (db, json (Error "Failed to update cart item") 500)
        | Some body =>
            let quantity := body "quantity" in
            let userId := body "userId" in
            if negb (truthy userId) then
              (db, json (Error "User ID is required") 400)
            else if negb (truthy quantity) || negb (isNumber quantity)
                    || js_lt quantity 1 then
              (db, json (Error "Quantity must be a positive number") 400)
            else
              match findCartItem db cartItemId with
              | None => (db, json (Error "Cart item not found") 404)
              | Some cartItem =>
                  (* include: { product: true }, a required relation *)
                  match findProduct db (ci_productId cartItem), asNumber quantity with
                  | Some product, Some q =>
                      if differs userId (ci_userId cartItem) then
                        (db, json (Error "Access denied: This cart item does not belong to the specified user") 403)
                      else if Qltb (inject_Z (product_stock product)) q then
                        (db, json (NotEnoughStock (product_stock product)) 400)
                      else
                        (* quantity is an Int column, and no line above asks
                           for an integer *)
                        match (if isInteger q then Some (Qfloor q)
                               else prisma_int env q) with
                        | Some n =>
                            (set_cartItems db
                               (updateCartItem cartItemId n (cartItems db)),
                             json (CartItemUpdated
                                     (with_quantity cartItem n)
                                     (product_name product)
                                     (product_price product)) 200)
                        | None =>
                            (db, json (Error "Failed to update cart item") 500)
                        end
                  | _, _ => (db, json (Error "Failed to update cart item") 500)
                  end
              end
        end
  end.

Definition cart_DELETE (env : Env) (db : DB) (req : Request) : DB * Response :=
  match getCurrentUser env db req with
  | None => (db, unauthorizedResponse)
  | Some user =>
      let cartItemId := req_params_id req in
      if (cartItemId =? "")%string then
        (db, json (Error "Cart item ID is required") 400)
      else
        match req_query_userId req with
        | None => (db, json (Error "User ID is required") 400)
        | Some userId =>
            if (userId =? "")%string then
              (db, json (Error "User ID is required") 400)
            else
              match findCartItem db cartItemId with
              | None => (db, json (Error "Cart item not found") 404)
              | Some cartItem =>
                  if negb (ci_userId cartItem =? userId)%string then
                    (db, json (Error "Access denied: This cart item does not belong to the specified user") 403)
                  else
                    (set_cartItems db (deleteCartItem cartItemId (cartItems db)),
                     json (Message "Cart item removed successfully") 200)
              end
        end
  end.

(** ** Checkout: POST /api/checkout *)

(** A cart row with [include: { product: true }]. *)
Record CartLine : Type := { item : CartItem; product : Product }.

(** Loading the required relation of every row; [None] when a row has no
    product (the query throws). *)
Fixpoint includeProduct (db : DB) (l : list CartItem) : option (list CartLine) :=
  match l with
  | [] => Some []
  | c :: l' =>
      match findProduct db (ci_productId c), includeProduct db l' with
      | Some p, Some r => Some ({| item := c; product := p |} :: r)
      | _, _ => None
      end
  end.

(** [prisma.cartItem.findMany({ where: { userId } })]. *)
Definition cartOf (db : DB) (userId : Id) : list CartItem :=
  filter (fun c => (ci_userId c =? userId)%string) (cartItems db).

(** [prisma.cartItem.deleteMany({ where: { userId } })]. *)
Definition deleteManyCart (userId : Id) (l : list CartItem) : list CartItem :=
  filter (fun c => negb (ci_userId c =? userId)%string) l.

(** [cartItems.reduce((acc, item) => acc + item.product.price * item.quantity, 0)]. *)
Definition totalOf (cartLines : list CartLine) : Q :=
  fold_left
    (fun acc it =>
       (acc + product_price (product it) * inject_Z (ci_quantity (item it)))%Q)
    cartLines 0%Q.

Definition orderItemOf (orderId : Id) (it : CartLine) : OrderItem :=
  {| oi_orderId := orderId;
     oi_productId := ci_productId (item it);
     oi_price := product_price (product it);
     oi_quantity := ci_quantity (item it) |}.

Definition invoiceParams (env : Env) (orderId : Id) (totalAmount : Q)
  (email : string) : InvoiceParams :=
  {| externalId := orderId;
     amount := totalAmount;
     payerEmail := email;
     description := "Payment for Order #" ++ orderId;
     successRedirectUrl :=
       base_url env ++ "/orders/" ++ orderId ++ "?payment=success";
     failureRedirectUrl :=
       base_url env ++ "/orders/" ++ orderId ++ "?payment=failed" |}.

Definition findOrder (db : DB) (id : Id) : option Order :=
  find (fun o => (order_id o =? id)%string) (orders db).

Definition checkout_POST (env : Env) (db : DB) (req : Request) : DB * Response :=
  match getCurrentUser env db req with
  | None => (db, unauthorizedResponse)
  | Some user =>
      if negb (Role_eqb (au_role user) CUSTOMER) then
        (db, json (Error "Access denied: only customers can make payment.") 403)
      else
        match includeProduct db (cartOf db (au_id user)) with
        | None => (db, json (Error "Failed to process checkout") 500)
        | Some cartLines =>
            if (List.length cartLines =? 0)%nat then
              (db, json (Error "Cart is empty") 400)
            else
              let totalAmount := totalOf cartLines in
              match find (fun it => product_stock (product it)
                                    <? ci_quantity (item it)) cartLines with
              | Some it =>
                  (db, json (InsufficientStock
                               (product_id (product it))
                               (product_name (product it))
                               (product_stock (product it))
                               (ci_quantity (item it))) 400)
              | None =>
                  (* Order.id is the primary key *)
                  match findOrder db (uuid env) with
                  | Some _ => (db, json (Error "Failed to process checkout") 500)
                  | None =>
                      let order :=
                        {| order_id := uuid env;
                           order_userId := au_id user;
                           order_totalAmount := totalAmount;
                           order_paymentStatus := PENDING;
                           order_paymentMethod := "XENDIT" |} in
                      let db1 :=
                        set_orders db (orders db ++ [order])
                          (orderItems db
                           ++ map (orderItemOf (order_id order)) cartLines) in
                      match createXenditInvoice env
                              (invoiceParams env (order_id order) totalAmount
                                 (au_email user)) with
                      | None =>
                          (db1, json (Error "Failed to process checkout") 500)
                      | Some invoice =>
                          (set_cartItems db1
                             (deleteManyCart (au_id user) (cartItems db1)),
                           json (CheckoutOk (order_id order)
                                   (invoiceUrl invoice) totalAmount) 200)
                      end
                  end
              end
        end
  end.

(** ** Catalog administration: POST /api/products, PUT and DELETE
       /api/products/:id (JSON bodies) *)

Definition asString (v : JsVal) : option string :=
  match v with JStr s => Some s | _ => None end.

Definition isSome {A : Type} (o : option A) : bool :=
  match o with Some _ => true | None => false end.

Definition isUndefined (v : JsVal) : bool :=
  match v with JUndefined => true | _ => false end.

Definition findBrand (db : DB) (id : Id) : option Brand :=
  find (fun b => (brand_id b =? id)%string) (brands db).

Definition findCategory (db : DB) (id : Id) : option Category :=
  find (fun c => (category_id c =? id)%string) (categories db).

Definition requiredFields : list string :=
  ["name"; "description"; "price"; "stock"; "imageUrl"; "brandId"; "categoryId"].

Definition adminRequired : Response :=
  json (Error "Unauthorized - Admin access required") 403.

Definition product_POST (env : Env) (db : DB) (req : Request) : DB * Response :=
  let failed := (db, json (Error "Failed to create product") 500) in
  if negb (authAdminOnly env db req) then (db, adminRequired)
  else
    match req_json req with
    | None => failed
    | Some body =>
        let missingFields :=
          filter (fun field => isUndefined (body field)) requiredFields in
        if (0 <? List.length missingFields)%nat then
          (db, json (Error ("Missing required fields: "
                            ++ String.concat ", " missingFields)) 400)
        else if negb (isNumber (body "price")) || js_le (body "price") 0 then
          (db, json (Error "Price must be a positive number") 400)
        else if negb (isNumber (body "stock")) || js_lt (body "stock") 0
                || negb (match body "stock" with
                         | JNum q => isInteger q
                         | _ => false
                         end) then
          (db, json (Error "Stock must be a non-negative integer") 400)
        else
          (* findUnique({ where: { id } }) throws on an id that is no string *)
          match asString (body "brandId") with
          | None => failed
          | Some brandId =>
              match findBrand db brandId with
              | None => (db, json (Error "Invalid brand ID") 400)
              | Some _ =>
                  match asString (body "categoryId") with
                  | None => failed
                  | Some categoryId =>
                      match findCategory db categoryId with
                      | None => (db, json (Error "Invalid category ID") 400)
                      | Some _ =>
                          match asString (body "name"),
                                asString (body "description"),
                                asNumber (body "price"),
                                asNumber (body "stock"),
                                asString (body "imageUrl"),
                                findProduct db (uuid env) with
                          | Some name, Some descr, Some price, Some stock,
                            Some imageUrl, None =>
                              let product :=
                                {| product_id := uuid env;
                                   product_name := name;
                                   product_description := descr;
                                   product_price := price;
                                   product_stock := Qfloor stock;
                                   product_imageUrl := imageUrl;
                                   product_brandId := brandId;
                                   product_categoryId := categoryId |} in
                              (set_products db (products db ++ [product]),
                               json (ProductData product) 201)
                          | _, _, _, _, _, _ => failed
                          end
                      end
                  end
              end
          end
    end.

(** *** The constraints of the schema

    The primary keys, the [@unique] columns and the relations of the
    schema are constraints of the database: a write whose result breaks
    one is refused. *)

Fixpoint distinct (l : list string) : bool :=
  match l with
  | [] => true
  | x :: r => negb (existsb (String.eqb x) r) && distinct r
  end.

Definition refers (ids : list Id) (id : Id) : bool :=
  existsb (String.eqb id) ids.

Definition constraints (db : DB) : bool :=
  (* @id *)
  distinct (map user_id (users db))
  && distinct (map brand_id (brands db))
  && distinct (map category_id (categories db))
  && distinct (map product_id (products db))
  && distinct (map ci_id (cartItems db))
  && distinct (map order_id (orders db))
  (* @unique *)
  && distinct (map user_email (users db))
  && distinct (map brand_name (brands db))
  && distinct (map category_name (categories db))
  (* @relation *)
  && forallb (fun p => refers (map brand_id (brands db)) (product_brandId p)
                       && refers (map category_id (categories db))
                            (product_categoryId p)) (products db)
  && forallb (fun r => refers (map user_id (users db)) (pr_userId r)
                       && refers (map product_id (products db))
                            (pr_productId r)) (reviews db)
  && forallb (fun c => refers (map user_id (users db)) (ci_userId c)
                       && refers (map product_id (products db))
                            (ci_productId c)) (cartItems db)
  && forallb (fun o => refers (map user_id (users db)) (order_userId o))
       (orders db)
  && forallb (fun oi => refers (map order_id (orders db)) (oi_orderId oi)
                        && refers (map product_id (products db))
                             (oi_productId oi)) (orderItems db).

(** *** [data: body]

    The update hands the whole body to the client. *)

(** The scalar columns of [Product] that the handler's input type names. *)
Definition scalarColumns : list string :=
  ["name"; "description"; "price"; "stock"; "imageUrl"; "brandId";
   "categoryId"].

Definition stringColumns : list string :=
  ["name"; "description"; "imageUrl"; "brandId"; "categoryId"].

(** The body writes scalar columns with values of their types: each of its
    keys is a scalar column, and a [String] column is absent or gets a
    string ([price] and [stock] have been checked to be numbers, [stock]
    an integer).  Anything else (a relation, [id], a field operation such
    as [{ set: ... }], a value of another type) is for the client to
    judge. *)
Definition scalarData (keys : list string) (body : string -> JsVal) : bool :=
  forallb (fun k => existsb (String.eqb k) scalarColumns) keys
  && forallb (fun k => isUndefined (body k) || isSome (asString (body k)))
       stringColumns.

(** A field of [data: body] in an update of scalar columns, for a
    [String] column: absent or a string (no other value gets there). *)
Definition optString (v : JsVal) (old : string) : option string :=
  match v with
  | JUndefined => Some old
  | JStr s => Some s
  | _ => None
  end.

(** [prisma.product.update({ where: { id }, data })] on the rows of one id. *)
Definition updateProduct (id : Id) (p' : Product) (l : list Product)
  : list Product :=
  map (fun p => if (product_id p =? id)%string then p' else p) l.

Definition product_PUT (env : Env) (db : DB) (req : Request) : DB * Response :=
  let id := req_params_id req in
  let failed := (db, json (Error "Failed to update product") 500) in
  match getCurrentUser env db req with
  | None => (db, unauthorizedResponse)
  | Some currentUser =>
      if negb (authAdminOnly env db req) then (db, adminRequired)
      else if (id =? "")%string then
        (db, json (Error "Product ID is required") 400)
      else
        match findProduct db id with
        | None => (db, json (Error "Product not found") 404)
        | Some existingProduct =>
            match req_json req with
            | None => failed
            | Some body =>
                if negb (isUndefined (body "price"))
                   && (negb (isNumber (body "price")) || js_le (body "price") 0)
                then (db, json (Error "Price must be a positive number") 400)
                else if negb (isUndefined (body "stock"))
                        && (negb (isNumber (body "stock"))
                            || js_lt (body "stock") 0
                            || negb (match body "stock" with
                                     | JNum q => isInteger q
                                     | _ => false
                                     end))
                then (db, json (Error "Stock must be a non-negative integer") 400)
                else
                  let brandOk :=
                    if truthy (body "brandId") then
                      match asString (body "brandId") with
                      | Some b => Some (isSome (findBrand db b))
                      | None => None
                      end
                    else Some true in
                  let categoryOk :=
                    if truthy (body "categoryId") then
                      match asString (body "categoryId") with
                      | Some c => Some (isSome (findCategory db c))
                      | None => None
                      end
                    else Some true in
                  match brandOk with
                  | None => failed
                  | Some false => (db, json (Error "Invalid brand ID") 400)
                  | Some true =>
                      match categoryOk with
                      | None => failed
                      | Some false =>
                          (db, json (Error "Invalid category ID") 400)
                      | Some true =>
                          if negb (scalarData (req_json_keys req) body) then
                            (* relations, [id], field operations: the client's
                               nested writes, in one transaction; they reach
                               every table but [InvalidToken], which has no
                               relation *)
                            match prisma_update env db id body with
                            | None => failed
                            | Some (written, updatedProduct) =>
                                let db' :=
                                  set_invalidTokens written (invalidTokens db) in
                                if constraints db' then
                                  (db', json (ProductData updatedProduct) 200)
                                else failed
                            end
                          else
                          (* scalar columns with plain values: the row of
                             the id is rewritten *)
                          match optString (body "name") (product_name existingProduct),
                                optString (body "description")
                                  (product_description existingProduct),
                                optString (body "imageUrl")
                                  (product_imageUrl existingProduct),
                                optString (body "brandId")
                                  (product_brandId existingProduct),
                                optString (body "categoryId")
                                  (product_categoryId existingProduct) with
                          | Some name, Some descr, Some imageUrl,
                            Some brandId, Some categoryId =>
                              (* foreign keys of the columns written *)
                              if (isUndefined (body "brandId")
                                  || isSome (findBrand db brandId))
                                 && (isUndefined (body "categoryId")
                                     || isSome (findCategory db categoryId))
                              then
                                  let updatedProduct :=
                                    {| product_id := product_id existingProduct;
                                       product_name := name;
                                       product_description := descr;
                                       product_price :=
                                         match body "price" with
                                         | JNum q => q
                                         | _ => product_price existingProduct
                                         end;
                                       product_stock :=
                                         match body "stock" with
                                         | JNum q => Qfloor q
                                         | _ => product_stock existingProduct
                                         end;
                                       product_imageUrl := imageUrl;
                                       product_brandId := brandId;
                                       product_categoryId := categoryId |} in
                                  (set_products db
                                     (updateProduct id updatedProduct
                                        (products db)),
                                   json (ProductData updatedProduct) 200)
                              else failed
                          | _, _, _, _, _ => failed
                          end
                      end
                  end
            end
        end
  end.

Definition product_DELETE (env : Env) (db : DB) (req : Request) : DB * Response :=
  let id := req_params_id req in
  match getCurrentUser env db req with
  | None => (db, unauthorizedResponse)
  | Some currentUser =>
      if negb (authAdminOnly env db req) then (db, adminRequired)
      else if (id =? "")%string then
        (db, json (Error "Product ID is required") 400)
      else
        match findProduct db id with
        | None => (db, json (Error "Product not found") 404)
        | Some existingProduct =>
            match find (fun oi => (oi_productId oi =? id)%string)
                    (orderItems db) with
            | Some hasOrderItems =>
                (db, json (Error "Cannot delete product with existing orders") 400)
            | None =>
                (* $transaction: reviews, cart items, then the product *)
                let db1 :=
                  set_reviews db
                    (filter (fun r => negb (pr_productId r =? id)%string)
                       (reviews db)) in
                let db2 :=
                  set_cartItems db1
                    (filter (fun c => negb (ci_productId c =? id)%string)
                       (cartItems db1)) in
                let db3 :=
                  set_products db2
                    (filter (fun p => negb (product_id p =? id)%string)
                       (products db2)) in
                (db3, json (Message "Product deleted successfully") 200)
            end
        end
  end.

(** ** Catalog administration with multipart forms: POST /api/products,
       PUT and DELETE /api/products/:id *)

(** Truthiness of [formData.get(field)]. *)
Definition formTruthy (v : option FormValue) : bool :=
  match v with
  | None => false
  | Some (FText s) => negb (s =? "")%string
  | Some (FFile _ _) => true
  end.

(** The string a form value is read as by [parseFloat] and [parseInt]. *)
Definition formString (v : option FormValue) : string :=
  match v with
  | None => "null"
  | Some (FText s) => s
  | Some (FFile _ _) => "[object File]"
  end.

Definition base64Image (type base64 : string) : string :=
  "data:" ++ type ++ ";base64," ++ base64.

Definition requiredFormFields : list string :=
  ["name"; "description"; "price"; "stock"; "brandId"; "categoryId"].

Definition product_POST_form (env : Env) (db : DB) (req : Request)
  : DB * Response :=
  let failed := (db, json (Error "Failed to create product") 500) in
  if negb (authAdminOnly env db req) then (db, adminRequired)
  else
    match req_formData req with
    | None => failed
    | Some formData =>
        let price := parseFloat env (formString (formData "price")) in
        let stock := parseInt env (formString (formData "stock")) in
        let missingFields :=
          filter (fun field => negb (formTruthy (formData field)))
            requiredFormFields in
        if (0 <? List.length missingFields)%nat then
          (db, json (Error ("Missing required fields: "
                            ++ String.concat ", " missingFields)) 400)
        else
          match price with
          | None => (db, json (Error "Price must be a positive number") 400)
          | Some price =>
              if Qle_bool price 0 then
                (db, json (Error "Price must be a positive number") 400)
              else
                match stock with
                | None =>
                    (db, json (Error "Stock must be a non-negative integer") 400)
                | Some stock =>
                    if stock <? 0 then
                      (db, json (Error "Stock must be a non-negative integer")
                             400)
                    else
                      (* Promise.all of the two findUnique *)
                      match formData "brandId", formData "categoryId" with
                      | Some (FText brandId), Some (FText categoryId) =>
                          match findBrand db brandId with
                          | None => (db, json (Error "Invalid brand ID") 400)
                          | Some _ =>
                              match findCategory db categoryId with
                              | None =>
                                  (db, json (Error "Invalid category ID") 400)
                              | Some _ =>
                                  match formData "imageFile" with
                                  | Some (FFile type base64) =>
                                      match cloudinary_upload env
                                              (base64Image type base64) with
                                      | None =>
                                          (db, json (Error "Failed to upload image")
                                                 500)
                                      | Some imageUrl =>
                                          match formData "name",
                                                formData "description",
                                                findProduct db (uuid env) with
                                          | Some (FText name),
                                            Some (FText descr), None =>
                                              let product :=
                                                {| product_id := uuid env;
                                                   product_name := name;
                                                   product_description := descr;
                                                   product_price := price;
                                                   product_stock := stock;
                                                   product_imageUrl := imageUrl;
                                                   product_brandId := brandId;
                                                   product_categoryId :=
                                                     categoryId |} in
                                              (set_products db
                                                 (products db ++ [product]),
                                               json (ProductData product) 201)
                                          | _, _, _ => failed
                                          end
                                      end
                                  | Some (FText s) =>
                                      if (s =? "")%string then
                                        (db, json (Error "Product image is required")
                                               400)
                                      else
                                        (* imageFile.arrayBuffer is no function *)
                                        failed
                                  | None =>
                                      (db, json (Error "Product image is required")
                                             400)
                                  end
                              end
                          end
                      | _, _ => failed
                      end
                end
          end
    end.

(** A text field of the form in an update of a [String] column: absent,
    a string, or a file, which the client library rejects. *)
Definition formText (v : option FormValue) (old : string) : option string :=
  match v with
  | None => Some old
  | Some (FText s) => Some s
  | Some (FFile _ _) => None
  end.

Definition product_PUT_form (env : Env) (db : DB) (req : Request)
  : DB * Response :=
  let id := req_params_id req in
  let failed := (db, json (Error "Failed to update product") 500) in
  match getCurrentUser env db req with
  | None => (db, unauthorizedResponse)
  | Some currentUser =>
      if negb (authAdminOnly env db req) then (db, adminRequired)
      else if (id =? "")%string then
        (db, json (Error "Product ID is required") 400)
      else
        match findProduct db id with
        | None => (db, json (Error "Product not found") 404)
        | Some existingProduct =>
            match req_formData req with
            | None => failed
            | Some formData =>
                let price := formData "price" in
                let stock := formData "stock" in
                let brandId := formData "brandId" in
                let categoryId := formData "categoryId" in
                let imageFile := formData "imageFile" in
                let removeImage :=
                  match formData "removeImage" with
                  | Some (FText s) => (s =? "true")%string
                  | _ => false
                  end in
                (* updateData.price, updateData.stock: [None] is undefined *)
                let priceValue := parseFloat env (formString price) in
                let stockValue := parseInt env (formString stock) in
                if formTruthy price && negb (isSome priceValue) then
                  (db, json (Error "Price must be a valid number") 400)
                else if formTruthy stock && negb (isSome stockValue) then
                  (db, json (Error "Stock must be a valid integer") 400)
                else
                  let updatePrice :=
                    if formTruthy price then priceValue else None in
                  let updateStock :=
                    if formTruthy stock then stockValue else None in
                  if match updatePrice with
                     | Some q => Qle_bool q 0
                     | None => false
                     end then
                    (db, json (Error "Price must be a positive number") 400)
                  else if match updateStock with
                          | Some z => z <? 0
                          | None => false
                          end then
                    (db, json (Error "Stock must be a non-negative integer") 400)
                  else
                    let brandOk :=
                      if formTruthy brandId then
                        match brandId with
                        | Some (FText b) => Some (isSome (findBrand db b))
                        | _ => None
                        end
                      else Some true in
                    let categoryOk :=
                      if formTruthy categoryId then
                        match categoryId with
                        | Some (FText c) => Some (isSome (findCategory db c))
                        | _ => None
                        end
                      else Some true in
                    match brandOk with
                    | None => failed
                    | Some false => (db, json (Error "Invalid brand ID") 400)
                    | Some true =>
                        match categoryOk with
                        | None => failed
                        | Some false =>
                            (db, json (Error "Invalid category ID") 400)
                        | Some true =>
                            (* the update, with updateData.imageUrl set or not *)
                            let update (imageUrl : option string) :=
                              match formText (formData "name")
                                      (product_name existingProduct),
                                    formText (formData "description")
                                      (product_description existingProduct),
                                    formText brandId
                                      (product_brandId existingProduct),
                                    formText categoryId
                                      (product_categoryId existingProduct) with
                              | Some name, Some descr, Some brandId',
                                Some categoryId' =>
                                  (* foreign keys of the columns written *)
                                  if (negb (isSome brandId)
                                      || isSome (findBrand db brandId'))
                                     && (negb (isSome categoryId)
                                         || isSome (findCategory db categoryId'))
                                  then
                                    let updatedProduct :=
                                      {| product_id :=
                                           product_id existingProduct;
                                         product_name := name;
                                         product_description := descr;
                                         product_price :=
                                           match updatePrice with
                                           | Some q => q
                                           | None =>
                                               product_price existingProduct
                                           end;
                                         product_stock :=
                                           match updateStock with
                                           | Some z => z
                                           | None =>
                                               product_stock existingProduct
                                           end;
                                         product_imageUrl :=
                                           match imageUrl with
                                           | Some url => url
                                           | None =>
                                               product_imageUrl existingProduct
                                           end;
                                         product_brandId := brandId';
                                         product_categoryId := categoryId' |} in
                                    (set_products db
                                       (updateProduct id updatedProduct
                                          (products db)),
                                     json (ProductData updatedProduct) 200)
                                  else failed
                              | _, _, _, _ => failed
                              end in
                            match imageFile with
                            | Some (FFile type base64) =>
                                match cloudinary_upload env
                                        (base64Image type base64) with
                                | None =>
                                    (db, json (Error "Failed to upload new image")
                                           500)
                                | Some url => update (Some url)
                                end
                            | _ =>
                                if formTruthy imageFile then
                                  (* imageFile.arrayBuffer is no function *)
                                  failed
                                else if removeImage then
                                  (* imageUrl: null on a required column *)
                                  failed
                                else update None
                            end
                        end
                    end
            end
        end
  end.

Definition product_DELETE_form (env : Env) (db : DB) (req : Request)
  : DB * Response :=
  let id := req_params_id req in
  match getCurrentUser env db req with
  | None => (db, unauthorizedResponse)
  | Some currentUser =>
      if negb (authAdminOnly env db req) then (db, adminRequired)
      else if (id =? "")%string then
        (db, json (Error "Product ID is required") 400)
      else
        match findProduct db id with
        | None => (db, json (Error "Product not found") 404)
        | Some existingProduct =>
            (* include: { reviews: true, CartItem: true, orderItems: true } *)
            let reviews' :=
              filter (fun r => (pr_productId r =? id)%string) (reviews db) in
            let CartItem' :=
              filter (fun c => (ci_productId c =? id)%string) (cartItems db) in
            let orderItems' :=
              filter (fun oi => (oi_productId oi =? id)%string)
                (orderItems db) in
            if (0 <? List.length orderItems')%nat then
              (db, json (CannotDelete (List.length orderItems')) 400)
            else
              let db1 :=
                if (0 <? List.length reviews')%nat then
                  set_reviews db
                    (filter (fun r => negb (pr_productId r =? id)%string)
                       (reviews db))
                else db in
              let db2 :=
                if (0 <? List.length CartItem')%nat then
                  set_cartItems db1
                    (filter (fun c => negb (ci_productId c =? id)%string)
                       (cartItems db1))
                else db1 in
              let db3 :=
                set_products db2
                  (filter (fun p => negb (product_id p =? id)%string)
                     (products db2)) in
              (db3, json (ProductDeleted id
                            (negb (product_imageUrl existingProduct =? "")%string))
                      200)
        end
  end.

(** ** Requests in sequence *)

Inductive Op : Type :=
| CartAdd | CartUpdate | CartRemove | Checkout
| ProductCreate | ProductUpdate | ProductDelete
| ProductCreateForm | ProductUpdateForm | ProductDeleteForm
| Logout.

Definition handle (op : Op) : Env -> DB -> Request -> DB * Response :=
  match op with
  | CartAdd => cart_POST
  | CartUpdate => cart_PUT
  | CartRemove => cart_DELETE
  | Checkout => checkout_POST
  | ProductCreate => product_POST
  | ProductUpdate => product_PUT
  | ProductDelete => product_DELETE
  | ProductCreateForm => product_POST_form
  | ProductUpdateForm => product_PUT_form
  | ProductDeleteForm => product_DELETE_form
  | Logout => logout_POST
  end.

Record Call : Type := { call_op : Op; call_env : Env; call_req : Request }.

Definition step (db : DB) (c : Call) : DB :=
  fst (handle (call_op c) (call_env c) db (call_req c)).

Definition run (db : DB) (calls : list Call) : DB := fold_left step calls db.

(** ** Checkout at the grain of its awaited calls

    Between two [await]s a handler runs alone; at an [await] another
    request may be served.  [Pc] is where a checkout request stands: the
    constructor names the awaited call that comes next and holds the local
    variables that are live there. *)

Inductive Pc : Type :=
| AtInvalidToken
| AtFindUser (token : string)
| AtFindMany (user : AuthUser)
| AtOrderCreate (user : AuthUser) (cartLines : list CartLine)
| AtInvoice (user : AuthUser) (order : Order)
| AtDeleteMany (user : AuthUser) (order : Order) (invoice : Invoice)
| Returned (r : Response).

Definition checkout_step (env : Env) (req : Request) (pc : Pc) (db : DB)
  : Pc * DB :=
  match pc with
  | AtInvalidToken =>
      match req_authorization req with
      | None => (Returned unauthorizedResponse, db)
      | Some authHeader =>
          if negb (startsWith authHeader "Bearer ") then
            (Returned unauthorizedResponse, db)
          else
            match nth_error (split " " authHeader) 1 with
            | None => (Returned unauthorizedResponse, db)
            | Some token =>
                match findInvalidToken db token with
                | Some _ => (Returned unauthorizedResponse, db)
                | None => (AtFindUser token, db)
                end
            end
      end
  | AtFindUser token =>
      match jwt_verify env token with
      | None => (Returned unauthorizedResponse, db)
      | Some decoded =>
          match findUser db (jwt_userId decoded) with
          | None => (Returned unauthorizedResponse, db)
          | Some u =>
              let user := {| au_id := user_id u; au_email := user_email u;
                             au_name := user_name u; au_role := user_role u |} in
              if negb (Role_eqb (au_role user) CUSTOMER) then
                (Returned
                   (json (Error "Access denied: only customers can make payment.")
                      403), db)
              else (AtFindMany user, db)
          end
      end
  | AtFindMany user =>
      match includeProduct db (cartOf db (au_id user)) with
      | None => (Returned (json (Error "Failed to process checkout") 500), db)
      | Some cartLines =>
          if (List.length cartLines =? 0)%nat then
            (Returned (json (Error "Cart is empty") 400), db)
          else
            match find (fun it => product_stock (product it)
                                  <? ci_quantity (item it)) cartLines with
            | Some it =>
                (Returned (json (InsufficientStock
                                   (product_id (product it))
                                   (product_name (product it))
                                   (product_stock (product it))
                                   (ci_quantity (item it))) 400), db)
            | None => (AtOrderCreate user cartLines, db)
            end
      end
  | AtOrderCreate user cartLines =>
      match findOrder db (uuid env) with
      | Some _ => (Returned (json (Error "Failed to process checkout") 500), db)
      | None =>
          let order :=
            {| order_id := uuid env;
               order_userId := au_id user;
               order_totalAmount := totalOf cartLines;
               order_paymentStatus := PENDING;
               order_paymentMethod := "XENDIT" |} in
          (AtInvoice user order,
           set_orders db (orders db ++ [order])
             (orderItems db ++ map (orderItemOf (order_id order)) cartLines))
      end
  | AtInvoice user order =>
      match createXenditInvoice env
              (invoiceParams env (order_id order) (order_totalAmount order)
                 (au_email user)) with
      | None => (Returned (json (Error "Failed to process checkout") 500), db)
      | Some invoice => (AtDeleteMany user order invoice, db)
      end
  | AtDeleteMany user order invoice =>
      (Returned (json (CheckoutOk (order_id order) (invoiceUrl invoice)
                         (order_totalAmount order)) 200),
       set_cartItems db (deleteManyCart (au_id user) (cartItems db)))
  | Returned r => (Returned r, db)
  end.

Fixpoint checkout_steps (n : nat) (env : Env) (req : Request) (pc : Pc) (db : DB)
  : Pc * DB :=
  match n with
  | O => (pc, db)
  | S n' =>
      let (pc', db') := checkout_step env req pc db in
      checkout_steps n' env req pc' db'
  end.

(** A checkout has six awaited calls. *)
Definition awaits : nat := 6.

(** Two checkout requests served together.  The schedule says whose awaited
    call is served next ([true]: the first request); when it is used up the
    first request runs to its end, then the second. *)
Fixpoint interleave (sched : list bool) (envA : Env) (reqA : Request)
  (envB : Env) (reqB : Request) (pcA pcB : Pc) (db : DB) : Pc * Pc * DB :=
  match sched with
  | [] =>
      let (pcA', db1) := checkout_steps awaits envA reqA pcA db in
      let (pcB', db2) := checkout_steps awaits envB reqB pcB db1 in
      (pcA', pcB', db2)
  | true :: sched' =>
      let (pcA', db') := checkout_step envA reqA pcA db in
      interleave sched' envA reqA envB reqB pcA' pcB db'
  | false :: sched' =>
      let (pcB', db') := checkout_step envB reqB pcB db in
      interleave sched' envA reqA envB reqB pcA pcB' db'
  end.

Definition concurrent_checkouts (sched : list bool) (envA : Env)
  (reqA : Request) (envB : Env) (reqB : Request) (db : DB) : Pc * Pc * DB :=
  interleave sched envA reqA envB reqB AtInvalidToken AtInvalidToken db.

(** ** Predicates of the statements *)

(** Σ (OrderItem.price × OrderItem.quantity), in row order. *)
Definition orderItemsTotal (l : list OrderItem) : Q :=
  fold_left (fun acc oi => (acc + oi_price oi * inject_Z (oi_quantity oi))%Q)
    l 0%Q.

(** The rows of [OrderItem] that belong to an order. *)
Definition itemsOfOrder (db : DB) (orderId : Id) : list OrderItem :=
  filter (fun oi => (oi_orderId oi =? orderId)%string) (orderItems db).

(** The request carries [Authorization: Bearer <token>]. *)
Definition presents (req : Request) (token : string) : Prop :=
  exists authHeader,
    req_authorization req = Some authHeader /\
    startsWith authHeader "Bearer " = true /\
    nth_error (split " " authHeader) 1 = Some token.

Definition revoked (db : DB) (token : string) : Prop :=
  In token (map it_token (invalidTokens db)).


(** Every [OrderItem.productId] is the id of a row of [Product]. *)
Definition order_items_resolve (db : DB) : Prop :=
  Forall (fun oi => findProduct db (oi_productId oi) <> None) (orderItems db).

(** Every [OrderItem.orderId] is the id of a row of [Order]. *)
Definition order_items_owned (db : DB) : Prop :=
  Forall (fun oi => findOrder db (oi_orderId oi) <> None) (orderItems db).

(** The quantity the caller already has in the cart for a product. *)
Definition existingQuantity (db : DB) (userId productId : Id) : Z :=
  match findFirstCartItem db userId productId with
  | Some c => ci_quantity c
  | None => 0
  end.

(** Users, revoked tokens and products are the same in both stores. *)
Record same_catalog (db db' : DB) : Prop := {
  same_users : users db' = users db;
  same_invalidTokens : invalidTokens db' = invalidTokens db;
  same_products : products db' = products db }.

(** The caller's cart can be checked out: every row has its product, no row
    asks for more than the stock, and the gateway accepts the invoice. *)
Definition cart_ready (env : Env) (user : AuthUser) (db : DB) : Prop :=
  exists cartLines,
    includeProduct db (cartOf db (au_id user)) = Some cartLines /\
    cartLines <> [] /\
    (forall it, In it cartLines ->
                ci_quantity (item it) <= product_stock (product it)) /\
    createXenditInvoice env
      (invoiceParams env (uuid env) (totalOf cartLines) (au_email user))
    <> None.

(** The part of the store a checkout of [user] with the order id of [env]
    looks at is the same in both stores. *)
Record agree (env : Env) (user : AuthUser) (db db' : DB) : Prop := {
  agree_catalog : same_catalog db db';
  agree_cart : cartOf db' (au_id user) = cartOf db (au_id user);
  agree_order : findOrder db' (uuid env) = findOrder db (uuid env) }.

(** A checkout request of the customer [user] that stands at [pc] has met
    no obstacle so far and will meet none. *)
Definition on_course (env : Env) (req : Request) (user : AuthUser) (pc : Pc)
  (db : DB) : Prop :=
  au_role user = CUSTOMER /\
  match pc with
  | AtInvalidToken =>
      auth env db req = Some user /\ cart_ready env user db /\
      findOrder db (uuid env) = None
  | AtFindUser token =>
      (exists decoded u,
          jwt_verify env token = Some decoded /\
          findUser db (jwt_userId decoded) = Some u /\
          user = {| au_id := user_id u; au_email := user_email u;
                    au_name := user_name u; au_role := user_role u |}) /\
      cart_ready env user db /\ findOrder db (uuid env) = None
  | AtFindMany user' =>
      user' = user /\ cart_ready env user db /\
      findOrder db (uuid env) = None
  | AtOrderCreate user' cartLines =>
      user' = user /\
      createXenditInvoice env
        (invoiceParams env (uuid env) (totalOf cartLines) (au_email user))
      <> None /\
      findOrder db (uuid env) = None
  | AtInvoice user' order =>
      user' = user /\ order_id order = uuid env /\
      createXenditInvoice env
        (invoiceParams env (order_id order) (order_totalAmount order)
           (au_email user))
      <> None /\
      findOrder db (uuid env) <> None
  | AtDeleteMany user' order invoice =>
      user' = user /\ order_id order = uuid env /\
      findOrder db (uuid env) <> None
  | Returned r =>
      (exists url total, r = json (CheckoutOk (uuid env) url total) 200) /\
      findOrder db (uuid env) <> None
  end.

(** The awaited calls a request at [pc] has still to make. *)
Definition remaining (pc : Pc) : nat :=
  match pc with
  | AtInvalidToken => 6
  | AtFindUser _ => 5
  | AtFindMany _ => 4
  | AtOrderCreate _ _ => 3
  | AtInvoice _ _ => 2
  | AtDeleteMany _ _ _ => 1
  | Returned _ => 0
  end.

(** A 2xx answer. *)
Definition succeeded (r : Response) : Prop := (200 <= status r < 300)%nat.


(** ** A small shop, for the examples *)

Module Shop.

Definition alice : User :=
  {| user_id := "u-alice"; user_name := "Alice";
     user_email := "alice@example.com"; user_password := "$2a$alice";
     user_role := CUSTOMER |}.

Definition bob : User :=
  {| user_id := "u-bob"; user_name := "Bob";
     user_email := "bob@example.com"; user_password := "$2a$bob";
     user_role := CUSTOMER |}.

Definition erin : User :=
  {| user_id := "u-erin"; user_name := "Erin";
     user_email := "erin@example.com"; user_password := "$2a$erin";
     user_role := CUSTOMER |}.

Definition carol : User :=
  {| user_id := "u-carol"; user_name := "Carol";
     user_email := "carol@example.com"; user_password := "$2a$carol";
     user_role := ADMIN |}.

Definition keyboardId : Id := "11111111-1111-4111-8111-111111111111".
Definition mouseId : Id := "22222222-2222-4222-8222-222222222222".
Definition cableId : Id := "33333333-3333-4333-8333-333333333333".

Definition keyboard : Product :=
  {| product_id := keyboardId; product_name := "Keyboard";
     product_description := "Mechanical keyboard";
     product_price := 10#1; product_stock := 5;
     product_imageUrl := "https://img.example.com/keyboard.png";
     product_brandId := "b-1"; product_categoryId := "c-1" |}.

Definition mouse : Product :=
  {| product_id := mouseId; product_name := "Mouse";
     product_description := "Wireless mouse";
     product_price := 11#2; product_stock := 1;
     product_imageUrl := "https://img.example.com/mouse.png";
     product_brandId := "b-1"; product_categoryId := "c-1" |}.

Definition aliceKeyboard : CartItem :=
  {| ci_id := "ci-1"; ci_userId := "u-alice";
     ci_productId := keyboardId; ci_quantity := 2 |}.

Definition aliceMouse : CartItem :=
  {| ci_id := "ci-2"; ci_userId := "u-alice";
     ci_productId := mouseId; ci_quantity := 1 |}.

Definition bobMouse : CartItem :=
  {| ci_id := "ci-3"; ci_userId := "u-bob";
     ci_productId := mouseId; ci_quantity := 1 |}.

Definition db0 : DB :=
  {| users := [alice; bob; erin; carol];
     invalidTokens := [];
     brands := [{| brand_id := "b-1"; brand_name := "Acme" |}];
     categories := [{| category_id := "c-1"; category_name := "Peripherals" |}];
     products := [keyboard; mouse];
     reviews := [];
     cartItems := [aliceKeyboard; aliceMouse; bobMouse];
     orders := [];
     orderItems := [] |}.

(** The token ["tok-" ++ id] is a valid token of the user [id]. *)
Definition verify (token : string) : option JwtPayload :=
  if prefix "tok-" token
  then Some {| jwt_userId := "u-" ++ substring 4 (String.length token) token;
               jwt_email := "" |}
  else None.

Definition gateway_up (p : InvoiceParams) : option Invoice :=
  Some {| invoiceId := "inv-" ++ externalId p;
          invoiceUrl := "https://checkout.xendit.co/web/" ++ externalId p |}.

Definition gateway_down (p : InvoiceParams) : option Invoice := None.

Definition env_with (gateway : InvoiceParams -> option Invoice) (id : Id)
  : Env :=
  {| jwt_verify := verify;
     createXenditInvoice := gateway;
     zod_uuid := fun s => (String.length s =? 36)%nat;
     parseFloat := fun _ => None;
     parseInt := fun _ => None;
     cloudinary_upload := fun _ => None;
     prisma_int := fun _ => None;
     field_operation := None;
     prisma_update := fun _ _ _ => None;
     toFixed2 := fun x => x;
     uuid := id;
     now := 1700000000000;
     base_url := "https://shop.example.com" |}.

Definition env (id : Id) : Env := env_with gateway_up id.

Definition bearer (token : string) : Request :=
  {| req_authorization := Some ("Bearer " ++ token);
     req_params_id := "";
     req_query_userId := None;
     req_json := None;
     req_json_keys := [];
     req_formData := None |}.

Definition with_id (req : Request) (id : string) : Request :=
  {| req_authorization := req_authorization req;
     req_params_id := id;
     req_query_userId := req_query_userId req;
     req_json := req_json req;
     req_json_keys := req_json_keys req;
     req_formData := req_formData req |}.

Definition with_query_userId (req : Request) (userId : string) : Request :=
  {| req_authorization := req_authorization req;
     req_params_id := req_params_id req;
     req_query_userId := Some userId;
     req_json := req_json req;
     req_json_keys := req_json_keys req;
     req_formData := req_formData req |}.

Definition with_json (req : Request) (fields : list (string * JsVal))
  : Request :=
  {| req_authorization := req_authorization req;
     req_params_id := req_params_id req;
     req_query_userId := req_query_userId req;
     req_json :=
       Some (fun name =>
               match find (fun kv => (fst kv =? name)%string) fields with
               | Some kv => snd kv
               | None => JUndefined
               end);
     req_json_keys := map fst fields;
     req_formData := req_formData req |}.

(** The keyboard is down to one piece. *)
Definition db_short : DB :=
  set_products db0
    [{| product_id := keyboardId; product_name := "Keyboard";
        product_description := "Mechanical keyboard";
        product_price := 10#1; product_stock := 1;
        product_imageUrl := "https://img.example.com/keyboard.png";
        product_brandId := "b-1"; product_categoryId := "c-1" |};
     mouse].

(** Alice has checked out. *)
Definition db_ordered : DB :=
  fst (checkout_POST (env "o-1") db0 (bearer "tok-alice")).

End Shop.

(** ** Brands, categories and users: the answers of these routes *)

Definition set_users (db : DB) (l : list User) : DB :=
  {| users := l; invalidTokens := invalidTokens db; brands := brands db;
     categories := categories db; products := products db;
     reviews := reviews db; cartItems := cartItems db;
     orders := orders db; orderItems := orderItems db |}.

Definition set_brands (db : DB) (l : list Brand) : DB :=
  {| users := users db; invalidTokens := invalidTokens db; brands := l;
     categories := categories db; products := products db;
     reviews := reviews db; cartItems := cartItems db;
     orders := orders db; orderItems := orderItems db |}.

Definition set_categories (db : DB) (l : list Category) : DB :=
  {| users := users db; invalidTokens := invalidTokens db; brands := brands db;
     categories := l; products := products db;
     reviews := reviews db; cartItems := cartItems db;
     orders := orders db; orderItems := orderItems db |}.

(** The JSON bodies these routes answer with. *)
Inductive Answer : Type :=
| AError (error : string)
| AFailure (error : string)
| AMessage (message : string)
| ABrand (brand : Brand)
| ABrandData (data : Brand)
| ACategory (category : Category)
| ACategoryData (data : Category)
| ASession (user : AuthUser) (token : string)
| ALogin (user : AuthUser) (accessToken : string)
| AAdmin (data : AuthUser) (status : nat)
| ACart (items : list CartLine) (totalPrice : Q) (itemCount : nat).

Record Reply : Type := { reply_status : nat; reply_body : Answer }.

Definition reply (b : Answer) (st : nat) : Reply :=
  {| reply_status := st; reply_body := b |}.

Definition adminOnly : Reply :=
  reply (AError "Unauthorized - Admin access required") 403.

(** ** Brands: POST /api/brands, PUT and DELETE /api/brands/:id *)

(** A value sent for a [String] column in an update: a string, or a value
    the client turns into one (a field operation) or refuses. *)
Definition updateString (env : Env) (v : JsVal) : option string :=
  match v with
  | JStr s => Some s
  | _ => field_operation env
  end.

Definition findBrandByName (db : DB) (name : string) : option Brand :=
  find (fun b => (brand_name b =? name)%string) (brands db).

Definition brand_POST (env : Env) (db : DB) (req : Request) : DB * Reply :=
  let failed := (db, reply (AFailure "Failed to create brand") 500) in
  if negb (authAdminOnly env db req) then (db, adminOnly)
  else
    match req_json req with
    | None => failed
    | Some body =>
        if negb (truthy (body "name")) then
          (db, reply (AError "Brand name is required") 400)
        else
          (* name is a String column, @unique; id is the primary key *)
          match asString (body "name") with
          | None => failed
          | Some name =>
              match findBrandByName db name, findBrand db (uuid env) with
              | None, None =>
                  let brand := {| brand_id := uuid env; brand_name := name |} in
                  (set_brands db (brands db ++ [brand]),
                   reply (ABrand brand) 201)
              | _, _ => failed
              end
          end
    end.

Definition brand_PUT (env : Env) (db : DB) (req : Request) : DB * Reply :=
  let id := req_params_id req in
  let failed := (db, reply (AFailure "Failed to update brand") 500) in
  if negb (authAdminOnly env db req) then (db, adminOnly)
  else if (id =? "")%string then
    (db, reply (AError "Brand ID is required") 400)
  else
    match findBrand db id with
    | None => (db, reply (AError "brand not found") 404)
    | Some existingBrand =>
        match req_json req with
        | None => failed
        | Some body =>
            if negb (truthy (body "name")) then
              (db, reply (AError "Brand name is required") 400)
            else
              match updateString env (body "name") with
              | None => failed
              | Some name =>
                  (* name is @unique *)
                  if existsb (fun b => (brand_name b =? name)%string
                                       && negb (brand_id b =? id)%string)
                       (brands db) then failed
                  else
                    let brand := {| brand_id := brand_id existingBrand;
                                    brand_name := name |} in
                    (set_brands db
                       (map (fun b => if (brand_id b =? id)%string
                                      then brand else b) (brands db)),
                     reply (ABrandData brand) 200)
              end
        end
    end.

Definition brand_DELETE (env : Env) (db : DB) (req : Request) : DB * Reply :=
  let id := req_params_id req in
  if negb (authAdminOnly env db req) then (db, adminOnly)
  else if (id =? "")%string then
    (db, reply (AError "Brand ID is required") 400)
  else
    match findBrand db id with
    | None => (db, reply (AError "brand not found") 404)
    | Some existingBrand =>
        let hasProducts :=
          filter (fun p => (product_brandId p =? id)%string) (products db) in
        if (0 <? List.length hasProducts)%nat then
          (db, reply (AError "brand has products") 400)
        else
          (set_brands db
             (filter (fun b => negb (brand_id b =? id)%string) (brands db)),
           reply (AMessage "brand deleted successfully") 200)
    end.

(** ** Categories: POST /api/categories, PUT and DELETE
       /api/categories/:id *)

Definition findCategoryByName (db : DB) (name : string) : option Category :=
  find (fun c => (category_name c =? name)%string) (categories db).

Definition category_POST (env : Env) (db : DB) (req : Request) : DB * Reply :=
  let failed := (db, reply (AFailure "Failed to create category") 500) in
  if negb (authAdminOnly env db req) then (db, adminOnly)
  else
    match req_json req with
    | None => failed
    | Some body =>
        if negb (truthy (body "name")) then
          (db, reply (AError "Brand name is required") 400)
        else
          match asString (body "name") with
          | None => failed
          | Some name =>
              match findCategoryByName db name, findCategory db (uuid env) with
              | None, None =>
                  let category :=
                    {| category_id := uuid env; category_name := name |} in
                  (set_categories db (categories db ++ [category]),
                   reply (ACategory category) 201)
              | _, _ => failed
              end
          end
    end.

Definition category_PUT (env : Env) (db : DB) (req : Request) : DB * Reply :=
  let id := req_params_id req in
  let failed := (db, reply (AFailure "Failed to update category") 500) in
  if negb (authAdminOnly env db req) then (db, adminOnly)
  else if (id =? "")%string then
    (db, reply (AError "Category ID is required") 400)
  else
    match findCategory db id with
    | None => (db, reply (AError "category not found") 404)
    | Some existingCategory =>
        match req_json req with
        | None => failed
        | Some body =>
            if negb (truthy (body "name")) then
              (db, reply (AError "Category name is required") 400)
            else
              match updateString env (body "name") with
              | None => failed
              | Some name =>
                  if existsb (fun c => (category_name c =? name)%string
                                       && negb (category_id c =? id)%string)
                       (categories db) then failed
                  else
                    let category :=
                      {| category_id := category_id existingCategory;
                         category_name := name |} in
                    (set_categories db
                       (map (fun c => if (category_id c =? id)%string
                                      then category else c) (categories db)),
                     reply (ACategoryData category) 200)
              end
        end
    end.

Definition category_DELETE (env : Env) (db : DB) (req : Request)
  : DB * Reply :=
  let id := req_params_id req in
  if negb (authAdminOnly env db req) then (db, adminOnly)
  else if (id =? "")%string then
    (db, reply (AError "Category ID is required") 400)
  else
    match findCategory db id with
    | None => (db, reply (AError "category not found") 404)
    | Some existingCategory =>
        let hasProducts :=
          filter (fun p => (product_categoryId p =? id)%string) (products db) in
        if (0 <? List.length hasProducts)%nat then
          (db, reply (AError "category has products") 400)
        else
          (set_categories db
             (filter (fun c => negb (category_id c =? id)%string)
                (categories db)),
           reply (AMessage "Category deleted successfully") 200)
    end.

(** ** Users: POST /api/auth/register, /api/auth/login, /api/auth/admin *)

(** A string is the sequence of its code units, all below 256. *)

(** [\s]. *)
Definition isSpace (c : ascii) : bool :=
  let n := nat_of_ascii c in
  ((9 <=? n) && (n <=? 13) || (n =? 32) || (n =? 160))%nat.

(** [[^\s@]]. *)
Definition plain (c : ascii) : bool := negb (isSpace c) && negb (c =? "@")%char.

Fixpoint allPlain (s : string) : bool :=
  match s with
  | EmptyString => true
  | String c r => plain c && allPlain r
  end.

(** The rest of the domain, one of its characters read: more of
    [[^\s@]+], then [\.[^\s@]+$]. *)
Fixpoint afterDomainChar (s : string) : bool :=
  match s with
  | EmptyString => false
  | String c r =>
      ((c =? ".")%char && negb (r =? "")%string && allPlain r)
      || (plain c && afterDomainChar r)
  end.

(** The rest of the address, one character of the local part read: more of
    [[^\s@]+], then [@[^\s@]+\.[^\s@]+$]. *)
Fixpoint afterLocalChar (s : string) : bool :=
  match s with
  | EmptyString => false
  | String c r =>
      if (c =? "@")%char then
        match r with
        | EmptyString => false
        | String d r' => plain d && afterDomainChar r'
        end
      else plain c && afterLocalChar r
  end.

(** [/^[^\s@]+@[^\s@]+\.[^\s@]+$/.test(s)]. *)
Definition emailRegex (s : string) : bool :=
  match s with
  | EmptyString => false
  | String c r => plain c && afterLocalChar r
  end.

(** The language of the regular expression, in words. *)
Definition email_shaped (s : string) : Prop :=
  exists a b c,
    s = a ++ "@" ++ b ++ "." ++ c /\
    a <> "" /\ b <> "" /\ c <> "" /\
    allPlain a = true /\ allPlain b = true /\ allPlain c = true.

(** [RegisterRequest], [CreateAdminRequest], [LoginRequest]: string
    fields, [None] when the field is undefined. *)
Record Credentials : Type := {
  cred_name : option string;
  cred_email : option string;
  cred_password : option string }.

Definition given (field : option string) : bool :=
  match field with
  | Some s => negb (s =? "")%string
  | None => false
  end.

Record JwtClaims : Type := {
  claim_userId : Id;
  claim_email : string;
  claim_role : Role }.

(** bcryptjs and [jwt.sign], as one request sees them. *)
Record Crypto : Type := {
  bcrypt_hash : string -> nat -> string;
  bcrypt_compare : string -> string -> bool;
  jwt_sign : JwtClaims -> string -> string }.

Definition findUserByEmail (db : DB) (email : string) : option User :=
  find (fun u => (user_email u =? email)%string) (users db).

Definition publicUser (u : User) : AuthUser :=
  {| au_id := user_id u; au_email := user_email u;
     au_name := user_name u; au_role := user_role u |}.

(** [body] is [await req.json()]; [None] when parsing throws. *)
Definition register_POST (crypto : Crypto) (env : Env) (db : DB)
  (body : option Credentials) : DB * Reply :=
  let failed := (db, reply (AError "Registration failed") 500) in
  match body with
  | None => failed
  | Some body =>
      match cred_name body, cred_email body, cred_password body with
      | Some name, Some email, Some password =>
          if negb (given (cred_name body)) || negb (given (cred_email body))
             || negb (given (cred_password body)) then
            (db, reply (AError "Name, email, and password are required") 400)
          else if negb (emailRegex email) then
            (db, reply (AError "Please provide a valid email address") 400)
          else if (String.length password <? 6)%nat then
            (db, reply (AError "Password must be at least 6 characters") 400)
          else
            match findUserByEmail db email with
            | Some existingUser =>
                (db, reply (AError "User with this email already exists") 400)
            | None =>
                let hashedPassword := bcrypt_hash crypto password 10 in
                let newUser :=
                  {| user_id := uuid env; user_name := name;
                     user_email := email; user_password := hashedPassword;
                     user_role := CUSTOMER |} in
                (* User.id is the primary key *)
                match findUser db (uuid env) with
                | Some _ => failed
                | None =>
                    let token :=
                      jwt_sign crypto
                        {| claim_userId := user_id newUser;
                           claim_email := user_email newUser;
                           claim_role := user_role newUser |} "7d" in
                    (set_users db (users db ++ [newUser]),
                     reply (ASession (publicUser newUser) token) 201)
                end
            end
      | _, _, _ =>
          (db, reply (AError "Name, email, and password are required") 400)
      end
  end.

(** Login changes nothing in the store. *)
Definition login_POST (crypto : Crypto) (db : DB) (body : option Credentials)
  : Reply :=
  match body with
  | None => reply (AError "Internal server error") 500
  | Some body =>
      match cred_email body, cred_password body with
      | Some email, Some password =>
          if negb (given (cred_email body)) || negb (given (cred_password body))
          then reply (AError "Email and password are required") 400
          else
            match findUserByEmail db email with
            | None => reply (AError "Invalid email or password") 401
            | Some user =>
                if negb (bcrypt_compare crypto password (user_password user))
                then reply (AError "Invalid email or password") 401
                else
                  let accessToken :=
                    jwt_sign crypto
                      {| claim_userId := user_id user;
                         claim_email := user_email user;
                         claim_role := user_role user |} "1d" in
                  reply (ALogin (publicUser user) accessToken) 200
            end
      | _, _ => reply (AError "Email and password are required") 400
      end
  end.

Definition admin_POST (crypto : Crypto) (env : Env) (db : DB) (req : Request)
  (body : option Credentials) : DB * Reply :=
  let failed := (db, reply (AError "Failed to create admin") 500) in
  match getCurrentUser env db req with
  | None => (db, reply (AError "Unauthorized") 401)
  | Some currentUser =>
      if negb (authAdminOnly env db req) then (db, adminOnly)
      else
        match body with
        | None => failed
        | Some body =>
            match cred_name body, cred_email body, cred_password body with
            | Some name, Some email, Some password =>
                if negb (given (cred_name body))
                   || negb (given (cred_email body))
                   || negb (given (cred_password body)) then
                  (db, reply (AError "Name, email, and password are required")
                         400)
                else if negb (emailRegex email) then
                  (db, reply (AError "Please provide a valid email address") 400)
                else if (String.length password <? 8)%nat then
                  (db, reply (AError "Admin password must be at least 8 characters long") 400)
                else
                  match findUserByEmail db email with
                  | Some existingUser =>
                      (db, reply (AError "Email already registered") 409)
                  | None =>
                      let hashedPassword := bcrypt_hash crypto password 12 in
                      let newAdmin :=
                        {| user_id := uuid env; user_name := name;
                           user_email := email;
                           user_password := hashedPassword;
                           user_role := ADMIN |} in
                      match findUser db (uuid env) with
                      | Some _ => failed
                      | None =>
                          (* the 201 is a field of the body *)
                          (set_users db (users db ++ [newAdmin]),
                           reply (AAdmin (publicUser newAdmin) 201) 200)
                      end
                  end
            | _, _, _ =>
                (db, reply (AError "Name, email, and password are required") 400)
            end
        end
  end.

(** ** GET /api/cart *)

Definition cart_GET (env : Env) (db : DB) (req : Request) : Reply :=
  match getCurrentUser env db req with
  | None => reply (AError "Unauthorized") 401
  | Some user =>
      if negb (Role_eqb (au_role user) CUSTOMER) then
        reply (AError "Access denied: only customers can view the cart.") 403
      else
        match includeProduct db (cartOf db (au_id user)) with
        | None => reply (AError "Failed to fetch cart items") 500
        | Some cartLines =>
            let totalPrice :=
              fold_left
                (fun sum it =>
                   (sum + product_price (product it)
                          * inject_Z (ci_quantity (item it)))%Q)
                cartLines 0%Q in
            reply (ACart cartLines (toFixed2 env totalPrice)
                     (List.length cartLines)) 200
        end
  end.

(** ** Requests in sequence, with the brand, category and user routes *)

Inductive AdminOp : Type :=
| BrandCreate | BrandUpdate | BrandDelete
| CategoryCreate | CategoryUpdate | CategoryDelete
| UserRegister | AdminCreate.

Inductive AnyOp : Type :=
| StoreOp (op : Op)
| OtherOp (op : AdminOp).

Record AnyCall : Type := {
  any_op : AnyOp;
  any_env : Env;
  any_req : Request;
  any_crypto : Crypto;
  any_body : option Credentials }.

Definition any_step (db : DB) (c : AnyCall) : DB :=
  match any_op c with
  | StoreOp op => fst (handle op (any_env c) db (any_req c))
  | OtherOp BrandCreate => fst (brand_POST (any_env c) db (any_req c))
  | OtherOp BrandUpdate => fst (brand_PUT (any_env c) db (any_req c))
  | OtherOp BrandDelete => fst (brand_DELETE (any_env c) db (any_req c))
  | OtherOp CategoryCreate => fst (category_POST (any_env c) db (any_req c))
  | OtherOp CategoryUpdate => fst (category_PUT (any_env c) db (any_req c))
  | OtherOp CategoryDelete => fst (category_DELETE (any_env c) db (any_req c))
  | OtherOp UserRegister =>
      fst (register_POST (any_crypto c) (any_env c) db (any_body c))
  | OtherOp AdminCreate =>
      fst (admin_POST (any_crypto c) (any_env c) db (any_req c) (any_body c))
  end.

Definition any_run (db : DB) (calls : list AnyCall) : DB :=
  fold_left any_step calls db.

(** Every product's brand and category are rows of their tables. *)
Definition catalog_resolves (db : DB) : Prop :=
  Forall (fun p => findBrand db (product_brandId p) <> None /\
                   findCategory db (product_categoryId p) <> None)
    (products db).

Definition emails_distinct (db : DB) : Prop :=
  NoDup (map user_email (users db)).

Definition admins (db : DB) : list User :=
  filter (fun u => Role_eqb (user_role u) ADMIN) (users db).

(** ** Requests the handlers decide by themselves *)

(** The JSON body of a product update writes scalar columns only. *)
Definition scalar_json (req : Request) : bool :=
  match req_json req with
  | Some body => scalarData (req_json_keys req) body
  | None => true
  end.

(** The quantity of the JSON body, when it is a number, is an integer. *)
Definition whole_json (req : Request) : bool :=
  match req_json req with
  | Some body =>
      match body "quantity" with
      | JNum q => isInteger q
      | _ => true
      end
  | None => true
  end.

Definition scalar_op (op : Op) (req : Request) : bool :=
  match op with
  | ProductUpdate => scalar_json req
  | _ => true
  end.

Definition whole_op (op : Op) (req : Request) : bool :=
  match op with
  | CartUpdate => whole_json req
  | _ => true
  end.

(** A call that is no JSON product update with relations, [id] or field
    operations in its data. *)
Definition scalar_update (c : Call) : bool :=
  scalar_op (call_op c) (call_req c).

(** A call that is no cart update with a quantity that is no integer. *)
Definition whole_quantity (c : Call) : bool :=
  whole_op (call_op c) (call_req c).

Definition any_scalar_update (c : AnyCall) : bool :=
  match any_op c with
  | StoreOp ProductUpdate => scalar_json (any_req c)
  | _ => true
  end.

(** ** Further predicates on the store *)

(** Every cart row asks for at least one piece. *)
Definition cart_quantities_positive (db : DB) : Prop :=
  Forall (fun c => 1 <= ci_quantity c) (cartItems db).

Definition cart_key (c : CartItem) : Id * Id := (ci_userId c, ci_productId c).

(** A user has at most one cart row for a product. *)
Definition one_row_per_product (db : DB) : Prop :=
  NoDup (map cart_key (cartItems db)).

(** Every [CartItem.productId] is the id of a row of [Product]. *)
Definition cart_items_resolve (db : DB) : Prop :=
  Forall (fun c => findProduct db (ci_productId c) <> None) (cartItems db).

(** The total of every order is the sum over the order items of its id. *)
Definition order_totals_hold (db : DB) : Prop :=
  Forall (fun o => order_totalAmount o
                   = orderItemsTotal (itemsOfOrder db (order_id o)))
    (orders db).

Definition pending_xendit (o : Order) : Prop :=
  order_paymentStatus o = PENDING /\ order_paymentMethod o = "XENDIT".

(** No token is stored twice among the invalid tokens. *)
Definition tokens_distinct (db : DB) : Prop :=
  NoDup (map it_token (invalidTokens db)).

(** The ways a request changes the cart table: not at all; the quantity
    of the rows of one id is set, within the stock of the product when the
    quantity sent is an integer ([whole]); a row is appended for a product
    the user had no row for; rows are removed. *)
Inductive cart_change (whole : bool) (db db' : DB) : Prop :=
| cart_same :
    cartItems db' = cartItems db -> cart_change whole db db'
| cart_set (c : CartItem) (product : Product) (quantity : Z) :
    In c (cartItems db) ->
    findProduct db (ci_productId c) = Some product ->
    (whole = true ->
     (1 <= quantity \/ ci_quantity c < quantity) /\
     quantity <= product_stock product) ->
    cartItems db' = updateCartItem (ci_id c) quantity (cartItems db) ->
    cart_change whole db db'
| cart_new (c : CartItem) (product : Product) :
    findFirstCartItem db (ci_userId c) (ci_productId c) = None ->
    findCartItem db (ci_id c) = None ->
    findProduct db (ci_productId c) = Some product ->
    1 <= ci_quantity c <= product_stock product ->
    cartItems db' = (cartItems db ++ [c])%list ->
    cart_change whole db db'
| cart_removed (keep : CartItem -> bool) :
    cartItems db' = filter keep (cartItems db) -> cart_change whole db db'.

Definition catalog_write (op : Op) : bool :=
  match op with
  | ProductCreate | ProductUpdate | ProductDelete
  | ProductCreateForm | ProductUpdateForm | ProductDeleteForm => true
  | _ => false
  end.

(** Case analysis along the branches of a handler. *)
Ltac branches :=
  repeat (cbv beta iota zeta;
          match goal with
          | |- context [match ?x with _ => _ end] => destruct x eqn:?
          end).

(** * Properties *)

(** ** Lists and strings *)

Lemma fold_left_map_acc {A B C : Type} (f : C -> B -> C) (g : A -> B)
  (l : list A) (acc : C) :
  fold_left f (map g l) acc = fold_left (fun a x => f a (g x)) l acc.
Proof.
  revert acc; induction l as [|x l IH]; intro acc; simpl.
  - reflexivity.
  - apply IH.
Qed.

Lemma find_app_none {A : Type} (f : A -> bool) (l l' : list A) :
  find f l = None -> find f (l ++ l') = find f l'.
Proof.
  induction l as [|x l IH]; simpl; intro H.
  - reflexivity.
  - destruct (f x); [discriminate | exact (IH H)].
Qed.

Lemma find_app_some {A : Type} (f : A -> bool) (l l' : list A) (x : A) :
  find f l = Some x -> find f (l ++ l') = Some x.
Proof.
  induction l as [|y l IH]; simpl; intro H.
  - discriminate.
  - destruct (f y); [exact H | exact (IH H)].
Qed.

Lemma filter_all {A : Type} (f : A -> bool) (l : list A) :
  (forall x, In x l -> f x = true) -> filter f l = l.
Proof.
  induction l as [|x l IH]; simpl; intro H.
  - reflexivity.
  - rewrite (H x (or_introl eq_refl)). f_equal. apply IH. intros y Hy.
    apply H. right. exact Hy.
Qed.

Lemma filter_none {A : Type} (f : A -> bool) (l : list A) :
  (forall x, In x l -> f x = false) -> filter f l = [].
Proof.
  induction l as [|x l IH]; simpl; intro H.
  - reflexivity.
  - rewrite (H x (or_introl eq_refl)). apply IH. intros y Hy.
    apply H. right. exact Hy.
Qed.

Lemma filter_negb_same {A : Type} (f : A -> bool) (l : list A) :
  filter f (filter (fun x => negb (f x)) l) = [].
Proof.
  apply filter_none. intros x Hx. apply filter_In in Hx.
  destruct Hx as [_ Hx]. destruct (f x); [discriminate | reflexivity].
Qed.

Lemma length_eqb_0 {A : Type} (l : list A) :
  (List.length l =? 0)%nat = true <-> l = [].
Proof.
  destruct l; simpl; split; intro H; try reflexivity; discriminate.
Qed.

(** ** Checkout *)

Lemma orderItemsTotal_of_lines (orderId : Id) (cartLines : list CartLine) :
  orderItemsTotal (map (orderItemOf orderId) cartLines) = totalOf cartLines.
Proof.
  unfold orderItemsTotal, totalOf. rewrite fold_left_map_acc. reflexivity.
Qed.

Lemma includeProduct_items (db : DB) (l : list CartItem) :
  forall cartLines, includeProduct db l = Some cartLines ->
                    map item cartLines = l.
Proof.
  induction l as [|c l IH]; simpl; intros cartLines H.
  - injection H as <-. reflexivity.
  - destruct (findProduct db (ci_productId c)); [|discriminate].
    destruct (includeProduct db l); [|discriminate].
    injection H as <-. simpl. f_equal. apply IH. reflexivity.
Qed.

Lemma includeProduct_products (db : DB) (l : list CartItem) :
  forall cartLines, includeProduct db l = Some cartLines ->
    Forall (fun it => findProduct db (ci_productId (item it)) = Some (product it))
      cartLines.
Proof.
  induction l as [|c l IH]; simpl; intros cartLines H.
  - injection H as <-. constructor.
  - destruct (findProduct db (ci_productId c)) eqn:Hp; [|discriminate].
    destruct (includeProduct db l); [|discriminate].
    injection H as <-. constructor; [exact Hp | apply IH; reflexivity].
Qed.

Lemma cartOf_deleteManyCart (db : DB) (userId : Id) :
  cartOf (set_cartItems db (deleteManyCart userId (cartItems db))) userId = [].
Proof.
  unfold cartOf, deleteManyCart. simpl.
  apply (filter_negb_same (fun c => (ci_userId c =? userId)%string)).
Qed.

Lemma itemsOfOrder_created (db : DB) (orderId : Id) (cartLines : list CartLine) :
  order_items_owned db -> findOrder db orderId = None ->
  filter (fun oi => (oi_orderId oi =? orderId)%string)
    (orderItems db ++ map (orderItemOf orderId) cartLines)
  = map (orderItemOf orderId) cartLines.
Proof.
  intros Hown Hfresh. rewrite filter_app.
  rewrite filter_none.
  - simpl. apply filter_all. intros oi Hoi. apply in_map_iff in Hoi.
    destruct Hoi as [it [<- _]]. simpl. apply String.eqb_refl.
  - intros oi Hoi. unfold order_items_owned in Hown.
    rewrite Forall_forall in Hown. specialize (Hown oi Hoi).
    destruct (oi_orderId oi =? orderId)%string eqn:E; [|reflexivity].
    apply String.eqb_eq in E. rewrite E in Hown. contradiction.
Qed.

(** C1. A checkout that answers 200 has created one order, PENDING, with one
    order item per cart line carrying the product's price and the line's
    quantity; the order's total is the sum of price times quantity over
    these items; the caller's cart is empty afterwards; and the answer
    carries the order id, the invoice URL of the gateway and that total.
    When every earlier order item belongs to an order, the items of the
    new order in the store are exactly the created ones. *)
Theorem checkout_success (env : Env) (db db' : DB) (req : Request)
  (r : Response) :
  checkout_POST env db req = (db', r) ->
  status r = 200%nat ->
  exists user cartLines invoice order orderLines,
    getCurrentUser env db req = Some user /\
    includeProduct db (cartOf db (au_id user)) = Some cartLines /\
    createXenditInvoice env
      (invoiceParams env (uuid env) (totalOf cartLines) (au_email user))
      = Some invoice /\
    orderLines = map (orderItemOf (order_id order)) cartLines /\
    order_userId order = au_id user /\
    order_paymentStatus order = PENDING /\
    orders db' = (orders db ++ [order])%list /\
    orderItems db' = (orderItems db ++ orderLines)%list /\
    order_totalAmount order = orderItemsTotal orderLines /\
    (order_items_owned db -> itemsOfOrder db' (order_id order) = orderLines) /\
    cartOf db' (au_id user) = [] /\
    r = json (CheckoutOk (order_id order) (invoiceUrl invoice)
                (order_totalAmount order)) 200.
Proof.
  unfold checkout_POST. intros H Hst.
  destruct (getCurrentUser env db req) as [user|] eqn:Hu;
    [|injection H as <- <-; discriminate].
  destruct (negb (Role_eqb (au_role user) CUSTOMER));
    [injection H as <- <-; discriminate|].
  destruct (includeProduct db (cartOf db (au_id user))) as [cartLines|] eqn:Hl;
    [|injection H as <- <-; discriminate].
  destruct (List.length cartLines =? 0)%nat;
    [injection H as <- <-; discriminate|].
  destruct (find _ cartLines); [injection H as <- <-; discriminate|].
  destruct (findOrder db (uuid env)) eqn:Hfresh;
    [injection H as <- <-; discriminate|].
  destruct (createXenditInvoice env _) as [invoice|] eqn:Hi;
    [|injection H as <- <-; discriminate].
  injection H as <- <-.
  exists user, cartLines, invoice.
  eexists {| order_id := uuid env |}. eexists.
  repeat split; try reflexivity; try eassumption.
  - simpl. symmetry. apply orderItemsTotal_of_lines.
  - intro Hown. unfold itemsOfOrder. simpl.
    apply itemsOfOrder_created; assumption.
  - apply (cartOf_deleteManyCart
             (set_orders db _ _) (au_id user)).
Qed.

Lemma checkout_success_witness :
  exists order,
    orders Shop.db_ordered = [order] /\
    order_totalAmount order
    = orderItemsTotal (itemsOfOrder Shop.db_ordered (order_id order)) /\
    order_totalAmount order = 51 # 2 /\
    cartOf Shop.db_ordered "u-alice" = [].
Proof.
  destruct (checkout_success (Shop.env "o-1") Shop.db0 Shop.db_ordered
              (Shop.bearer "tok-alice")
              (json (CheckoutOk "o-1" "https://checkout.xendit.co/web/o-1"
                       (51 # 2)) 200)
              eq_refl eq_refl)
    as (user & cartLines & invoice & order & orderLines & Hu & Hl & Hi & Hol
        & Huid & Hps & Ho & Hoi & Htot & Hitems & Hcart & Hr).
  exists order. split; [exact Ho|]. split.
  - rewrite (Hitems (Forall_nil _)). exact Htot.
  - split.
    + injection Hr as _ _ Ht. symmetry. exact Ht.
    + vm_compute in Hu. injection Hu as <-. exact Hcart.
Defined.

(** C8. Checkout by a customer whose cart has no rows answers 400 "Cart is
    empty" and leaves the store as it was: no order is created. *)
Theorem checkout_empty_cart (env : Env) (db : DB) (req : Request)
  (user : AuthUser) :
  getCurrentUser env db req = Some user ->
  au_role user = CUSTOMER ->
  cartOf db (au_id user) = [] ->
  checkout_POST env db req = (db, json (Error "Cart is empty") 400).
Proof.
  intros Hu Hrole Hcart. unfold checkout_POST.
  rewrite Hu, Hrole, Hcart. reflexivity.
Qed.

Lemma checkout_empty_cart_witness :
  checkout_POST (Shop.env "o-1") Shop.db0 (Shop.bearer "tok-erin")
  = (Shop.db0, json (Error "Cart is empty") 400).
Proof.
  apply (checkout_empty_cart (Shop.env "o-1") Shop.db0 (Shop.bearer "tok-erin")
           {| au_id := "u-erin"; au_email := "erin@example.com";
              au_name := "Erin"; au_role := CUSTOMER |});
    reflexivity.
Defined.

(** C2. When some line of the caller's cart asks for more than the product's
    stock, checkout answers 400 "Insufficient stock" with the id and name of
    the first such product, its stock and the requested quantity, and the
    store is unchanged: no order and no order item is created. *)
Theorem checkout_insufficient_stock (env : Env) (db : DB) (req : Request)
  (user : AuthUser) (cartLines : list CartLine) (it : CartLine) :
  getCurrentUser env db req = Some user ->
  au_role user = CUSTOMER ->
  includeProduct db (cartOf db (au_id user)) = Some cartLines ->
  In it cartLines ->
  product_stock (product it) < ci_quantity (item it) ->
  exists bad,
    In bad cartLines /\
    product_stock (product bad) < ci_quantity (item bad) /\
    In (item bad) (cartOf db (au_id user)) /\
    findProduct db (ci_productId (item bad)) = Some (product bad) /\
    checkout_POST env db req
    = (db, json (InsufficientStock (product_id (product bad))
                   (product_name (product bad))
                   (product_stock (product bad))
                   (ci_quantity (item bad))) 400).
Proof.
  intros Hu Hrole Hl Hin Hlt. unfold checkout_POST.
  rewrite Hu, Hrole, Hl. simpl negb. cbv iota.
  destruct (List.length cartLines =? 0)%nat eqn:Hlen.
  - apply length_eqb_0 in Hlen. subst cartLines. destruct Hin.
  - destruct (find (fun it0 => product_stock (product it0)
                               <? ci_quantity (item it0)) cartLines)
      as [bad|] eqn:Hf.
    + apply find_some in Hf. destruct Hf as [Hb1 Hb2].
      apply Z.ltb_lt in Hb2. exists bad.
      split; [exact Hb1|]. split; [exact Hb2|]. split.
      * rewrite <- (includeProduct_items _ _ _ Hl). apply in_map. exact Hb1.
      * split; [|reflexivity].
        pose proof (includeProduct_products _ _ _ Hl) as Hp.
        rewrite Forall_forall in Hp. apply Hp. exact Hb1.
    + pose proof (find_none _ _ Hf it Hin) as Hn. simpl in Hn.
      apply Z.ltb_ge in Hn. lia.
Qed.

Lemma checkout_insufficient_stock_witness :
  exists bad,
    In bad [ {| item := Shop.aliceKeyboard;
                product := {| product_id := Shop.keyboardId;
                              product_name := "Keyboard";
                              product_description := "Mechanical keyboard";
                              product_price := 10 # 1; product_stock := 1;
                              product_imageUrl :=
                                "https://img.example.com/keyboard.png";
                              product_brandId := "b-1";
                              product_categoryId := "c-1" |} |};
             {| item := Shop.aliceMouse; product := Shop.mouse |} ] /\
    product_stock (product bad) < ci_quantity (item bad) /\
    In (item bad) (cartOf Shop.db_short "u-alice") /\
    findProduct Shop.db_short (ci_productId (item bad)) = Some (product bad) /\
    checkout_POST (Shop.env "o-1") Shop.db_short (Shop.bearer "tok-alice")
    = (Shop.db_short,
       json (InsufficientStock (product_id (product bad))
               (product_name (product bad))
               (product_stock (product bad))
               (ci_quantity (item bad))) 400).
Proof.
  apply (checkout_insufficient_stock (Shop.env "o-1") Shop.db_short
           (Shop.bearer "tok-alice")
           {| au_id := "u-alice"; au_email := "alice@example.com";
              au_name := "Alice"; au_role := CUSTOMER |}
           _
           {| item := Shop.aliceKeyboard;
              product := {| product_id := Shop.keyboardId;
                            product_name := "Keyboard";
                            product_description := "Mechanical keyboard";
                            product_price := 10 # 1; product_stock := 1;
                            product_imageUrl :=
                              "https://img.example.com/keyboard.png";
                            product_brandId := "b-1";
                            product_categoryId := "c-1" |} |}).
  - reflexivity.
  - reflexivity.
  - reflexivity.
  - left. reflexivity.
  - simpl. lia.
Defined.

(** C6. When the gateway call fails after the order was created, checkout
    answers 500 "Failed to process checkout"; the order stays in the store,
    PENDING, with its items; and the rows of the cart table are untouched. *)
Theorem checkout_gateway_failure (env : Env) (db : DB) (req : Request)
  (user : AuthUser) (cartLines : list CartLine) :
  getCurrentUser env db req = Some user ->
  au_role user = CUSTOMER ->
  includeProduct db (cartOf db (au_id user)) = Some cartLines ->
  cartLines <> [] ->
  (forall it, In it cartLines ->
              ci_quantity (item it) <= product_stock (product it)) ->
  findOrder db (uuid env) = None ->
  createXenditInvoice env
    (invoiceParams env (uuid env) (totalOf cartLines) (au_email user)) = None ->
  exists db' order,
    checkout_POST env db req
    = (db', json (Error "Failed to process checkout") 500) /\
    order = {| order_id := uuid env; order_userId := au_id user;
               order_totalAmount := totalOf cartLines;
               order_paymentStatus := PENDING;
               order_paymentMethod := "XENDIT" |} /\
    orders db' = (orders db ++ [order])%list /\
    findOrder db' (uuid env) = Some order /\
    orderItems db'
    = (orderItems db ++ map (orderItemOf (uuid env)) cartLines)%list /\
    cartItems db' = cartItems db /\
    cartOf db' (au_id user) = cartOf db (au_id user).
Proof.
  intros Hu Hrole Hl Hne Hfit Hfresh Hgw. unfold checkout_POST.
  rewrite Hu, Hrole, Hl. simpl negb. cbv iota.
  destruct (List.length cartLines =? 0)%nat eqn:Hlen.
  { apply length_eqb_0 in Hlen. contradiction. }
  destruct (find (fun it0 => product_stock (product it0)
                             <? ci_quantity (item it0)) cartLines)
    as [bad|] eqn:Hf.
  { apply find_some in Hf. destruct Hf as [Hb1 Hb2].
    apply Z.ltb_lt in Hb2. specialize (Hfit bad Hb1). lia. }
  rewrite Hfresh. cbv zeta. simpl order_id. simpl order_totalAmount.
  rewrite Hgw.
  eexists. eexists. split; [reflexivity|]. split; [reflexivity|].
  split; [reflexivity|]. split.
  - unfold findOrder. simpl orders. unfold findOrder in Hfresh.
    rewrite (find_app_none _ _ _ Hfresh). simpl.
    rewrite String.eqb_refl. reflexivity.
  - repeat split.
Qed.

Lemma checkout_gateway_failure_witness :
  exists db' order,
    checkout_POST (Shop.env_with Shop.gateway_down "o-2") Shop.db0
      (Shop.bearer "tok-bob")
    = (db', json (Error "Failed to process checkout") 500) /\
    order = {| order_id := "o-2"; order_userId := "u-bob";
               order_totalAmount :=
                 totalOf [{| item := Shop.bobMouse; product := Shop.mouse |}];
               order_paymentStatus := PENDING;
               order_paymentMethod := "XENDIT" |} /\
    orders db' = (orders Shop.db0 ++ [order])%list /\
    findOrder db' "o-2" = Some order /\
    orderItems db'
    = (orderItems Shop.db0
       ++ map (orderItemOf "o-2")
            [{| item := Shop.bobMouse; product := Shop.mouse |}])%list /\
    cartItems db' = cartItems Shop.db0 /\
    cartOf db' "u-bob" = cartOf Shop.db0 "u-bob".
Proof.
  apply (checkout_gateway_failure (Shop.env_with Shop.gateway_down "o-2")
           Shop.db0 (Shop.bearer "tok-bob")
           {| au_id := "u-bob"; au_email := "bob@example.com";
              au_name := "Bob"; au_role := CUSTOMER |}
           [{| item := Shop.bobMouse; product := Shop.mouse |}]).
  - reflexivity.
  - reflexivity.
  - reflexivity.
  - discriminate.
  - intros it [<-|[]]. simpl. lia.
  - reflexivity.
  - reflexivity.
Defined.

(** ** Cart *)

Lemma find_updateCartItem (f : CartItem -> bool) (e : CartItem) (n : Z)
  (l : list CartItem) :
  (forall c m, f (with_quantity c m) = f c) ->
  find f l = Some e ->
  find f (updateCartItem (ci_id e) n l) = Some (with_quantity e n).
Proof.
  intro Hf. induction l as [|x l IH]; simpl; intro H.
  - discriminate.
  - destruct (f x) eqn:Hx.
    + injection H as ->. rewrite String.eqb_refl, Hf, Hx. reflexivity.
    + destruct (ci_id x =? ci_id e)%string.
      * rewrite Hf, Hx. exact (IH H).
      * rewrite Hx. exact (IH H).
Qed.

Lemma cartInputSchema_ok (env : Env) (body : string -> JsVal) (productId : Id)
  (q : Q) :
  body "productId" = JStr productId -> body "quantity" = JNum q ->
  zod_uuid env productId = true -> isInteger q = true -> (1 <= q)%Q ->
  cartInputSchema env body = Some (productId, Qfloor q).
Proof.
  intros Hp Hq Hz Hi Hge. unfold cartInputSchema. rewrite Hp, Hq, Hz, Hi.
  apply Qle_bool_iff in Hge. rewrite Hge. reflexivity.
Qed.

Lemma cartInputSchema_small (env : Env) (body : string -> JsVal) (q : Q) :
  body "quantity" = JNum q -> (q < 1)%Q -> cartInputSchema env body = None.
Proof.
  intros Hq Hlt. unfold cartInputSchema. rewrite Hq.
  destruct (body "productId"); try reflexivity.
  destruct (Qle_bool 1 q) eqn:E.
  - apply Qle_bool_iff in E. exfalso. exact (Qlt_not_le _ _ Hlt E).
  - rewrite andb_false_r. reflexivity.
Qed.

(** C7. Adding to the cart, for an authenticated customer and a body whose
    [productId] is a uuid string and whose [quantity] is the number [q]:
    - [q < 1] is answered 400 "Invalid input", nothing changes;
    - for an integer [q >= 1], an unknown product is answered 404, nothing
      changes;
    - for an integer [q >= 1] and a known product, the request succeeds if
      and only if the quantity already in the cart plus [q] is at most the
      stock.  On success the caller's quantity for the product has grown by
      [q]: a first add appends the cart item, a later add updates the
      quantity of the existing one.  On failure nothing changes and the
      answer is 400. *)
Theorem cart_add (env : Env) (db : DB) (req : Request) (user : AuthUser)
  (data : string -> JsVal) (productId : Id) (q : Q) :
  getCurrentUser env db req = Some user ->
  au_role user = CUSTOMER ->
  req_json req = Some data ->
  data "productId" = JStr productId ->
  zod_uuid env productId = true ->
  data "quantity" = JNum q ->
  ((q < 1)%Q -> cart_POST env db req = (db, json InvalidInput 400)) /\
  (isInteger q = true -> (1 <= q)%Q -> findProduct db productId = None ->
   cart_POST env db req = (db, json (Error "Product not found") 404)) /\
  (forall product,
      isInteger q = true -> (1 <= q)%Q ->
      findProduct db productId = Some product ->
      0 <= existingQuantity db (au_id user) productId ->
      (findFirstCartItem db (au_id user) productId = None ->
       findCartItem db (uuid env) = None) ->
      let quantity := Qfloor q in
      let existing := existingQuantity db (au_id user) productId in
      let db' := fst (cart_POST env db req) in
      let r := snd (cart_POST env db req) in
      (succeeded r <-> existing + quantity <= product_stock product) /\
      (existing + quantity <= product_stock product ->
       existingQuantity db' (au_id user) productId = existing + quantity /\
       match findFirstCartItem db (au_id user) productId with
       | None =>
           let newCartItem :=
             {| ci_id := uuid env; ci_userId := au_id user;
                ci_productId := productId; ci_quantity := quantity |} in
           db' = set_cartItems db (cartItems db ++ [newCartItem]) /\
           r = json (CartItemData "Item added to cart" newCartItem) 201
       | Some c =>
           db' = set_cartItems db
                   (updateCartItem (ci_id c) (ci_quantity c + quantity)
                      (cartItems db)) /\
           r = json (CartItemData "Cart item updated"
                       (with_quantity c (ci_quantity c + quantity))) 200
       end) /\
      (product_stock product < existing + quantity ->
       db' = db /\ status r = 400%nat /\
       (body r = NotEnoughStock (product_stock product) \/
        body r = ExceedsStock existing (product_stock product)))).
Proof.
  intros Hu Hrole Hj Hp Hz Hq. split; [|split].
  - intro Hlt. unfold cart_POST. rewrite Hu, Hrole, Hj. simpl.
    rewrite (cartInputSchema_small env data q Hq Hlt). reflexivity.
  - intros Hi Hge Hnone. unfold cart_POST. rewrite Hu, Hrole, Hj. simpl.
    rewrite (cartInputSchema_ok env data productId q Hp Hq Hz Hi Hge), Hnone.
    reflexivity.
  - intros product Hi Hge Hprod Hex Hfresh. cbv zeta.
    assert (H1 : 1 <= Qfloor q).
    { apply (Qfloor_resp_le 1 q) in Hge. exact Hge. }
    unfold cart_POST. rewrite Hu, Hrole, Hj. simpl negb. cbv iota.
    rewrite (cartInputSchema_ok env data productId q Hp Hq Hz Hi Hge), Hprod.
    unfold existingQuantity in *.
    destruct (product_stock product <? Qfloor q) eqn:Hs.
    + apply Z.ltb_lt in Hs. simpl fst. simpl snd. unfold succeeded. simpl status.
      split; [split; intro; lia|]. split; [intro; lia|].
      intros _. split; [reflexivity|]. split; [reflexivity|].
      left. reflexivity.
    + apply Z.ltb_ge in Hs.
      destruct (findFirstCartItem db (au_id user) productId) as [c|] eqn:Hc.
      * destruct (ci_quantity c + Qfloor q >? product_stock product) eqn:Hg.
        -- apply Z.gtb_lt in Hg. simpl fst. simpl snd. unfold succeeded.
           simpl status.
           split; [split; intro; lia|]. split; [intro; lia|].
           intros _. split; [reflexivity|]. split; [reflexivity|].
           right. reflexivity.
        -- assert (Hle : ci_quantity c + Qfloor q <= product_stock product).
           { destruct (Z.gtb_spec (ci_quantity c + Qfloor q)
                         (product_stock product)); [discriminate | lia]. }
           simpl fst. simpl snd. unfold succeeded. simpl status.
           split; [split; intro; [exact Hle | lia]|].
           split; [|intro; lia].
           intros _. split; [|split; reflexivity].
           unfold findFirstCartItem in *. simpl cartItems.
           erewrite find_updateCartItem;
             [reflexivity | intros; reflexivity | exact Hc].
      * rewrite (Hfresh eq_refl). simpl fst. simpl snd. unfold succeeded.
        simpl status.
        split; [split; intro; lia|]. split; [|intro; lia].
        intros _. split; [|split; reflexivity].
        unfold findFirstCartItem in *. simpl cartItems.
        rewrite (find_app_none _ _ _ Hc). simpl.
        pose proof (find_some _ _ Hprod) as [_ Hid].
        rewrite !String.eqb_refl. reflexivity.
Qed.

Lemma cart_add_witness :
  let req := Shop.with_json (Shop.bearer "tok-alice")
               [("productId", JStr Shop.keyboardId); ("quantity", JNum 3)] in
  succeeded (snd (cart_POST (Shop.env "ci-9") Shop.db0 req)) /\
  existingQuantity (fst (cart_POST (Shop.env "ci-9") Shop.db0 req))
    "u-alice" Shop.keyboardId = 5.
Proof.
  intro req.
  destruct (cart_add (Shop.env "ci-9") Shop.db0 req
              {| au_id := "u-alice"; au_email := "alice@example.com";
                 au_name := "Alice"; au_role := CUSTOMER |}
              _ Shop.keyboardId 3
              eq_refl eq_refl eq_refl eq_refl eq_refl eq_refl)
    as (_ & _ & H).
  assert (Hge : (1 <= 3)%Q) by (unfold Qle; simpl; lia).
  assert (Hex : 0 <= existingQuantity Shop.db0 "u-alice" Shop.keyboardId)
    by (vm_compute; discriminate).
  destruct (H Shop.keyboard eq_refl Hge eq_refl Hex (fun _ => eq_refl))
    as (Hiff & Hok & _).
  assert (Hfit : existingQuantity Shop.db0 "u-alice" Shop.keyboardId
                 + Qfloor 3 <= product_stock Shop.keyboard)
    by (vm_compute; discriminate).
  split.
  - apply Hiff. exact Hfit.
  - apply Hok in Hfit. destruct Hfit as [Hq _]. exact Hq.
Defined.

(** C5. The ownership check of DELETE and PUT /api/cart/:id compares the
    owner of the cart item with the [userId] sent by the client, not with
    the authenticated caller: Bob, authenticated with his own token, removes
    and updates a cart item of Alice by sending her id.  The claim asks for
    403 and an unchanged cart item here. *)
Theorem cart_item_owner_check_uses_sent_userId :
  let e := Shop.env "" in
  let del := Shop.with_query_userId
               (Shop.with_id (Shop.bearer "tok-bob") "ci-1") "u-alice" in
  let put := Shop.with_json (Shop.with_id (Shop.bearer "tok-bob") "ci-1")
               [("quantity", JNum 5); ("userId", JStr "u-alice")] in
  option_map au_id (getCurrentUser e Shop.db0 del) = Some "u-bob" /\
  option_map au_id (getCurrentUser e Shop.db0 put) = Some "u-bob" /\
  findCartItem Shop.db0 "ci-1" = Some Shop.aliceKeyboard /\
  ci_userId Shop.aliceKeyboard = "u-alice" /\
  cart_DELETE e Shop.db0 del
  = (set_cartItems Shop.db0 [Shop.aliceMouse; Shop.bobMouse],
     json (Message "Cart item removed successfully") 200) /\
  cart_PUT e Shop.db0 put
  = (set_cartItems Shop.db0
       [with_quantity Shop.aliceKeyboard 5; Shop.aliceMouse; Shop.bobMouse],
     json (CartItemUpdated (with_quantity Shop.aliceKeyboard 5)
             "Keyboard" (10 # 1)) 200).
Proof.
  repeat split.
Qed.

(** ** What each handler leaves alone *)

Lemma same_catalog_refl (db : DB) : same_catalog db db.
Proof. split; reflexivity. Qed.

Lemma cart_POST_frame (env : Env) (db : DB) (req : Request) :
  let db' := fst (cart_POST env db req) in
  same_catalog db db' /\ orders db' = orders db /\
  orderItems db' = orderItems db.
Proof.
  unfold cart_POST. branches; simpl; repeat split.
Qed.

Lemma cart_PUT_frame (env : Env) (db : DB) (req : Request) :
  let db' := fst (cart_PUT env db req) in
  same_catalog db db' /\ orders db' = orders db /\
  orderItems db' = orderItems db.
Proof.
  unfold cart_PUT. branches; simpl; repeat split.
Qed.

Lemma cart_DELETE_frame (env : Env) (db : DB) (req : Request) :
  let db' := fst (cart_DELETE env db req) in
  same_catalog db db' /\ orders db' = orders db /\
  orderItems db' = orderItems db.
Proof.
  unfold cart_DELETE. branches; simpl; repeat split.
Qed.

Lemma checkout_POST_frame (env : Env) (db : DB) (req : Request) :
  let db' := fst (checkout_POST env db req) in
  same_catalog db db' /\
  (orderItems db' = orderItems db \/
   exists user cartLines,
     includeProduct db (cartOf db (au_id user)) = Some cartLines /\
     orderItems db'
     = (orderItems db ++ map (orderItemOf (uuid env)) cartLines)%list).
Proof.
  unfold checkout_POST. branches; simpl; (split; [split; reflexivity|]);
    try (left; reflexivity); right; eauto.
Qed.

Lemma logout_POST_frame (env : Env) (db : DB) (req : Request) :
  let db' := fst (logout_POST env db req) in
  users db' = users db /\ products db' = products db /\
  orders db' = orders db /\ orderItems db' = orderItems db /\
  incl (invalidTokens db) (invalidTokens db').
Proof.
  unfold logout_POST. branches; simpl; repeat split;
    try apply incl_refl; apply incl_appl, incl_refl.
Qed.

(** ** Catalog administration *)

Lemma Qfloor_nonneg (q : Q) : Qltb q 0 = false -> 0 <= Qfloor q.
Proof.
  unfold Qltb. intro H. apply negb_false_iff in H. apply Qle_bool_iff in H.
  apply (Qfloor_resp_le 0 q) in H. exact H.
Qed.


Lemma product_POST_frame (env : Env) (db : DB) (req : Request) :
  let db' := fst (product_POST env db req) in
  invalidTokens db' = invalidTokens db /\ orderItems db' = orderItems db /\
  (products db' = products db \/
   exists p, 0 <= product_stock p /\
             products db' = (products db ++ [p])%list).
Proof.
  unfold product_POST. branches; simpl;
    (split; [reflexivity|]); (split; [reflexivity|]);
    try (left; reflexivity).
  right. eexists. split; [|reflexivity]. simpl.
  match goal with
  | H : asNumber ?v = Some _ |- _ => destruct v; try discriminate H;
                                     injection H as ->
  end.
  match goal with
  | H : (_ || js_lt _ 0 || _) = false |- _ =>
      apply orb_false_iff in H; destruct H as [H _];
      apply orb_false_iff in H; destruct H as [_ H]
  end.
  apply Qfloor_nonneg. assumption.
Qed.

Lemma stock_check_passed (q : Q) :
  negb (isUndefined (JNum q))
  && (negb (isNumber (JNum q)) || js_lt (JNum q) 0 || negb (isInteger q))
  = false ->
  0 <= Qfloor q.
Proof.
  simpl. intro H. apply orb_false_iff in H. destruct H as [H _].
  apply Qfloor_nonneg. exact H.
Qed.

Lemma scalar_json_body (req : Request) (body : string -> JsVal) :
  req_json req = Some body ->
  scalar_json req = scalarData (req_json_keys req) body.
Proof. unfold scalar_json. intros ->. reflexivity. Qed.

Lemma optString_written (v : JsVal) (old s : string) :
  optString v old = Some s ->
  isUndefined v = true /\ s = old \/ isUndefined v = false.
Proof.
  destruct v; simpl; intro H; try discriminate; auto.
  injection H as <-. auto.
Qed.

Lemma isSome_not_None {A : Type} (o : option A) : isSome o = true -> o <> None.
Proof. destruct o; [discriminate | discriminate]. Qed.

(** A JSON update of scalar columns rewrites the row of the id and nothing
    else. *)
Lemma product_PUT_scalar (env : Env) (db : DB) (req : Request) :
  scalar_json req = true ->
  let db' := fst (product_PUT env db req) in
  db' = db \/
  exists existingProduct p,
    findProduct db (req_params_id req) = Some existingProduct /\
    db' = set_products db (updateProduct (req_params_id req) p (products db)) /\
    product_id p = product_id existingProduct /\
    (product_stock p = product_stock existingProduct \/ 0 <= product_stock p) /\
    (product_brandId p = product_brandId existingProduct \/
     findBrand db (product_brandId p) <> None) /\
    (product_categoryId p = product_categoryId existingProduct \/
     findCategory db (product_categoryId p) <> None).
Proof.
  intro Hs. unfold product_PUT. branches; try (left; reflexivity).
  all: match goal with
       | Hj : req_json ?r = Some ?body |- _ =>
           rewrite (scalar_json_body r body Hj) in Hs
       end.
  all: try (exfalso;
            match goal with
            | Hn : negb ?b = true |- _ =>
                rewrite Hs in Hn; discriminate Hn
            end).
  all: right; eexists; eexists; (split; [reflexivity|]);
    (split; [reflexivity|]); (split; [reflexivity|]); simpl.
  all: match goal with
       | Hk : (_ && _) = true |- _ =>
           apply andb_true_iff in Hk; destruct Hk as [Hk1 Hk2];
           apply orb_true_iff in Hk1; apply orb_true_iff in Hk2
       end.
  all: split; [|split].
  all: try match goal with
       | Ho : optString ?v ?old = Some ?s, Hk : isUndefined ?v = true \/ _
         |- ?s = _ \/ _ <> None =>
           destruct Hk as [Hk | Hk];
           [ destruct (optString_written _ _ _ Ho) as [[_ ->] | Hw];
             [left; reflexivity | congruence]
           | right; exact (isSome_not_None _ Hk) ]
       end.
  all: try (left; reflexivity).
  all: right.
  all: match goal with
       | H : _ = false |- 0 <= Qfloor ?q => exact (stock_check_passed q H)
       end.
Qed.

(** A JSON update with other data is the client's: either nothing is
    written, or the constraints of the schema hold afterwards. *)
Lemma product_PUT_nested (env : Env) (db : DB) (req : Request) :
  scalar_json req = false ->
  let db' := fst (product_PUT env db req) in
  db' = db \/
  (authAdminOnly env db req = true /\ constraints db' = true).
Proof.
  intro Hs. unfold product_PUT. branches; try (left; reflexivity).
  all: match goal with
       | Hj : req_json ?r = Some ?body |- _ =>
           rewrite (scalar_json_body r body Hj) in Hs
       end.
  all: try (exfalso;
            match goal with
            | Hn : negb ?b = false |- _ =>
                rewrite Hs in Hn; discriminate Hn
            end).
  right. split; [|assumption].
  match goal with
  | Hn : negb (authAdminOnly _ _ _) = false |- _ =>
      apply negb_false_iff in Hn; exact Hn
  end.
Qed.

Lemma product_PUT_invalidTokens (env : Env) (db : DB) (req : Request) :
  invalidTokens (fst (product_PUT env db req)) = invalidTokens db.
Proof.
  unfold product_PUT. branches; reflexivity.
Qed.

Lemma product_PUT_frame (env : Env) (db : DB) (req : Request) :
  let db' := fst (product_PUT env db req) in
  invalidTokens db' = invalidTokens db /\
  (scalar_json req = true ->
   orderItems db' = orderItems db /\
   (products db' = products db \/
    exists existingProduct p,
      findProduct db (req_params_id req) = Some existingProduct /\
      products db' = updateProduct (req_params_id req) p (products db) /\
      product_id p = product_id existingProduct /\
      (product_stock p = product_stock existingProduct \/
       0 <= product_stock p))).
Proof.
  split; [apply product_PUT_invalidTokens|]. intro Hs.
  destruct (product_PUT_scalar env db req Hs)
    as [-> | (e & p & Hf & -> & Hid & Hst & _)].
  - split; [reflexivity | left; reflexivity].
  - split; [reflexivity|]. right. exists e, p. auto.
Qed.

Lemma product_DELETE_frame (env : Env) (db : DB) (req : Request) :
  let db' := fst (product_DELETE env db req) in
  invalidTokens db' = invalidTokens db /\ orderItems db' = orderItems db /\
  (db' = db \/
   (forall oi, In oi (orderItems db) ->
               (oi_productId oi =? req_params_id req)%string = false) /\
   products db'
   = filter (fun p => negb (product_id p =? req_params_id req)%string)
       (products db)).
Proof.
  unfold product_DELETE. branches; simpl;
    (split; [reflexivity|]); (split; [reflexivity|]);
    try (left; reflexivity).
  right. split; [|reflexivity].
  match goal with
  | H : find _ (orderItems db) = None |- _ => exact (find_none _ _ H)
  end.
Qed.

Lemma filter_length_0 {A : Type} (f : A -> bool) (l : list A) :
  (0 <? List.length (filter f l))%nat = false ->
  forall x, In x l -> f x = false.
Proof.
  intros H x Hx. destruct (f x) eqn:E; [|reflexivity].
  assert (Hin : In x (filter f l)) by (apply filter_In; auto).
  destruct (filter f l); [destruct Hin | discriminate].
Qed.

Lemma product_POST_form_frame (env : Env) (db : DB) (req : Request) :
  let db' := fst (product_POST_form env db req) in
  invalidTokens db' = invalidTokens db /\ orderItems db' = orderItems db /\
  (products db' = products db \/
   exists p, 0 <= product_stock p /\
             products db' = (products db ++ [p])%list).
Proof.
  unfold product_POST_form. branches; simpl;
    (split; [reflexivity|]); (split; [reflexivity|]);
    try (left; reflexivity).
  right. eexists. split; [|reflexivity]. simpl.
  match goal with
  | H : (_ <? 0) = false |- _ => apply Z.ltb_ge in H; exact H
  end.
Qed.

Lemma product_PUT_form_frame (env : Env) (db : DB) (req : Request) :
  let db' := fst (product_PUT_form env db req) in
  invalidTokens db' = invalidTokens db /\ orderItems db' = orderItems db /\
  (products db' = products db \/
   exists existingProduct p,
     findProduct db (req_params_id req) = Some existingProduct /\
     products db' = updateProduct (req_params_id req) p (products db) /\
     product_id p = product_id existingProduct /\
     (product_stock p = product_stock existingProduct \/ 0 <= product_stock p)).
Proof.
  unfold product_PUT_form. branches; simpl;
    (split; [reflexivity|]); (split; [reflexivity|]);
    try (left; reflexivity);
    right; eexists; eexists; (split; [reflexivity|]);
    (split; [reflexivity|]); (split; [reflexivity|]); simpl;
    try (left; reflexivity).
  all: right.
  all: match goal with
       | H : (?z <? 0) = false |- 0 <= ?z => apply Z.ltb_ge in H; exact H
       end.
Qed.

Lemma product_DELETE_form_frame (env : Env) (db : DB) (req : Request) :
  let db' := fst (product_DELETE_form env db req) in
  invalidTokens db' = invalidTokens db /\ orderItems db' = orderItems db /\
  (db' = db \/
   (forall oi, In oi (orderItems db) ->
               (oi_productId oi =? req_params_id req)%string = false) /\
   products db'
   = filter (fun p => negb (product_id p =? req_params_id req)%string)
       (products db)).
Proof.
  unfold product_DELETE_form. branches; simpl;
    (split; [reflexivity|]); (split; [reflexivity|]);
    try (left; reflexivity);
    right; (split; [|reflexivity]);
    match goal with
    | H : (0 <? List.length (filter _ (orderItems db)))%nat = false |- _ =>
        exact (filter_length_0 _ _ H)
    end.
Qed.

(** ** Sequences of requests *)

Lemma run_invariant (P : DB -> Prop) :
  (forall db c, P db -> P (step db c)) ->
  forall calls db, P db -> P (run db calls).
Proof.
  intros Hstep calls. induction calls as [|c calls IH]; intros db H.
  - exact H.
  - simpl. apply IH. apply Hstep. exact H.
Qed.

Lemma run_invariant_on (ok : Call -> bool) (P : DB -> Prop) :
  (forall db c, ok c = true -> P db -> P (step db c)) ->
  forall calls db,
    Forall (fun c => ok c = true) calls -> P db -> P (run db calls).
Proof.
  intros Hstep calls. induction calls as [|c calls IH]; intros db Hok H.
  - exact H.
  - inversion Hok as [|c' calls' Hc Hcalls]; subst. simpl. apply IH.
    + exact Hcalls.
    + apply Hstep; assumption.
Qed.


Lemma updateProduct_Forall (P : Product -> Prop) (id : Id) (p' : Product)
  (l : list Product) :
  Forall P l -> ((exists p, In p l /\ (product_id p =? id)%string = true) -> P p') ->
  Forall P (updateProduct id p' l).
Proof.
  intros Hl Hp. unfold updateProduct. rewrite Forall_forall in *.
  intros x Hx. apply in_map_iff in Hx. destruct Hx as [p [Hpx Hin]].
  destruct (product_id p =? id)%string eqn:E.
  - subst x. apply Hp. exists p. split; assumption.
  - subst x. apply Hl. exact Hin.
Qed.








(** ** Order items and their products *)

Lemma find_id_In {A : Type} (key : A -> string) (x : string) (l : list A) :
  find (fun a => (key a =? x)%string) l <> None <-> In x (map key l).
Proof.
  induction l as [|a l IH]; simpl.
  - split; [intro H; contradiction | intros []].
  - destruct (key a =? x)%string eqn:E.
    + apply String.eqb_eq in E. split; [intros _; left; exact E | discriminate].
    + apply String.eqb_neq in E. rewrite IH. split.
      * intro H. right. exact H.
      * intros [H|H]; [contradiction | exact H].
Qed.

Lemma distinct_NoDup (l : list string) : distinct l = true -> NoDup l.
Proof.
  induction l as [|x l IH]; simpl; intro H; [constructor|].
  apply andb_true_iff in H. destruct H as [Hx Hl].
  constructor; [|exact (IH Hl)]. intro Hin.
  apply negb_true_iff in Hx.
  assert (He : existsb (String.eqb x) l = true).
  { apply existsb_exists. exists x. split; [exact Hin | apply String.eqb_refl]. }
  congruence.
Qed.

Lemma refers_In (ids : list Id) (id : Id) : refers ids id = true -> In id ids.
Proof.
  unfold refers. intro H. apply existsb_exists in H.
  destruct H as [y [Hy He]]. apply String.eqb_eq in He. subst y. exact Hy.
Qed.

(** What the constraints of the schema say about a store. *)
Lemma constraints_hold (db : DB) :
  constraints db = true ->
  emails_distinct db /\ catalog_resolves db /\ cart_items_resolve db /\
  order_items_resolve db /\ order_items_owned db.
Proof.
  unfold constraints. intro H.
  repeat match type of H with
         | (_ && _) = true =>
             let H' := fresh "H" in
             apply andb_true_iff in H; destruct H as [H H']
         end.
  repeat match goal with
         | Hf : forallb _ _ = true |- _ =>
             rewrite forallb_forall in Hf
         end.
  assert (Hfind : forall {A : Type} (key : A -> string) (l : list A) id,
             refers (map key l) id = true ->
             find (fun a => (key a =? id)%string) l <> None).
  { intros A key l id Hr. apply find_id_In. apply refers_In. exact Hr. }
  split; [apply distinct_NoDup; assumption|].
  unfold catalog_resolves, cart_items_resolve, order_items_resolve,
    order_items_owned, findBrand, findCategory, findProduct, findOrder.
  repeat split; apply Forall_forall; intros x Hx.
  all: repeat match goal with
         | Hf : forall y, In y ?l -> _, Hin : In ?x ?l |- _ =>
             specialize (Hf x Hin); apply andb_true_iff in Hf;
             destruct Hf
         end.
  all: try (split); apply Hfind; assumption.
Qed.

Lemma order_items_resolve_iff (db : DB) :
  order_items_resolve db <->
  Forall (fun oi => In (oi_productId oi) (map product_id (products db)))
    (orderItems db).
Proof.
  unfold order_items_resolve, findProduct. rewrite !Forall_forall.
  split; intros H oi Hoi; apply (find_id_In product_id); apply H; exact Hoi.
Qed.

Lemma updateProduct_ids (id : Id) (p' : Product) (l : list Product) :
  product_id p' = id ->
  map product_id (updateProduct id p' l) = map product_id l.
Proof.
  intro Hid. unfold updateProduct. rewrite map_map. apply map_ext.
  intro p. destruct (product_id p =? id)%string eqn:E.
  - apply String.eqb_eq in E. congruence.
  - reflexivity.
Qed.

Lemma delete_keeps_resolved (id : Id) (ps : list Product)
  (ois : list OrderItem) :
  (forall oi, In oi ois -> (oi_productId oi =? id)%string = false) ->
  Forall (fun oi => In (oi_productId oi) (map product_id ps)) ois ->
  Forall (fun oi =>
            In (oi_productId oi)
              (map product_id
                 (filter (fun p => negb (product_id p =? id)%string) ps))) ois.
Proof.
  intros Hn H. rewrite Forall_forall in *. intros oi Hin.
  specialize (H oi Hin). apply in_map_iff in H.
  destruct H as [p [Hpid Hpin]]. apply in_map_iff. exists p.
  split; [exact Hpid|]. apply filter_In. split; [exact Hpin|].
  rewrite Hpid, (Hn oi Hin). reflexivity.
Qed.

Lemma step_order_items_resolve (db : DB) (c : Call) :
  order_items_resolve db -> order_items_resolve (step db c).
Proof.
  rewrite !order_items_resolve_iff. intro H.
  unfold step. destruct c as [op env req]. simpl.
  destruct op; simpl.
  - destruct (cart_POST_frame env db req) as ([_ _ ->] & _ & ->). exact H.
  - destruct (cart_PUT_frame env db req) as ([_ _ ->] & _ & ->). exact H.
  - destruct (cart_DELETE_frame env db req) as ([_ _ ->] & _ & ->). exact H.
  - destruct (checkout_POST_frame env db req)
      as ([_ _ ->] & [-> | (user & cartLines & Hl & ->)]).
    + exact H.
    + apply Forall_app. split; [exact H|].
      apply Forall_forall. intros oi Hoi. apply in_map_iff in Hoi.
      destruct Hoi as [it [<- Hit]]. simpl.
      pose proof (includeProduct_products _ _ _ Hl) as Hp.
      rewrite Forall_forall in Hp. specialize (Hp it Hit).
      apply (find_id_In product_id). unfold findProduct in Hp.
      rewrite Hp. discriminate.
  - destruct (product_POST_frame env db req) as (_ & -> & [-> | (p & _ & ->)]).
    + exact H.
    + rewrite map_app. eapply Forall_impl; [|exact H].
      intros oi Hoi. apply in_or_app. left. exact Hoi.
  - destruct (scalar_json req) eqn:Hs.
    + destruct (proj2 (product_PUT_frame env db req) Hs)
        as (-> & [-> | (e & p & Hf & -> & Hid & _)]).
      * exact H.
      * rewrite updateProduct_ids; [exact H|].
        apply find_some in Hf. destruct Hf as [_ Hf].
        apply String.eqb_eq in Hf. congruence.
    + (* the client's nested writes: the relation of the order items to
         their products is a foreign key *)
      destruct (product_PUT_nested env db req Hs) as [-> | [_ Hk]];
        [exact H|].
      apply order_items_resolve_iff. apply (constraints_hold _ Hk).
  - destruct (product_DELETE_frame env db req) as (_ & Hoi & [-> | (Hn & Hp)]).
    + exact H.
    + rewrite Hoi, Hp. exact (delete_keeps_resolved _ _ _ Hn H).
  - destruct (product_POST_form_frame env db req)
      as (_ & -> & [-> | (p & _ & ->)]).
    + exact H.
    + rewrite map_app. eapply Forall_impl; [|exact H].
      intros oi Hoi. apply in_or_app. left. exact Hoi.
  - destruct (product_PUT_form_frame env db req)
      as (_ & -> & [-> | (e & p & Hf & -> & Hid & _)]).
    + exact H.
    + rewrite updateProduct_ids; [exact H|].
      apply find_some in Hf. destruct Hf as [_ Hf].
      apply String.eqb_eq in Hf. congruence.
  - destruct (product_DELETE_form_frame env db req)
      as (_ & Hoi & [-> | (Hn & Hp)]).
    + exact H.
    + rewrite Hoi, Hp. exact (delete_keeps_resolved _ _ _ Hn H).
  - destruct (logout_POST_frame env db req) as (_ & -> & _ & -> & _). exact H.
Qed.

Lemma product_DELETE_refused (env : Env) (db : DB) (req : Request)
  (oi : OrderItem) :
  In oi (orderItems db) -> oi_productId oi = req_params_id req ->
  fst (product_DELETE env db req) = db /\
  (authAdminOnly env db req = true -> req_params_id req <> "" ->
   findProduct db (req_params_id req) <> None ->
   snd (product_DELETE env db req)
   = json (Error "Cannot delete product with existing orders") 400).
Proof.
  intros Hin Hid.
  assert (Hf : exists x, find (fun oi0 => (oi_productId oi0 =? req_params_id req)%string)
                           (orderItems db) = Some x).
  { destruct (find (fun oi0 => (oi_productId oi0 =? req_params_id req)%string)
                (orderItems db)) eqn:E; [eexists; reflexivity|].
    pose proof (find_none _ _ E oi Hin) as Hn. simpl in Hn.
    rewrite Hid, String.eqb_refl in Hn. discriminate. }
  destruct Hf as [x Hf]. unfold product_DELETE. cbv zeta. split.
  - destruct (getCurrentUser env db req); [|reflexivity].
    destruct (negb (authAdminOnly env db req)); [reflexivity|].
    destruct (req_params_id req =? "")%string; [reflexivity|].
    destruct (findProduct db (req_params_id req)); [|reflexivity].
    rewrite Hf. reflexivity.
  - intros Hadmin Hne Hp. rewrite Hadmin.
    unfold authAdminOnly in Hadmin. unfold getCurrentUser.
    destruct (auth env db req); [|discriminate].
    apply String.eqb_neq in Hne. rewrite Hne.
    destruct (findProduct db (req_params_id req)); [|contradiction].
    rewrite Hf. reflexivity.
Qed.

Lemma product_DELETE_form_refused (env : Env) (db : DB) (req : Request)
  (oi : OrderItem) :
  In oi (orderItems db) -> oi_productId oi = req_params_id req ->
  fst (product_DELETE_form env db req) = db /\
  (authAdminOnly env db req = true -> req_params_id req <> "" ->
   findProduct db (req_params_id req) <> None ->
   exists orderCount,
     (0 < orderCount)%nat /\
     snd (product_DELETE_form env db req) = json (CannotDelete orderCount) 400).
Proof.
  intros Hin Hid.
  assert (Hf : (0 <? List.length
                       (filter (fun oi0 => (oi_productId oi0 =? req_params_id req)%string)
                          (orderItems db)))%nat = true).
  { destruct (0 <? _)%nat eqn:E; [reflexivity|].
    pose proof (filter_length_0 _ _ E oi Hin) as Hn. simpl in Hn.
    rewrite Hid, String.eqb_refl in Hn. discriminate. }
  unfold product_DELETE_form. cbv zeta. split.
  - destruct (getCurrentUser env db req); [|reflexivity].
    destruct (negb (authAdminOnly env db req)); [reflexivity|].
    destruct (req_params_id req =? "")%string; [reflexivity|].
    destruct (findProduct db (req_params_id req)); [|reflexivity].
    rewrite Hf. reflexivity.
  - intros Hadmin Hne Hp. rewrite Hadmin.
    unfold authAdminOnly in Hadmin. unfold getCurrentUser.
    destruct (auth env db req); [|discriminate].
    apply String.eqb_neq in Hne. rewrite Hne.
    destruct (findProduct db (req_params_id req)); [|contradiction].
    rewrite Hf. eexists. split; [|reflexivity].
    apply Nat.ltb_lt. exact Hf.
Qed.

(** C9. In a store where every order item points at a product, and in every
    store reached from it by cart, checkout, catalog and logout requests:
    every order item still points at a product of the store; and deleting a
    product that an order item points at removes nothing, with the answer
    400 "Cannot delete product with existing orders" when an administrator
    asks (with the number of these order items, in the later variant of the
    handler).  No handler rewrites a product id or an order item of its
    own; what a JSON product update hands to the client beyond scalar
    columns is held by the foreign key of the relation. *)
Theorem order_items_keep_their_product (db : DB) (calls : list Call) :
  order_items_resolve db ->
  order_items_resolve (run db calls) /\
  (forall env req oi,
      In oi (orderItems (run db calls)) ->
      oi_productId oi = req_params_id req ->
      fst (product_DELETE env (run db calls) req) = run db calls /\
      fst (product_DELETE_form env (run db calls) req) = run db calls /\
      (authAdminOnly env (run db calls) req = true ->
       req_params_id req <> "" ->
       snd (product_DELETE env (run db calls) req)
       = json (Error "Cannot delete product with existing orders") 400 /\
       exists orderCount,
         (0 < orderCount)%nat /\
         snd (product_DELETE_form env (run db calls) req)
         = json (CannotDelete orderCount) 400)).
Proof.
  intro H.
  assert (Hrun : order_items_resolve (run db calls)).
  { revert H. apply run_invariant. intros d c. apply step_order_items_resolve. }
  split; [exact Hrun|].
  intros env req oi Hin Hid.
  destruct (product_DELETE_refused env (run db calls) req oi Hin Hid) as [H1 H2].
  destruct (product_DELETE_form_refused env (run db calls) req oi Hin Hid)
    as [H3 H4].
  split; [exact H1|]. split; [exact H3|]. intros Hadmin Hne.
  assert (Hp : findProduct (run db calls) (req_params_id req) <> None).
  { unfold order_items_resolve in Hrun. rewrite Forall_forall in Hrun.
    rewrite <- Hid. apply Hrun. exact Hin. }
  split; [apply H2 | apply H4]; assumption.
Qed.

Lemma order_items_keep_their_product_witness :
  let calls :=
    [ {| call_op := Checkout; call_env := Shop.env "o-1";
         call_req := Shop.bearer "tok-alice" |};
      {| call_op := ProductDelete; call_env := Shop.env "";
         call_req := Shop.with_id (Shop.bearer "tok-carol") Shop.keyboardId |} ] in
  order_items_resolve Shop.db0 /\
  order_items_resolve (run Shop.db0 calls) /\
  map product_id (products (run Shop.db0 calls))
  = [Shop.keyboardId; Shop.mouseId] /\
  map oi_productId (orderItems (run Shop.db0 calls))
  = [Shop.keyboardId; Shop.mouseId].
Proof.
  intro calls.
  assert (H : order_items_resolve Shop.db0) by constructor.
  split; [exact H|].
  split; [exact (proj1 (order_items_keep_their_product Shop.db0 calls H))|].
  split; reflexivity.
Defined.

(** ** Token revocation *)

Lemma findInvalidToken_revoked (db : DB) (token : string) :
  revoked db token <-> findInvalidToken db token <> None.
Proof.
  unfold revoked, findInvalidToken. symmetry. apply (find_id_In it_token).
Qed.

Lemma auth_Some_inv (env : Env) (db : DB) (req : Request) (user : AuthUser) :
  auth env db req = Some user ->
  exists token, presents req token /\ findInvalidToken db token = None.
Proof.
  unfold auth, presents.
  destruct (req_authorization req) as [authHeader|]; [|discriminate].
  destruct (startsWith authHeader "Bearer ") eqn:Hs; simpl negb; cbv iota;
    [|discriminate].
  destruct (nth_error (split " " authHeader) 1) as [token|] eqn:Ht;
    [|discriminate].
  destruct (findInvalidToken db token) eqn:Hf; [discriminate|].
  intros _. exists token. split; [|exact Hf].
  exists authHeader. repeat split; assumption.
Qed.

Lemma auth_revoked (env : Env) (db : DB) (req : Request) (token : string) :
  presents req token -> revoked db token -> auth env db req = None.
Proof.
  intros (authHeader & Hh & Hs & Ht) Hr. unfold auth.
  rewrite Hh, Hs, Ht. simpl negb. cbv iota.
  apply findInvalidToken_revoked in Hr.
  destruct (findInvalidToken db token); [reflexivity | contradiction].
Qed.

Lemma step_revoked (db : DB) (c : Call) (token : string) :
  revoked db token -> revoked (step db c) token.
Proof.
  unfold revoked, step. destruct c as [op env req]. simpl.
  destruct op; simpl.
  - destruct (cart_POST_frame env db req) as ([_ -> _] & _). tauto.
  - destruct (cart_PUT_frame env db req) as ([_ -> _] & _). tauto.
  - destruct (cart_DELETE_frame env db req) as ([_ -> _] & _). tauto.
  - destruct (checkout_POST_frame env db req) as ([_ -> _] & _). tauto.
  - destruct (product_POST_frame env db req) as (-> & _). tauto.
  - destruct (product_PUT_frame env db req) as (-> & _). tauto.
  - destruct (product_DELETE_frame env db req) as (-> & _). tauto.
  - destruct (product_POST_form_frame env db req) as (-> & _). tauto.
  - destruct (product_PUT_form_frame env db req) as (-> & _). tauto.
  - destruct (product_DELETE_form_frame env db req) as (-> & _). tauto.
  - destruct (logout_POST_frame env db req) as (_ & _ & _ & _ & Hincl).
    intro H. apply in_map_iff in H. destruct H as [t [Ht Hin]].
    apply in_map_iff. exists t. split; [exact Ht | apply Hincl; exact Hin].
Qed.

Lemma logout_POST_records (env : Env) (db : DB) (req : Request)
  (user : AuthUser) (token : string) :
  getCurrentUser env db req = Some user -> presents req token ->
  logout_POST env db req
  = (set_invalidTokens db
       (invalidTokens db ++
        [{| it_token := token; it_userId := au_id user;
            it_expiresAt := now env + 86400000 |}]),
     json (Message "Logged out successfully") 200).
Proof.
  intros Hu (authHeader & Hh & Hs & Ht). unfold logout_POST. rewrite Hu.
  destruct (auth_Some_inv env db req user Hu)
    as (token' & (authHeader' & Hh' & _ & Ht') & Hf).
  rewrite Hh in Hh'. injection Hh' as <-. rewrite Ht in Ht'.
  injection Ht' as <-. rewrite Hh, Hs, Ht, Hf. reflexivity.
Qed.

Lemma handle_unauthenticated (op : Op) (env : Env) (db : DB) (req : Request) :
  auth env db req = None ->
  handle op env db req
  = (db, match op with
         | ProductCreate | ProductCreateForm => adminRequired
         | Logout => json (Message "Already logged out") 200
         | _ => unauthorizedResponse
         end).
Proof.
  intro H. destruct op; simpl;
    [unfold cart_POST | unfold cart_PUT | unfold cart_DELETE
    | unfold checkout_POST | unfold product_POST | unfold product_PUT
    | unfold product_DELETE | unfold product_POST_form
    | unfold product_PUT_form | unfold product_DELETE_form
    | unfold logout_POST];
    unfold getCurrentUser, authAdminOnly; rewrite H; reflexivity.
Qed.

(** C10. A logout by an authenticated caller answers "Logged out
    successfully" and records the bearer token of the request among the
    invalid tokens.  From then on, after any sequence of requests, [auth]
    gives null for every request that presents this token, whatever the JWT
    library says about it, and every handler turns such a request away
    without touching the store: 401, or 403 where only [authAdminOnly] is
    asked, or "Already logged out". *)
Theorem revoked_token_is_rejected (env : Env) (db : DB) (req : Request)
  (user : AuthUser) :
  getCurrentUser env db req = Some user ->
  exists token,
    presents req token /\
    snd (logout_POST env db req) = json (Message "Logged out successfully") 200 /\
    revoked (fst (logout_POST env db req)) token /\
    forall calls env' req',
      presents req' token ->
      let later := run (fst (logout_POST env db req)) calls in
      auth env' later req' = None /\
      authUser env' later req' = false /\
      authAdminOnly env' later req' = false /\
      forall op,
        handle op env' later req'
        = (later, match op with
                  | ProductCreate | ProductCreateForm => adminRequired
                  | Logout => json (Message "Already logged out") 200
                  | _ => unauthorizedResponse
                  end).
Proof.
  intro Hu.
  destruct (auth_Some_inv env db req user Hu) as (token & Hp & _).
  exists token. split; [exact Hp|].
  rewrite (logout_POST_records env db req user token Hu Hp). simpl fst.
  split; [reflexivity|].
  assert (Hr : revoked
                 (set_invalidTokens db
                    (invalidTokens db ++
                     [{| it_token := token; it_userId := au_id user;
                         it_expiresAt := now env + 86400000 |}])) token).
  { unfold revoked. simpl. rewrite map_app. apply in_or_app. right.
    left. reflexivity. }
  split; [exact Hr|].
  intros calls env' req' Hp'. cbv zeta.
  assert (Ha : auth env'
                 (run (set_invalidTokens db
                         (invalidTokens db ++
                          [{| it_token := token; it_userId := au_id user;
                              it_expiresAt := now env + 86400000 |}])) calls)
                 req' = None).
  { apply (auth_revoked _ _ _ token Hp').
    revert Hr. apply (run_invariant (fun d => revoked d token)).
    intros d c. apply step_revoked. }
  split; [exact Ha|]. unfold authUser, authAdminOnly. rewrite Ha.
  split; [reflexivity|]. split; [reflexivity|].
  intro op. apply handle_unauthenticated. exact Ha.
Qed.

Lemma revoked_token_is_rejected_witness :
  let calls :=
    [ {| call_op := Checkout; call_env := Shop.env "o-2";
         call_req := Shop.bearer "tok-bob" |} ] in
  let later :=
    run (fst (logout_POST (Shop.env "") Shop.db0 (Shop.bearer "tok-alice")))
      calls in
  Shop.verify "tok-alice" <> None /\
  auth (Shop.env "") Shop.db0 (Shop.bearer "tok-alice") <> None /\
  auth (Shop.env "") later (Shop.bearer "tok-alice") = None /\
  checkout_POST (Shop.env "o-1") later (Shop.bearer "tok-alice")
  = (later, unauthorizedResponse).
Proof.
  intros calls later.
  destruct (revoked_token_is_rejected (Shop.env "") Shop.db0
              (Shop.bearer "tok-alice")
              {| au_id := "u-alice"; au_email := "alice@example.com";
                 au_name := "Alice"; au_role := CUSTOMER |} eq_refl)
    as (token & Hp & _ & _ & H).
  assert (Hp' : presents (Shop.bearer "tok-alice") token) by exact Hp.
  split; [discriminate|]. split; [discriminate|].
  destruct (H calls (Shop.env "") (Shop.bearer "tok-alice") Hp') as (Ha & _).
  split; [exact Ha|].
  destruct (H calls (Shop.env "o-1") (Shop.bearer "tok-alice") Hp')
    as (_ & _ & _ & Hh).
  exact (Hh Checkout).
Defined.

(** ** Checkout requests served together *)

(** Served alone, the six awaited calls of a checkout are the handler. *)
Lemma checkout_steps_alone (env : Env) (req : Request) (db : DB) :
  checkout_steps awaits env req AtInvalidToken db
  = (Returned (snd (checkout_POST env db req)), fst (checkout_POST env db req)).
Proof.
  unfold awaits, checkout_POST, getCurrentUser, auth.
  cbn [checkout_steps checkout_step].
  destruct (req_authorization req) as [authHeader|]; [|reflexivity].
  destruct (negb (startsWith authHeader "Bearer ")); [reflexivity|].
  destruct (nth_error (split " " authHeader) 1) as [token|]; [|reflexivity].
  destruct (findInvalidToken db token); [reflexivity|].
  cbn [checkout_steps checkout_step].
  destruct (jwt_verify env token) as [decoded|]; [|reflexivity].
  destruct (findUser db (jwt_userId decoded)) as [u|]; [|reflexivity].
  cbn [au_role au_id au_email].
  destruct (negb (Role_eqb (user_role u) CUSTOMER)); [reflexivity|].
  cbn [checkout_steps checkout_step au_id].
  destruct (includeProduct db (cartOf db (user_id u))) as [cartLines|];
    [|reflexivity].
  destruct (List.length cartLines =? 0)%nat; [reflexivity|].
  destruct (find _ cartLines); [reflexivity|].
  cbn [checkout_steps checkout_step].
  destruct (findOrder db (uuid env)); [reflexivity|].
  cbn [checkout_steps checkout_step order_id order_totalAmount au_email].
  destruct (createXenditInvoice env _); reflexivity.
Qed.

Lemma checkout_steps_return (env : Env) (req : Request) (n : nat) :
  forall pc db, (remaining pc <= n)%nat ->
                exists r, fst (checkout_steps n env req pc db) = Returned r.
Proof.
  induction n as [|n IH]; intros pc db Hn.
  - destruct pc; simpl in Hn; try lia. exists r. reflexivity.
  - simpl. destruct (checkout_step env req pc db) as [pc' db'] eqn:E.
    apply IH.
    assert (Hdec : (remaining pc' <= Nat.pred (remaining pc))%nat).
    { destruct pc; simpl in E; revert E; branches; intro E;
        injection E as <- <-; simpl; lia. }
    lia.
Qed.

Lemma checkout_step_same_catalog (env : Env) (req : Request) (pc : Pc)
  (db : DB) : same_catalog db (snd (checkout_step env req pc db)).
Proof.
  destruct pc; simpl; branches; simpl; split; reflexivity.
Qed.

Lemma includeProduct_same_products (db db' : DB) (l : list CartItem) :
  products db' = products db -> includeProduct db' l = includeProduct db l.
Proof.
  intro H. induction l as [|c l IH]; simpl.
  - reflexivity.
  - unfold findProduct. rewrite H, IH. reflexivity.
Qed.

Lemma cart_ready_agree (env : Env) (user : AuthUser) (db db' : DB) :
  agree env user db db' -> cart_ready env user db -> cart_ready env user db'.
Proof.
  intros [[_ _ Hp] Hc _] (cartLines & Hl & Hrest). exists cartLines.
  split; [|exact Hrest].
  rewrite Hc, (includeProduct_same_products db db' _ Hp). exact Hl.
Qed.

Lemma on_course_agree (env : Env) (req : Request) (user : AuthUser) (pc : Pc)
  (db db' : DB) :
  agree env user db db' ->
  on_course env req user pc db -> on_course env req user pc db'.
Proof.
  intros Hag [Hrole H]. split; [exact Hrole|].
  pose proof (cart_ready_agree env user db db' Hag) as Hcart.
  destruct Hag as [[Hu Ht Hp] Hc Ho].
  destruct pc; simpl in *; rewrite ?Ho.
  - destruct H as (Ha & Hr & Hf). split; [|split; auto].
    unfold auth, findInvalidToken, findUser in *. rewrite Hu, Ht. exact Ha.
  - destruct H as ((decoded & u & Hj & Hfu & Hus) & Hr & Hf).
    split; [|split; auto]. exists decoded, u.
    unfold findUser in *. rewrite Hu. auto.
  - destruct H as (He & Hr & Hf). auto.
  - exact H.
  - exact H.
  - exact H.
  - exact H.
Qed.

(** A step of a request on course keeps it on course. *)
Lemma checkout_step_on_course (env : Env) (req : Request) (user : AuthUser)
  (pc : Pc) (db : DB) :
  on_course env req user pc db ->
  on_course env req user (fst (checkout_step env req pc db))
    (snd (checkout_step env req pc db)).
Proof.
  intros [Hrole H]. split; [exact Hrole|].
  destruct pc; cbn [on_course] in H; cbn [checkout_step].
  - destruct H as (Ha & Hr & Hf). unfold auth in Ha.
    destruct (req_authorization req) as [authHeader|]; [|discriminate].
    destruct (negb (startsWith authHeader "Bearer ")); [discriminate|].
    destruct (nth_error (split " " authHeader) 1) as [token|]; [|discriminate].
    destruct (findInvalidToken db token); [discriminate|].
    destruct (jwt_verify env token) as [decoded|] eqn:Hj; [|discriminate].
    destruct (findUser db (jwt_userId decoded)) as [u|] eqn:Hfu; [|discriminate].
    injection Ha as Ha. subst user. cbn [fst snd].
    split; [|split; assumption]. exists decoded, u. auto.
  - destruct H as ((decoded & u & Hj & Hfu & ->) & Hr & Hf).
    rewrite Hj, Hfu. cbn [au_role] in *. rewrite Hrole. cbn [Role_eqb negb fst snd].
    auto.
  - destruct H as (-> & (cartLines & Hl & Hne & Hfit & Hgw) & Hf).
    rewrite Hl.
    destruct (List.length cartLines =? 0)%nat eqn:Hlen.
    { apply length_eqb_0 in Hlen. contradiction. }
    destruct (find (fun it => product_stock (product it)
                              <? ci_quantity (item it)) cartLines)
      as [bad|] eqn:Hbad.
    { apply find_some in Hbad. destruct Hbad as [Hb1 Hb2].
      apply Z.ltb_lt in Hb2. specialize (Hfit bad Hb1). lia. }
    cbn [fst snd]. auto.
  - destruct H as (-> & Hgw & Hf). rewrite Hf.
    cbn [fst snd order_id order_totalAmount].
    split; [reflexivity|]. split; [reflexivity|]. split; [exact Hgw|].
    unfold findOrder in *. cbn [orders set_orders].
    rewrite (find_app_none _ _ _ Hf). cbn [find order_id].
    rewrite String.eqb_refl. discriminate.
  - destruct H as (-> & Hid & Hgw & Hf).
    destruct (createXenditInvoice env _); [|contradiction].
    cbn [fst snd]. auto.
  - destruct H as (-> & Hid & Hf). cbn [fst snd]. split; [|exact Hf].
    rewrite Hid. eauto.
  - exact H.
Qed.

(** A step of a request on course does not disturb the checkout of another
    customer with another order id. *)
Lemma checkout_step_agree (env env' : Env) (req : Request)
  (user user' : AuthUser) (pc : Pc) (db : DB) :
  au_id user' <> au_id user -> uuid env' <> uuid env ->
  on_course env req user pc db ->
  agree env' user' db (snd (checkout_step env req pc db)).
Proof.
  intros Hid Huuid [_ H].
  split; [apply checkout_step_same_catalog| |];
    destruct pc; cbn [on_course] in H; cbn [checkout_step]; branches;
    cbn [fst snd]; try reflexivity.
  - destruct H as (-> & _). unfold cartOf, deleteManyCart.
    cbn [cartItems set_cartItems].
    induction (cartItems db) as [|c l IH]; simpl; [reflexivity|].
    destruct (ci_userId c =? au_id user)%string eqn:E1; simpl.
    + apply String.eqb_eq in E1.
      destruct (ci_userId c =? au_id user')%string eqn:E2; [|exact IH].
      apply String.eqb_eq in E2. congruence.
    + rewrite IH. reflexivity.
  - unfold findOrder. cbn [orders set_orders].
    destruct (find (fun o => (order_id o =? uuid env')%string) (orders db))
      as [o|] eqn:E.
    + apply (find_app_some _ _ _ _ E).
    + rewrite (find_app_none _ _ _ E). cbn [find order_id].
      apply String.eqb_neq in Huuid. rewrite String.eqb_sym, Huuid.
      reflexivity.
Qed.

Lemma same_catalog_trans (db1 db2 db3 : DB) :
  same_catalog db1 db2 -> same_catalog db2 db3 -> same_catalog db1 db3.
Proof.
  intros [H1 H2 H3] [H4 H5 H6]. split; congruence.
Qed.

Lemma agree_refl (env : Env) (user : AuthUser) (db : DB) : agree env user db db.
Proof. split; [apply same_catalog_refl | reflexivity | reflexivity]. Qed.

Lemma agree_trans (env : Env) (user : AuthUser) (db1 db2 db3 : DB) :
  agree env user db1 db2 -> agree env user db2 db3 -> agree env user db1 db3.
Proof.
  intros [H1 H2 H3] [H4 H5 H6].
  split; [exact (same_catalog_trans _ _ _ H1 H4) | congruence | congruence].
Qed.

Lemma checkout_steps_on_course (env : Env) (req : Request) (user : AuthUser)
  (n : nat) :
  forall pc db,
    on_course env req user pc db ->
    on_course env req user (fst (checkout_steps n env req pc db))
      (snd (checkout_steps n env req pc db)).
Proof.
  induction n as [|n IH]; intros pc db H.
  - exact H.
  - simpl. pose proof (checkout_step_on_course env req user pc db H) as H'.
    destruct (checkout_step env req pc db) as [pc' db']. apply IH. exact H'.
Qed.

Lemma checkout_steps_agree (env env' : Env) (req : Request)
  (user user' : AuthUser) (n : nat) :
  au_id user' <> au_id user -> uuid env' <> uuid env ->
  forall pc db,
    on_course env req user pc db ->
    agree env' user' db (snd (checkout_steps n env req pc db)).
Proof.
  intros Hid Huuid. induction n as [|n IH]; intros pc db H.
  - apply agree_refl.
  - simpl.
    pose proof (checkout_step_on_course env req user pc db H) as H'.
    pose proof (checkout_step_agree env env' req user user' pc db Hid Huuid H)
      as Hag.
    destruct (checkout_step env req pc db) as [pc' db'].
    exact (agree_trans _ _ _ _ _ Hag (IH pc' db' H')).
Qed.

Lemma remaining_awaits (pc : Pc) : (remaining pc <= awaits)%nat.
Proof. unfold awaits. destruct pc; simpl; lia. Qed.

Lemma interleave_on_course (envA envB : Env) (reqA reqB : Request)
  (userA userB : AuthUser) (sched : list bool) :
  au_id userA <> au_id userB -> uuid envA <> uuid envB ->
  forall pcA pcB db,
    on_course envA reqA userA pcA db ->
    on_course envB reqB userB pcB db ->
    exists rA rB db',
      interleave sched envA reqA envB reqB pcA pcB db
      = (Returned rA, Returned rB, db') /\
      on_course envA reqA userA (Returned rA) db' /\
      on_course envB reqB userB (Returned rB) db' /\
      same_catalog db db'.
Proof.
  intros Hid Huuid.
  assert (Hid' : au_id userB <> au_id userA) by congruence.
  assert (Huuid' : uuid envB <> uuid envA) by congruence.
  induction sched as [|[|] sched IH]; intros pcA pcB db HA HB.
  - cbn [interleave].
    pose proof (checkout_steps_on_course envA reqA userA awaits pcA db HA) as HA1.
    pose proof (checkout_steps_agree envA envB reqA userA userB awaits
                  Hid' Huuid' pcA db HA) as Hag1.
    destruct (checkout_steps_return envA reqA awaits pcA db (remaining_awaits pcA))
      as [rA HrA].
    destruct (checkout_steps awaits envA reqA pcA db) as [pcA' db1].
    cbn [fst snd] in *. subst pcA'.
    pose proof (on_course_agree _ _ _ _ _ _ Hag1 HB) as HB1.
    pose proof (checkout_steps_on_course envB reqB userB awaits pcB db1 HB1)
      as HB2.
    pose proof (checkout_steps_agree envB envA reqB userB userA awaits
                  Hid Huuid pcB db1 HB1) as Hag2.
    destruct (checkout_steps_return envB reqB awaits pcB db1 (remaining_awaits pcB))
      as [rB HrB].
    destruct (checkout_steps awaits envB reqB pcB db1) as [pcB' db2].
    cbn [fst snd] in *. subst pcB'.
    exists rA, rB, db2. split; [reflexivity|].
    split; [exact (on_course_agree _ _ _ _ _ _ Hag2 HA1)|].
    split; [exact HB2|].
    exact (same_catalog_trans _ _ _ (agree_catalog _ _ _ _ Hag1)
             (agree_catalog _ _ _ _ Hag2)).
  - cbn [interleave].
    pose proof (checkout_step_on_course envA reqA userA pcA db HA) as HA1.
    pose proof (checkout_step_agree envA envB reqA userA userB pcA db
                  Hid' Huuid' HA) as Hag.
    destruct (checkout_step envA reqA pcA db) as [pcA' db1].
    cbn [fst snd] in *.
    destruct (IH pcA' pcB db1 HA1 (on_course_agree _ _ _ _ _ _ Hag HB))
      as (rA & rB & db' & He & H1 & H2 & H3).
    exists rA, rB, db'. split; [exact He|]. split; [exact H1|].
    split; [exact H2|].
    exact (same_catalog_trans _ _ _ (agree_catalog _ _ _ _ Hag) H3).
  - cbn [interleave].
    pose proof (checkout_step_on_course envB reqB userB pcB db HB) as HB1.
    pose proof (checkout_step_agree envB envA reqB userB userA pcB db
                  Hid Huuid HB) as Hag.
    destruct (checkout_step envB reqB pcB db) as [pcB' db1].
    cbn [fst snd] in *.
    destruct (IH pcA pcB' db1 (on_course_agree _ _ _ _ _ _ Hag HA) HB1)
      as (rA & rB & db' & He & H1 & H2 & H3).
    exists rA, rB, db'. split; [exact He|]. split; [exact H1|].
    split; [exact H2|].
    exact (same_catalog_trans _ _ _ (agree_catalog _ _ _ _ Hag) H3).
Qed.

(** C4, as the code has it.  Two checkout requests of two customers are
    served together, their awaited calls interleaved in any order.  When
    each cart is non-empty and passes the stock check on its own, the
    gateway accepts the invoice of each order, and the ids drawn for the
    two orders are new and different, both requests answer 200 with their
    own order, both orders are in the store, and the product table is as
    before: nothing is reserved or decremented, so the stock check of one
    request does not see the other, however much they ask for together,
    and neither is answered InsufficientStock. *)
Theorem concurrent_checkouts_both_succeed (sched : list bool)
  (envA envB : Env) (reqA reqB : Request) (userA userB : AuthUser) (db : DB) :
  auth envA db reqA = Some userA -> au_role userA = CUSTOMER ->
  cart_ready envA userA db -> findOrder db (uuid envA) = None ->
  auth envB db reqB = Some userB -> au_role userB = CUSTOMER ->
  cart_ready envB userB db -> findOrder db (uuid envB) = None ->
  au_id userA <> au_id userB -> uuid envA <> uuid envB ->
  exists urlA totalA urlB totalB db',
    concurrent_checkouts sched envA reqA envB reqB db
    = (Returned (json (CheckoutOk (uuid envA) urlA totalA) 200),
       Returned (json (CheckoutOk (uuid envB) urlB totalB) 200), db') /\
    findOrder db' (uuid envA) <> None /\
    findOrder db' (uuid envB) <> None /\
    products db' = products db.
Proof.
  intros HaA HrA HcA HfA HaB HrB HcB HfB Hid Huuid.
  destruct (interleave_on_course envA envB reqA reqB userA userB sched
              Hid Huuid AtInvalidToken AtInvalidToken db)
    as (rA & rB & db' & He & (_ & (urlA & totalA & ->) & HoA)
        & (_ & (urlB & totalB & ->) & HoB) & [_ _ Hp]).
  - split; [exact HrA|]. cbn [on_course]. auto.
  - split; [exact HrB|]. cbn [on_course]. auto.
  - exists urlA, totalA, urlB, totalB, db'. auto.
Qed.

Lemma concurrent_checkouts_both_succeed_witness :
  exists urlA totalA urlB totalB db',
    concurrent_checkouts [true; false; false; true; true; false]
      (Shop.env "o-1") (Shop.bearer "tok-alice")
      (Shop.env "o-2") (Shop.bearer "tok-bob") Shop.db0
    = (Returned (json (CheckoutOk "o-1" urlA totalA) 200),
       Returned (json (CheckoutOk "o-2" urlB totalB) 200), db') /\
    findOrder db' "o-1" <> None /\
    findOrder db' "o-2" <> None /\
    products db' = products Shop.db0.
Proof.
  apply (concurrent_checkouts_both_succeed [true; false; false; true; true; false]
           (Shop.env "o-1") (Shop.env "o-2")
           (Shop.bearer "tok-alice") (Shop.bearer "tok-bob")
           {| au_id := "u-alice"; au_email := "alice@example.com";
              au_name := "Alice"; au_role := CUSTOMER |}
           {| au_id := "u-bob"; au_email := "bob@example.com";
              au_name := "Bob"; au_role := CUSTOMER |}
           Shop.db0).
  - reflexivity.
  - reflexivity.
  - eexists. split; [reflexivity|]. split; [discriminate|]. split.
    + intros it [<-|[<-|[]]]; simpl; lia.
    + discriminate.
  - reflexivity.
  - reflexivity.
  - reflexivity.
  - eexists. split; [reflexivity|]. split; [discriminate|]. split.
    + intros it [<-|[]]; simpl; lia.
    + discriminate.
  - reflexivity.
  - discriminate.
  - discriminate.
Defined.

(** C4, as the claim has it, fails.  One mouse is in stock; Alice and Bob
    each have one mouse in the cart.  Served one after the other, or with
    their awaited calls alternating, both checkouts answer 200 and two
    orders are created. *)
Lemma two_checkouts_oversell :
  product_stock Shop.mouse = 1 /\
  In Shop.aliceMouse (cartOf Shop.db0 "u-alice") /\
  In Shop.bobMouse (cartOf Shop.db0 "u-bob") /\
  ci_productId Shop.aliceMouse = product_id Shop.mouse /\
  ci_productId Shop.bobMouse = product_id Shop.mouse /\
  product_stock Shop.mouse
  < ci_quantity Shop.aliceMouse + ci_quantity Shop.bobMouse /\
  (exists rA rB db',
      concurrent_checkouts []
        (Shop.env "o-1") (Shop.bearer "tok-alice")
        (Shop.env "o-2") (Shop.bearer "tok-bob") Shop.db0
      = (Returned rA, Returned rB, db') /\
      status rA = 200%nat /\ status rB = 200%nat /\
      map order_id (orders db') = ["o-1"; "o-2"]) /\
  (exists rA rB db',
      concurrent_checkouts
        [true; false; true; false; true; false;
         true; false; true; false; true; false]
        (Shop.env "o-1") (Shop.bearer "tok-alice")
        (Shop.env "o-2") (Shop.bearer "tok-bob") Shop.db0
      = (Returned rA, Returned rB, db') /\
      status rA = 200%nat /\ status rB = 200%nat /\
      map order_id (orders db') = ["o-1"; "o-2"]) /\
  status (snd (checkout_POST (Shop.env "o-1") Shop.db0
                 (Shop.bearer "tok-alice"))) = 200%nat /\
  status (snd (checkout_POST (Shop.env "o-2") Shop.db_ordered
                 (Shop.bearer "tok-bob"))) = 200%nat.
Proof.
  split; [reflexivity|].
  split; [right; left; reflexivity|].
  split; [left; reflexivity|].
  split; [reflexivity|]. split; [reflexivity|]. split; [reflexivity|].
  split; [|split].
  - eexists. eexists. eexists. split; [vm_compute; reflexivity|].
    repeat split.
  - eexists. eexists. eexists. split; [vm_compute; reflexivity|].
    repeat split.
  - split; reflexivity.
Qed.

(** * Further properties of the handlers *)

(** ** What the cart handlers do to the cart table *)

Lemma cartInputSchema_Some (env : Env) (data : string -> JsVal) (productId : Id)
  (quantity : Z) :
  cartInputSchema env data = Some (productId, quantity) -> 1 <= quantity.
Proof.
  unfold cartInputSchema.
  destruct (data "productId"); try discriminate.
  destruct (data "quantity"); try discriminate.
  destruct (zod_uuid env s && isInteger q && Qle_bool 1 q) eqn:E;
    [|discriminate].
  intro H. injection H as _ <-.
  apply andb_true_iff in E. destruct E as [_ E].
  apply Qle_bool_iff in E. exact (Qfloor_resp_le 1 q E).
Qed.

Lemma cart_POST_effect (env : Env) (db : DB) (req : Request) :
  let db' := fst (cart_POST env db req) in
  cartItems db' = cartItems db \/
  (exists user productId quantity product,
      getCurrentUser env db req = Some user /\
      findProduct db productId = Some product /\
      1 <= quantity /\
      ((exists c,
           findFirstCartItem db (au_id user) productId = Some c /\
           ci_quantity c + quantity <= product_stock product /\
           cartItems db'
           = updateCartItem (ci_id c) (ci_quantity c + quantity) (cartItems db))
       \/
       (findFirstCartItem db (au_id user) productId = None /\
        findCartItem db (uuid env) = None /\
        quantity <= product_stock product /\
        cartItems db'
        = (cartItems db
           ++ [{| ci_id := uuid env; ci_userId := au_id user;
                  ci_productId := productId; ci_quantity := quantity |}])%list))).
Proof.
  unfold cart_POST.
  destruct (getCurrentUser env db req) as [user|] eqn:Hu; [|left; reflexivity].
  destruct (negb (Role_eqb (au_role user) CUSTOMER)); [left; reflexivity|].
  destruct (req_json req) as [data|]; [|left; reflexivity].
  destruct (cartInputSchema env data) as [[productId quantity]|] eqn:Hz;
    [|left; reflexivity].
  apply cartInputSchema_Some in Hz.
  destruct (findProduct db productId) as [product|] eqn:Hp; [|left; reflexivity].
  destruct (product_stock product <? quantity) eqn:Hs; [left; reflexivity|].
  apply Z.ltb_ge in Hs.
  destruct (findFirstCartItem db (au_id user) productId) as [c|] eqn:Hc.
  - destruct (ci_quantity c + quantity >? product_stock product) eqn:Hg;
      [left; reflexivity|].
    right. exists user, productId, quantity, product.
    repeat (split; [assumption || reflexivity|]).
    left. exists c. split; [assumption|]. split; [|reflexivity].
    destruct (Z.gtb_spec (ci_quantity c + quantity) (product_stock product));
      [discriminate | lia].
  - destruct (findCartItem db (uuid env)) eqn:Hf; [left; reflexivity|].
    right. exists user, productId, quantity, product.
    repeat (split; [assumption || reflexivity|]).
    right. repeat split; first [assumption | reflexivity].
Qed.

Lemma cart_PUT_effect (env : Env) (db : DB) (req : Request) :
  let db' := fst (cart_PUT env db req) in
  cartItems db' = cartItems db \/
  (exists c product quantity,
      findCartItem db (req_params_id req) = Some c /\
      findProduct db (ci_productId c) = Some product /\
      (whole_json req = true -> 1 <= quantity <= product_stock product) /\
      cartItems db' = updateCartItem (req_params_id req) quantity (cartItems db)).
Proof.
  unfold cart_PUT, whole_json.
  destruct (getCurrentUser env db req); [|left; reflexivity].
  cbv zeta.
  destruct (req_params_id req =? "")%string; [left; reflexivity|].
  destruct (req_json req) as [data|]; [|left; reflexivity].
  destruct (negb (truthy (data "userId"))); [left; reflexivity|].
  destruct (negb (truthy (data "quantity")) || negb (isNumber (data "quantity"))
            || js_lt (data "quantity") 1) eqn:Hq; [left; reflexivity|].
  destruct (findCartItem db (req_params_id req)) as [c|] eqn:Hc;
    [|left; reflexivity].
  destruct (findProduct db (ci_productId c)) as [product|] eqn:Hp;
    [|left; reflexivity].
  destruct (data "quantity") as [| | |q| |]; try (left; reflexivity).
  cbn [asNumber].
  destruct (differs (data "userId") (ci_userId c)); [left; reflexivity|].
  destruct (Qltb (inject_Z (product_stock product)) q) eqn:Hs;
    [left; reflexivity|].
  destruct (isInteger q) eqn:Hi.
  - right. exists c, product, (Qfloor q).
    split; [reflexivity|]. split; [exact Hp|]. split; [|reflexivity].
    intros _.
    apply orb_false_iff in Hq. destruct Hq as [_ Hq]. simpl in Hq.
    unfold Qltb in Hq, Hs. apply negb_false_iff in Hq, Hs.
    apply Qle_bool_iff in Hq, Hs. split.
    + exact (Qfloor_resp_le 1 q Hq).
    + apply (Qfloor_resp_le q (inject_Z (product_stock product))) in Hs.
      rewrite Qfloor_Z in Hs. exact Hs.
  - destruct (prisma_int env q) as [n|]; [|left; reflexivity].
    right. exists c, product, n.
    split; [reflexivity|]. split; [exact Hp|]. split; [|reflexivity].
    discriminate.
Qed.

Lemma cart_DELETE_effect (env : Env) (db : DB) (req : Request) :
  let db' := fst (cart_DELETE env db req) in
  cartItems db' = cartItems db \/
  cartItems db' = deleteCartItem (req_params_id req) (cartItems db).
Proof.
  unfold cart_DELETE. branches; simpl; auto.
Qed.

Lemma checkout_POST_cart (env : Env) (db : DB) (req : Request) :
  let db' := fst (checkout_POST env db req) in
  cartItems db' = cartItems db \/
  exists user, cartItems db' = deleteManyCart (au_id user) (cartItems db).
Proof.
  unfold checkout_POST. branches; simpl; eauto.
Qed.

Lemma catalog_write_cart (op : Op) (env : Env) (db : DB) (req : Request) :
  catalog_write op = true -> scalar_op op req = true ->
  let db' := fst (handle op env db req) in
  (cartItems db' = cartItems db /\
   map product_id (products db') = map product_id (products db) \/
   cartItems db' = cartItems db /\
   (exists p, products db' = (products db ++ [p])%list) \/
   cartItems db'
   = filter (fun c => negb (ci_productId c =? req_params_id req)%string)
       (cartItems db) /\
   products db'
   = filter (fun p => negb (product_id p =? req_params_id req)%string)
       (products db)).
Proof.
  destruct op; try discriminate; intros _ Hs; cbn [handle].
  - unfold product_POST. branches; simpl; eauto.
  - cbv zeta. left.
    destruct (product_PUT_scalar env db req Hs)
      as [-> | (e & p & Hf & -> & Hid & _)]; [split; reflexivity|].
    split; [reflexivity|]. simpl.
    apply updateProduct_ids. apply find_some in Hf. destruct Hf as [_ Hf].
    apply String.eqb_eq in Hf. congruence.
  - unfold product_DELETE. branches; simpl; auto.
  - unfold product_POST_form. branches; simpl; eauto.
  - pose proof (product_PUT_form_frame env db req) as (_ & _ & H).
    assert (Hc : cartItems (fst (product_PUT_form env db req)) = cartItems db).
    { unfold product_PUT_form. branches; reflexivity. }
    cbv zeta. left. split; [exact Hc|].
    destruct H as [-> | (e & p & Hf & -> & Hid & _)]; [reflexivity|].
    apply updateProduct_ids. apply find_some in Hf. destruct Hf as [_ Hf].
    apply String.eqb_eq in Hf. congruence.
  - unfold product_DELETE_form. branches; simpl; auto;
      right; right; (split; [|reflexivity]).
    all: match goal with
         | H : (0 <? List.length (filter _ (cartItems _)))%nat = false |- _ =>
             pose proof (filter_length_0 _ _ H) as Hn
         end.
    all: symmetry; apply filter_all; intros c Hin;
      rewrite (Hn c Hin); reflexivity.
Qed.

Lemma handle_cart_change (op : Op) (env : Env) (db : DB) (req : Request) :
  catalog_write op = false ->
  cart_change (whole_op op req) db (fst (handle op env db req)) /\
  products (fst (handle op env db req)) = products db.
Proof.
  destruct op; try discriminate; intros _; cbn [handle].
  - split; [|apply cart_POST_frame].
    destruct (cart_POST_effect env db req)
      as [H | (user & pid & n & product & Hu & Hp & Hn & [(c & Hc & Hle & H)
                                                       | (Hc & Hf & Hle & H)])].
    + apply cart_same. exact H.
    + pose proof (find_some _ _ Hc) as [Hin Hk].
      apply andb_true_iff in Hk. destruct Hk as [_ Hk].
      apply String.eqb_eq in Hk.
      apply (cart_set _ _ _ c product (ci_quantity c + n)); try assumption.
      * rewrite Hk. exact Hp.
      * intros _. split; [right; lia | exact Hle].
    + apply (cart_new _ _ _ {| ci_id := uuid env; ci_userId := au_id user;
                             ci_productId := pid; ci_quantity := n |} product);
        simpl; try assumption. lia.
  - split; [|apply cart_PUT_frame].
    destruct (cart_PUT_effect env db req)
      as [H | (c & product & n & Hc & Hp & Hn & H)].
    + apply cart_same. exact H.
    + pose proof (find_some _ _ Hc) as [Hin Hk]. apply String.eqb_eq in Hk.
      apply (cart_set _ _ _ c product n); try assumption.
      * intro Hw. specialize (Hn Hw). split; [left; lia | lia].
      * rewrite Hk. exact H.
  - split; [|apply cart_DELETE_frame].
    destruct (cart_DELETE_effect env db req) as [H | H].
    + apply cart_same. exact H.
    + exact (cart_removed _ _ _ _ H).
  - split; [|apply checkout_POST_frame].
    destruct (checkout_POST_cart env db req) as [H | [user H]].
    + apply cart_same. exact H.
    + exact (cart_removed _ _ _ _ H).
  - split; [|apply logout_POST_frame]. apply cart_same.
    unfold logout_POST. branches; reflexivity.
Qed.

Lemma updateCartItem_keys (id : Id) (n : Z) (l : list CartItem) :
  map cart_key (updateCartItem id n l) = map cart_key l.
Proof.
  unfold updateCartItem. rewrite map_map. apply map_ext. intro c.
  destruct (ci_id c =? id)%string; reflexivity.
Qed.

Lemma updateCartItem_productIds (id : Id) (n : Z) (l : list CartItem) :
  map ci_productId (updateCartItem id n l) = map ci_productId l.
Proof.
  unfold updateCartItem. rewrite map_map. apply map_ext. intro c.
  destruct (ci_id c =? id)%string; reflexivity.
Qed.

Lemma NoDup_map_filter {A B : Type} (f : A -> B) (keep : A -> bool)
  (l : list A) : NoDup (map f l) -> NoDup (map f (filter keep l)).
Proof.
  induction l as [|x l IH]; simpl; intro H.
  - constructor.
  - inversion H as [|y l' Hnin Hnd]; subst.
    destruct (keep x); simpl; [|exact (IH Hnd)].
    constructor; [|exact (IH Hnd)].
    intro Hin. apply Hnin. apply in_map_iff in Hin.
    destruct Hin as [z [Hz Hzin]]. apply filter_In in Hzin.
    apply in_map_iff. exists z. tauto.
Qed.

Lemma step_cart_quantities_positive (db : DB) (c : Call) :
  (scalar_update c && whole_quantity c) = true ->
  cart_quantities_positive db -> cart_quantities_positive (step db c).
Proof.
  unfold cart_quantities_positive, step, scalar_update, whole_quantity.
  intros Hc H. apply andb_true_iff in Hc. destruct Hc as [Hsc Hw].
  destruct c as [op env req]. cbn [call_op call_env call_req] in *.
  destruct (catalog_write op) eqn:E.
  - destruct (catalog_write_cart op env db req E Hsc)
      as [[-> _] | [[-> _] | [-> _]]]; try exact H.
    apply Forall_forall. intros x Hx. apply filter_In in Hx.
    rewrite Forall_forall in H. apply H. apply Hx.
  - destruct (handle_cart_change op env db req E)
      as [[Hs | x product n Hin _ Hn Hs | x product Hk Hf _ Hn Hs | keep Hs] _];
      rewrite Hs.
    + exact H.
    + destruct (Hn Hw) as [Hn1 _].
      rewrite Forall_forall in *. intros y Hy. unfold updateCartItem in Hy.
      apply in_map_iff in Hy. destruct Hy as [z [Hz Hzin]].
      destruct (ci_id z =? ci_id x)%string; subst y.
      * simpl. specialize (H x Hin). lia.
      * apply H. exact Hzin.
    + apply Forall_app. split; [exact H|].
      constructor; [lia | constructor].
    + apply Forall_forall. intros y Hy. apply filter_In in Hy.
      rewrite Forall_forall in H. apply H. apply Hy.
Qed.

Lemma step_one_row_per_product (db : DB) (c : Call) :
  scalar_update c = true ->
  one_row_per_product db -> one_row_per_product (step db c).
Proof.
  unfold one_row_per_product, step, scalar_update. intros Hsc H.
  destruct c as [op env req]. cbn [call_op call_env call_req] in *.
  destruct (catalog_write op) eqn:E.
  - destruct (catalog_write_cart op env db req E Hsc)
      as [[-> _] | [[-> _] | [-> _]]]; try exact H.
    apply NoDup_map_filter. exact H.
  - destruct (handle_cart_change op env db req E)
      as [[Hs | x product n Hin _ Hn Hs | x product Hk Hf _ Hn Hs | keep Hs] _];
      rewrite Hs.
    + exact H.
    + rewrite updateCartItem_keys. exact H.
    + rewrite map_app. simpl.
      apply NoDup_app; [exact H | repeat constructor; intros [] |].
      intros k Hin [<-|[]]. apply in_map_iff in Hin.
      destruct Hin as [y [Hy Hyin]].
      pose proof (find_none _ _ Hk y Hyin) as Hne. simpl in Hne.
      unfold cart_key in Hy. injection Hy as H1 H2.
      rewrite H1, H2, !String.eqb_refl in Hne. discriminate.
    + apply NoDup_map_filter. exact H.
Qed.

Lemma cart_items_resolve_iff (db : DB) :
  cart_items_resolve db <->
  Forall (fun x => In x (map product_id (products db)))
    (map ci_productId (cartItems db)).
Proof.
  unfold cart_items_resolve, findProduct. rewrite Forall_map, !Forall_forall.
  split; intros H c Hc; apply (find_id_In product_id); apply H; exact Hc.
Qed.

Lemma step_cart_items_resolve (db : DB) (c : Call) :
  cart_items_resolve db -> cart_items_resolve (step db c).
Proof.
  destruct c as [op env req]. unfold step. cbn [call_op call_env call_req].
  destruct (scalar_op op req) eqn:Hsc.
  2:{ (* the client's nested writes: the relation of the cart rows to
         their products is a foreign key *)
      destruct op; try discriminate Hsc. cbn [handle]. intro H.
      destruct (product_PUT_nested env db req Hsc) as [-> | [_ Hk]];
        [exact H | apply (constraints_hold _ Hk)]. }
  rewrite !cart_items_resolve_iff. intro H.
  destruct (catalog_write op) eqn:E.
  - destruct (catalog_write_cart op env db req E Hsc)
      as [[-> ->] | [[-> (p & ->)] | [-> ->]]].
    + exact H.
    + rewrite map_app. eapply Forall_impl; [|exact H].
      intros x Hx. apply in_or_app. left. exact Hx.
    + rewrite Forall_map, Forall_forall in *. intros x Hx.
      apply filter_In in Hx. destruct Hx as [Hx Hne].
      specialize (H x Hx). apply in_map_iff in H.
      destruct H as [p [Hp Hpin]]. apply in_map_iff. exists p.
      split; [exact Hp|]. apply filter_In. split; [exact Hpin|].
      rewrite Hp. exact Hne.
  - destruct (handle_cart_change op env db req E)
      as [[Hs | x product n Hin _ Hn Hs | x product Hk Hf Hp Hn Hs | keep Hs] ->];
      rewrite Hs.
    + exact H.
    + rewrite updateCartItem_productIds. exact H.
    + rewrite map_app. apply Forall_app. split; [exact H|].
      constructor; [|constructor]. apply (find_id_In product_id).
      unfold findProduct in Hp. rewrite Hp. discriminate.
    + rewrite Forall_map, Forall_forall in *. intros x Hx.
      apply filter_In in Hx. apply H. apply Hx.
Qed.

(** X1. From a store whose cart rows all ask for at least one piece, every
    sequence of requests leads to such a store, as long as the handlers
    decide what is written: adding validates [quantity >= 1], updating
    refuses a quantity below 1, and no other handler writes a quantity of
    its own.  Two kinds of request are left out, because there the client
    library decides: a cart update whose quantity is no integer, and a
    JSON product update whose data names more than scalar columns. *)
Theorem cart_quantities_stay_positive (db : DB) (calls : list Call) :
  Forall (fun c => (scalar_update c && whole_quantity c) = true) calls ->
  cart_quantities_positive db -> cart_quantities_positive (run db calls).
Proof.
  apply (run_invariant_on (fun c => scalar_update c && whole_quantity c)).
  intros d c. apply step_cart_quantities_positive.
Qed.

Lemma cart_quantities_stay_positive_witness :
  cart_quantities_positive Shop.db0 /\
  cart_quantities_positive
    (run Shop.db0
       [ {| call_op := CartAdd; call_env := Shop.env "ci-9";
            call_req := Shop.with_json (Shop.bearer "tok-alice")
                          [("productId", JStr Shop.keyboardId);
                           ("quantity", JNum 3)] |};
         {| call_op := CartUpdate; call_env := Shop.env "";
            call_req := Shop.with_json
                          (Shop.with_id (Shop.bearer "tok-bob") "ci-3")
                          [("quantity", JNum 0); ("userId", JStr "u-bob")] |} ]).
Proof.
  assert (H : cart_quantities_positive Shop.db0).
  { unfold cart_quantities_positive. simpl. repeat constructor; simpl; lia. }
  split; [exact H|].
  apply cart_quantities_stay_positive; [repeat constructor | exact H].
Defined.

(** X2. From a store in which a user has at most one cart row per product,
    every sequence of requests leads to such a store: a second add of the
    same product raises the quantity of the existing row instead of
    creating a row.  JSON product updates whose data names more than scalar
    columns are left out: the schema has no unique index on user and
    product, so nothing stops a nested write from creating a second row. *)
Theorem one_cart_row_per_product (db : DB) (calls : list Call) :
  Forall (fun c => scalar_update c = true) calls ->
  one_row_per_product db -> one_row_per_product (run db calls).
Proof.
  apply (run_invariant_on scalar_update).
  intros d c. apply step_one_row_per_product.
Qed.

Lemma one_cart_row_per_product_witness :
  one_row_per_product Shop.db0 /\
  one_row_per_product
    (run Shop.db0
       [ {| call_op := CartAdd; call_env := Shop.env "ci-9";
            call_req := Shop.with_json (Shop.bearer "tok-alice")
                          [("productId", JStr Shop.keyboardId);
                           ("quantity", JNum 3)] |} ]) /\
  List.length
    (cartItems
       (run Shop.db0
          [ {| call_op := CartAdd; call_env := Shop.env "ci-9";
               call_req := Shop.with_json (Shop.bearer "tok-alice")
                             [("productId", JStr Shop.keyboardId);
                              ("quantity", JNum 3)] |} ])) = 3%nat.
Proof.
  assert (H : one_row_per_product Shop.db0).
  { unfold one_row_per_product. simpl.
    repeat constructor; simpl; intuition discriminate. }
  split; [exact H|]. split; [|reflexivity].
  apply one_cart_row_per_product; [repeat constructor | exact H].
Defined.

Lemma includeProduct_resolved (db : DB) (l : list CartItem) :
  Forall (fun c => findProduct db (ci_productId c) <> None) l ->
  exists cartLines, includeProduct db l = Some cartLines.
Proof.
  induction l as [|c l IH]; simpl; intro H.
  - eexists. reflexivity.
  - inversion H as [|x l' Hc Hl]; subst.
    destruct (IH Hl) as [r ->].
    destruct (findProduct db (ci_productId c)); [|contradiction].
    eexists. reflexivity.
Qed.

(** X3. From a store in which every cart row points at a product, every
    sequence of requests leads to such a store: adding needs the product,
    deleting a product deletes its cart rows, an update of scalar columns
    keeps the id, and what a JSON product update hands to the client
    beyond that is held by the foreign key of the relation.  So loading a
    cart with its products, as checkout does, never fails there. *)
Theorem cart_rows_keep_their_product (db : DB) (calls : list Call) :
  cart_items_resolve db ->
  cart_items_resolve (run db calls) /\
  forall userId,
    exists cartLines,
      includeProduct (run db calls) (cartOf (run db calls) userId)
      = Some cartLines.
Proof.
  intro H.
  assert (Hrun : cart_items_resolve (run db calls)).
  { revert H. apply run_invariant. intros d c. apply step_cart_items_resolve. }
  split; [exact Hrun|]. intro userId. apply includeProduct_resolved.
  unfold cart_items_resolve in Hrun. rewrite Forall_forall in *.
  intros c Hc. apply Hrun. unfold cartOf in Hc. apply filter_In in Hc.
  apply Hc.
Qed.

Lemma cart_rows_keep_their_product_witness :
  cart_items_resolve Shop.db0 /\
  cart_items_resolve
    (run Shop.db0
       [ {| call_op := ProductDelete; call_env := Shop.env "";
            call_req := Shop.with_id (Shop.bearer "tok-carol") Shop.mouseId |} ])
  /\
  map ci_id
    (cartItems
       (run Shop.db0
          [ {| call_op := ProductDelete; call_env := Shop.env "";
               call_req := Shop.with_id (Shop.bearer "tok-carol")
                             Shop.mouseId |} ])) = ["ci-1"].
Proof.
  assert (H : cart_items_resolve Shop.db0).
  { unfold cart_items_resolve. simpl. repeat constructor; discriminate. }
  split; [exact H|]. split; [|reflexivity].
  exact (proj1 (cart_rows_keep_their_product Shop.db0 _ H)).
Defined.

(** ** Updating and removing a cart row *)

Lemma set_cartItems_same (db : DB) : set_cartItems db (cartItems db) = db.
Proof. destruct db. reflexivity. Qed.

Lemma find_filter_keep {A : Type} (f keep : A -> bool) (l : list A) :
  (forall x, f x = true -> keep x = true) ->
  find f (filter keep l) = find f l.
Proof.
  intro H. induction l as [|x l IH]; simpl; [reflexivity|].
  destruct (keep x) eqn:Hk; simpl.
  - destruct (f x); [reflexivity | exact IH].
  - destruct (f x) eqn:Hf; [|exact IH].
    rewrite (H x Hf) in Hk. discriminate.
Qed.

Lemma find_filter_drop {A : Type} (f : A -> bool) (l : list A) :
  find f (filter (fun x => negb (f x)) l) = None.
Proof.
  induction l as [|x l IH]; simpl; [reflexivity|].
  destruct (f x) eqn:Hf; simpl; [exact IH|]. rewrite Hf. exact IH.
Qed.

(** X4. PUT /api/cart/:id, for an authenticated caller who sends the owner
    of the row as [userId] and the number [q] as [quantity].  A [q] below 1
    is refused with 400 before the row is looked up; a missing row gives
    404; a [userId] that is not the owner gives 403; a [q] above the stock
    gives 400 with the stock.  An integer [q] from 1 to the stock is
    written as the row's quantity (set, not added).  The handler does not
    ask for an integer: a [q] within these bounds that is none is handed
    to the client library, and the answer is 200 with the integer the
    client wrote or 500 when it refused.  Every refusal leaves the store
    unchanged. *)
Theorem cart_update (env : Env) (db : DB) (req : Request) (user : AuthUser)
  (data : string -> JsVal) (sent : string) (q : Q) :
  getCurrentUser env db req = Some user ->
  req_params_id req <> "" ->
  req_json req = Some data ->
  data "userId" = JStr sent -> sent <> "" ->
  data "quantity" = JNum q ->
  ((q < 1)%Q ->
   cart_PUT env db req
   = (db, json (Error "Quantity must be a positive number") 400)) /\
  ((1 <= q)%Q -> findCartItem db (req_params_id req) = None ->
   cart_PUT env db req = (db, json (Error "Cart item not found") 404)) /\
  (forall c product,
      (1 <= q)%Q ->
      findCartItem db (req_params_id req) = Some c ->
      findProduct db (ci_productId c) = Some product ->
      (ci_userId c <> sent ->
       fst (cart_PUT env db req) = db /\
       status (snd (cart_PUT env db req)) = 403%nat) /\
      (ci_userId c = sent ->
       ((inject_Z (product_stock product) < q)%Q ->
        cart_PUT env db req
        = (db, json (NotEnoughStock (product_stock product)) 400)) /\
       ((q <= inject_Z (product_stock product))%Q -> isInteger q = false ->
        cart_PUT env db req
        = match prisma_int env q with
          | Some n =>
              (set_cartItems db
                 (updateCartItem (req_params_id req) n (cartItems db)),
               json (CartItemUpdated (with_quantity c n)
                       (product_name product) (product_price product)) 200)
          | None => (db, json (Error "Failed to update cart item") 500)
          end) /\
       ((q <= inject_Z (product_stock product))%Q -> isInteger q = true ->
        cart_PUT env db req
        = (set_cartItems db
             (updateCartItem (req_params_id req) (Qfloor q) (cartItems db)),
           json (CartItemUpdated (with_quantity c (Qfloor q))
                   (product_name product) (product_price product)) 200) /\
        findCartItem (fst (cart_PUT env db req)) (req_params_id req)
        = Some (with_quantity c (Qfloor q)) /\
        1 <= Qfloor q <= product_stock product))).
Proof.
  intros Hu Hid Hj Hs Hne Hq.
  apply String.eqb_neq in Hid. apply String.eqb_neq in Hne.
  assert (Hpre :
             cart_PUT env db req
             = if Qltb q 1 then
                 (db, json (Error "Quantity must be a positive number") 400)
               else
                 match findCartItem db (req_params_id req) with
                 | None => (db, json (Error "Cart item not found") 404)
                 | Some cartItem =>
                     match findProduct db (ci_productId cartItem) with
                     | Some product =>
                         if negb (sent =? ci_userId cartItem)%string then
                           (db, json (Error "Access denied: This cart item does not belong to the specified user") 403)
                         else if Qltb (inject_Z (product_stock product)) q then
                           (db, json (NotEnoughStock (product_stock product)) 400)
                         else
                           match (if isInteger q then Some (Qfloor q)
                                  else prisma_int env q) with
                           | Some n =>
                               (set_cartItems db
                                  (updateCartItem (req_params_id req) n
                                     (cartItems db)),
                                json (CartItemUpdated
                                        (with_quantity cartItem n)
                                        (product_name product)
                                        (product_price product)) 200)
                           | None =>
                               (db, json (Error "Failed to update cart item") 500)
                           end
                     | None => (db, json (Error "Failed to update cart item") 500)
                     end
                 end).
  { unfold cart_PUT. rewrite Hu, Hj. cbv zeta. rewrite Hid, Hs, Hq.
    cbn [truthy isNumber js_lt asNumber differs negb]. rewrite Hne.
    cbn [negb orb].
    destruct (Qeq_bool q 0) eqn:E0.
    - apply Qeq_bool_iff in E0.
      assert (Hlt : Qltb q 1 = true).
      { unfold Qltb. destruct (Qle_bool 1 q) eqn:E1; [|reflexivity].
        apply Qle_bool_iff in E1. rewrite E0 in E1. unfold Qle in E1.
        simpl in E1. lia. }
      rewrite Hlt. reflexivity.
    - cbn [negb orb]. reflexivity. }
  assert (Hlt : forall a b : Q, (a < b)%Q -> Qltb a b = true).
  { intros a b H. unfold Qltb. destruct (Qle_bool b a) eqn:E; [|reflexivity].
    apply Qle_bool_iff in E. exfalso. exact (Qlt_not_le _ _ H E). }
  assert (Hge : forall a b : Q, (b <= a)%Q -> Qltb a b = false).
  { intros a b H. unfold Qltb. apply Qle_bool_iff in H. rewrite H. reflexivity. }
  split; [|split].
  - intro H. rewrite Hpre, (Hlt _ _ H). reflexivity.
  - intros H Hnone. rewrite Hpre, (Hge _ _ H), Hnone. reflexivity.
  - intros c product H Hc Hp. rewrite Hpre, (Hge _ _ H), Hc, Hp. split.
    + intro Hown. assert (Hown' : sent <> ci_userId c) by congruence.
      apply String.eqb_neq in Hown'. rewrite Hown'. split; reflexivity.
    + intro Hown. symmetry in Hown. apply String.eqb_eq in Hown.
      rewrite Hown. cbn [negb].
      split; [|split].
      * intro Hs'. rewrite (Hlt _ _ Hs'). reflexivity.
      * intros Hs' Hi. rewrite (Hge _ _ Hs'), Hi. reflexivity.
      * intros Hs' Hi. rewrite (Hge _ _ Hs'), Hi. split; [reflexivity|].
        split.
        -- cbn [fst]. unfold findCartItem in *. cbn [cartItems set_cartItems].
           pose proof (find_some _ _ Hc) as [_ Hk]. apply String.eqb_eq in Hk.
           rewrite <- Hk.
           erewrite find_updateCartItem;
             [reflexivity | intros; reflexivity | rewrite Hk; exact Hc].
        -- split.
           ++ exact (Qfloor_resp_le 1 q H).
           ++ apply (Qfloor_resp_le q (inject_Z (product_stock product))) in Hs'.
              rewrite Qfloor_Z in Hs'. exact Hs'.
Qed.

Lemma cart_update_witness :
  let req := Shop.with_json (Shop.with_id (Shop.bearer "tok-alice") "ci-1")
               [("quantity", JNum 5); ("userId", JStr "u-alice")] in
  findCartItem (fst (cart_PUT (Shop.env "") Shop.db0 req)) "ci-1"
  = Some (with_quantity Shop.aliceKeyboard 5).
Proof.
  intro req.
  destruct (cart_update (Shop.env "") Shop.db0 req
              {| au_id := "u-alice"; au_email := "alice@example.com";
                 au_name := "Alice"; au_role := CUSTOMER |}
              _ "u-alice" 5 eq_refl ltac:(discriminate) eq_refl eq_refl
              ltac:(discriminate) eq_refl)
    as (_ & _ & H).
  assert (Hge : (1 <= 5)%Q) by (unfold Qle; simpl; lia).
  destruct (H Shop.aliceKeyboard Shop.keyboard Hge eq_refl eq_refl) as [_ H'].
  destruct (H' eq_refl) as (_ & _ & H'').
  assert (Hle : (5 <= inject_Z (product_stock Shop.keyboard))%Q)
    by (unfold Qle; simpl; lia).
  destruct (H'' Hle eq_refl) as (_ & Hfind & _). exact Hfind.
Defined.

(** X5. DELETE /api/cart/:id, for an authenticated caller who sends the
    owner of the row as [userId]: the row is removed and every other row
    stays as it is; asked again, the same request is answered 404 and
    changes nothing. *)
Theorem cart_remove (env : Env) (db : DB) (req : Request) (user : AuthUser)
  (c : CartItem) :
  getCurrentUser env db req = Some user ->
  req_params_id req <> "" ->
  findCartItem db (req_params_id req) = Some c ->
  ci_userId c <> "" ->
  req_query_userId req = Some (ci_userId c) ->
  let db' := fst (cart_DELETE env db req) in
  cart_DELETE env db req
  = (set_cartItems db (deleteCartItem (req_params_id req) (cartItems db)),
     json (Message "Cart item removed successfully") 200) /\
  findCartItem db' (req_params_id req) = None /\
  (forall id, id <> req_params_id req ->
              findCartItem db' id = findCartItem db id) /\
  (forall x, In x (cartItems db') <->
             In x (cartItems db) /\ ci_id x <> req_params_id req) /\
  forall env', cart_DELETE env' db' req
               = (db', match getCurrentUser env' db req with
                       | Some _ => json (Error "Cart item not found") 404
                       | None => unauthorizedResponse
                       end).
Proof.
  intros Hu Hid Hc Hne Hq. cbv zeta.
  apply String.eqb_neq in Hid. apply String.eqb_neq in Hne.
  assert (He : cart_DELETE env db req
               = (set_cartItems db
                    (deleteCartItem (req_params_id req) (cartItems db)),
                  json (Message "Cart item removed successfully") 200)).
  { unfold cart_DELETE. rewrite Hu, Hq, Hc. cbv zeta.
    rewrite Hid, Hne, String.eqb_refl. reflexivity. }
  rewrite He. cbn [fst].
  assert (Hgone : findCartItem
                    (set_cartItems db
                       (deleteCartItem (req_params_id req) (cartItems db)))
                    (req_params_id req) = None).
  { unfold findCartItem, deleteCartItem. cbn [cartItems set_cartItems].
    apply (find_filter_drop (fun x => (ci_id x =? req_params_id req)%string)). }
  split; [reflexivity|]. split; [exact Hgone|]. split; [|split].
  - intros id Hother. unfold findCartItem, deleteCartItem.
    cbn [cartItems set_cartItems]. apply find_filter_keep.
    intros x Hx. apply String.eqb_eq in Hx.
    assert (Hx' : ci_id x <> req_params_id req) by congruence.
    apply String.eqb_neq in Hx'. rewrite Hx'. reflexivity.
  - intro x. cbn [cartItems set_cartItems]. unfold deleteCartItem.
    rewrite filter_In. split; intros [H1 H2]; (split; [exact H1|]).
    + intro E. rewrite E, String.eqb_refl in H2. discriminate.
    + apply String.eqb_neq in H2. rewrite H2. reflexivity.
  - intro env'. unfold cart_DELETE, getCurrentUser.
    change (auth env'
              (set_cartItems db
                 (deleteCartItem (req_params_id req) (cartItems db))) req)
      with (auth env' db req).
    destruct (auth env' db req); [|reflexivity].
    cbv zeta. rewrite Hid, Hq, Hne, Hgone. reflexivity.
Qed.

Lemma cart_remove_witness :
  let req := Shop.with_query_userId
               (Shop.with_id (Shop.bearer "tok-alice") "ci-1") "u-alice" in
  map ci_id (cartItems (fst (cart_DELETE (Shop.env "") Shop.db0 req)))
  = ["ci-2"; "ci-3"] /\
  findCartItem (fst (cart_DELETE (Shop.env "") Shop.db0 req)) "ci-1" = None.
Proof.
  intro req. split; [reflexivity|].
  destruct (cart_remove (Shop.env "") Shop.db0 req
              {| au_id := "u-alice"; au_email := "alice@example.com";
                 au_name := "Alice"; au_role := CUSTOMER |}
              Shop.aliceKeyboard eq_refl ltac:(discriminate) eq_refl
              ltac:(discriminate) eq_refl)
    as (_ & H & _).
  exact H.
Defined.

(** X6. A first add followed by the removal of the created row, by its id
    and with its owner as [userId], gives back the store as it was before
    the add. *)
Theorem cart_add_then_remove (env env' : Env) (db db1 : DB)
  (req req' : Request) (created : CartItem) :
  cart_POST env db req
  = (db1, json (CartItemData "Item added to cart" created) 201) ->
  ci_id created <> "" -> ci_userId created <> "" ->
  getCurrentUser env' db req' <> None ->
  req_params_id req' = ci_id created ->
  req_query_userId req' = Some (ci_userId created) ->
  findCartItem db1 (ci_id created) = Some created /\
  cart_DELETE env' db1 req'
  = (db, json (Message "Cart item removed successfully") 200).
Proof.
  intros Hadd Hid Huid Hauth Hpid Hq. unfold cart_POST in Hadd.
  destruct (getCurrentUser env db req) as [user|]; [|discriminate].
  destruct (negb (Role_eqb (au_role user) CUSTOMER)); [discriminate|].
  destruct (req_json req) as [data|]; [|discriminate].
  destruct (cartInputSchema env data) as [[productId quantity]|];
    [|discriminate].
  destruct (findProduct db productId) as [product|]; [|discriminate].
  destruct (product_stock product <? quantity); [discriminate|].
  destruct (findFirstCartItem db (au_id user) productId); cbv zeta in Hadd.
  { destruct (_ >? _); discriminate. }
  destruct (findCartItem db (uuid env)) eqn:Hfresh; [discriminate|].
  injection Hadd as <- <-.
  assert (Hfound : findCartItem
                     (set_cartItems db
                        (cartItems db ++
                         [{| ci_id := uuid env; ci_userId := au_id user;
                             ci_productId := productId;
                             ci_quantity := quantity |}]))
                     (uuid env)
                   = Some {| ci_id := uuid env; ci_userId := au_id user;
                             ci_productId := productId;
                             ci_quantity := quantity |}).
  { unfold findCartItem in *. cbn [cartItems set_cartItems].
    rewrite (find_app_none _ _ _ Hfresh). simpl. rewrite String.eqb_refl.
    reflexivity. }
  cbn [ci_id ci_userId] in *. split; [exact Hfound|].
  unfold cart_DELETE, getCurrentUser in *.
  change (auth env'
            (set_cartItems db
               (cartItems db ++
                [{| ci_id := uuid env; ci_userId := au_id user;
                    ci_productId := productId; ci_quantity := quantity |}]))
            req')
    with (auth env' db req').
  destruct (auth env' db req'); [|contradiction].
  cbv zeta. rewrite Hpid, Hq, Hfound.
  apply String.eqb_neq in Hid. apply String.eqb_neq in Huid.
  rewrite Hid, Huid. cbn [ci_userId]. rewrite String.eqb_refl. cbn [negb].
  f_equal. unfold deleteCartItem. cbn [cartItems set_cartItems].
  rewrite filter_app. simpl. rewrite String.eqb_refl. simpl.
  rewrite app_nil_r, filter_all.
  - destruct db. reflexivity.
  - intros x Hx. unfold findCartItem in Hfresh.
    rewrite (find_none _ _ Hfresh x Hx). reflexivity.
Qed.

Lemma cart_add_then_remove_witness :
  let add := Shop.with_json (Shop.bearer "tok-erin")
               [("productId", JStr Shop.keyboardId); ("quantity", JNum 2)] in
  let del := Shop.with_query_userId
               (Shop.with_id (Shop.bearer "tok-erin") "ci-9") "u-erin" in
  cart_DELETE (Shop.env "") (fst (cart_POST (Shop.env "ci-9") Shop.db0 add)) del
  = (Shop.db0, json (Message "Cart item removed successfully") 200).
Proof.
  intros add del.
  apply (cart_add_then_remove (Shop.env "ci-9") (Shop.env "") Shop.db0
           (fst (cart_POST (Shop.env "ci-9") Shop.db0 add)) add del
           {| ci_id := "ci-9"; ci_userId := "u-erin";
              ci_productId := Shop.keyboardId; ci_quantity := 2 |});
    try reflexivity; discriminate.
Defined.

(** ** Orders *)

Lemma handle_orders (op : Op) (env : Env) (db : DB) (req : Request) :
  scalar_op op req = true ->
  let db' := fst (handle op env db req) in
  (orders db' = orders db /\ orderItems db' = orderItems db) \/
  (exists o cartLines,
      findOrder db (order_id o) = None /\
      pending_xendit o /\
      order_totalAmount o = totalOf cartLines /\
      orders db' = (orders db ++ [o])%list /\
      orderItems db'
      = (orderItems db ++ map (orderItemOf (order_id o)) cartLines)%list).
Proof.
  intro Hsc. destruct op; cbn [handle].
  - left. split; apply cart_POST_frame.
  - left. split; apply cart_PUT_frame.
  - left. split; apply cart_DELETE_frame.
  - unfold checkout_POST.
    destruct (getCurrentUser env db req) as [user|]; [|left; split; reflexivity].
    destruct (negb (Role_eqb (au_role user) CUSTOMER));
      [left; split; reflexivity|].
    destruct (includeProduct db (cartOf db (au_id user))) as [cartLines|];
      [|left; split; reflexivity].
    destruct (List.length cartLines =? 0)%nat; [left; split; reflexivity|].
    destruct (find _ cartLines); [left; split; reflexivity|].
    destruct (findOrder db (uuid env)) eqn:Hf; [left; split; reflexivity|].
    right. eexists {| order_id := uuid env |}, cartLines.
    split; [exact Hf|].
    destruct (createXenditInvoice env _); cbn; repeat split.
  - left. unfold product_POST. branches; split; reflexivity.
  - left.
    destruct (product_PUT_scalar env db req Hsc) as [-> | (e & p & _ & -> & _)];
      split; reflexivity.
  - left. unfold product_DELETE. branches; split; reflexivity.
  - left. unfold product_POST_form. branches; split; reflexivity.
  - left. unfold product_PUT_form. branches; split; reflexivity.
  - left. unfold product_DELETE_form. branches; split; reflexivity.
  - left. split; apply logout_POST_frame.
Qed.

(** X7. No handler changes or removes an order or an order item of its
    own: after any sequence of requests the two tables are the old ones
    followed by new rows, and every new order is PENDING with method
    XENDIT.  No handler moves an order to PAID or FAILED, and an order
    item keeps the price it was created with when the product's price is
    updated.  JSON product updates whose data names more than scalar
    columns are left out: their nested writes reach the order items. *)
Theorem orders_are_append_only (db : DB) (calls : list Call) :
  Forall (fun c => scalar_update c = true) calls ->
  exists newOrders newItems,
    orders (run db calls) = (orders db ++ newOrders)%list /\
    orderItems (run db calls) = (orderItems db ++ newItems)%list /\
    Forall pending_xendit newOrders.
Proof.
  revert db. induction calls as [|c calls IH]; intros db Hcalls.
  - exists [], []. rewrite !app_nil_r. repeat split. constructor.
  - inversion Hcalls as [|c' calls' Hc Hrest]; subst.
    simpl. destruct (IH (step db c) Hrest) as (lo & li & Ho & Hi & Hp).
    unfold step, scalar_update in *.
    destruct (handle_orders (call_op c) (call_env c) db (call_req c) Hc)
      as [[E1 E2] | (o & cartLines & _ & Hpo & _ & E1 & E2)].
    + exists lo, li. rewrite Ho, Hi, E1, E2. auto.
    + exists (o :: lo), (map (orderItemOf (order_id o)) cartLines ++ li)%list.
      rewrite Ho, Hi, E1, E2, <- !app_assoc. simpl.
      split; [reflexivity|]. split; [reflexivity|]. constructor; assumption.
Qed.

Lemma orders_are_append_only_witness :
  let calls :=
    [ {| call_op := ProductUpdate; call_env := Shop.env "";
         call_req := Shop.with_json
                       (Shop.with_id (Shop.bearer "tok-carol") Shop.mouseId)
                       [("price", JNum (9 # 1))] |};
      {| call_op := Checkout; call_env := Shop.env "o-2";
         call_req := Shop.bearer "tok-bob" |} ] in
  exists newOrders newItems,
    orders (run Shop.db_ordered calls)
    = (orders Shop.db_ordered ++ newOrders)%list /\
    orderItems (run Shop.db_ordered calls)
    = (orderItems Shop.db_ordered ++ newItems)%list /\
    Forall pending_xendit newOrders.
Proof.
  intro calls. apply (orders_are_append_only Shop.db_ordered calls).
  repeat constructor.
Defined.

Lemma step_order_totals (db : DB) (c : Call) :
  scalar_update c = true ->
  order_items_owned db /\ order_totals_hold db ->
  order_items_owned (step db c) /\ order_totals_hold (step db c).
Proof.
  intros Hc [Hown Htot]. unfold step, scalar_update in *.
  destruct (handle_orders (call_op c) (call_env c) db (call_req c) Hc)
    as [[E1 E2] | (o & cartLines & Hfresh & _ & Ht & E1 & E2)].
  - unfold order_items_owned, order_totals_hold, itemsOfOrder, findOrder in *.
    rewrite E1, E2. split; assumption.
  - unfold order_items_owned, order_totals_hold, itemsOfOrder, findOrder in *.
    rewrite E1, E2. split.
    + apply Forall_app. split.
      * eapply Forall_impl; [|exact Hown]. intros oi Hoi.
        destruct (find (fun o0 => (order_id o0 =? oi_orderId oi)%string)
                    (orders db)) eqn:E; [|contradiction].
        rewrite (find_app_some _ _ _ _ E). discriminate.
      * apply Forall_forall. intros oi Hoi. apply in_map_iff in Hoi.
        destruct Hoi as [it [<- _]]. simpl.
        rewrite (find_app_none _ _ _ Hfresh). simpl.
        rewrite String.eqb_refl. discriminate.
    + apply Forall_app. split.
      * rewrite Forall_forall in *. intros o' Ho'. rewrite (Htot o' Ho').
        f_equal. rewrite filter_app.
        rewrite (filter_none _ (map (orderItemOf (order_id o)) cartLines)).
        -- rewrite app_nil_r. reflexivity.
        -- intros oi Hoi. apply in_map_iff in Hoi.
           destruct Hoi as [it [<- _]]. simpl.
           pose proof (find_none _ _ Hfresh o' Ho') as Hne. simpl in Hne.
           rewrite String.eqb_sym. exact Hne.
      * constructor; [|constructor]. rewrite Ht.
        rewrite (itemsOfOrder_created db (order_id o) cartLines Hown Hfresh).
        symmetry. apply orderItemsTotal_of_lines.
Qed.

(** X8. From a store in which every order item belongs to an order and the
    total of every order is the sum of price times quantity over its order
    items, every sequence of requests leads to such a store: the relation
    holds for all orders, not only for the one just created, also after
    the prices of the products have been updated.  JSON product updates
    whose data names more than scalar columns are left out: their nested
    writes reach the order items. *)
Theorem order_totals_always_hold (db : DB) (calls : list Call) :
  Forall (fun c => scalar_update c = true) calls ->
  order_items_owned db -> order_totals_hold db ->
  order_items_owned (run db calls) /\ order_totals_hold (run db calls).
Proof.
  intros Hcalls H1 H2.
  apply (run_invariant_on scalar_update
           (fun d => order_items_owned d /\ order_totals_hold d)).
  - intros d c. apply step_order_totals.
  - exact Hcalls.
  - split; assumption.
Qed.

Lemma order_totals_always_hold_witness :
  let calls :=
    [ {| call_op := Checkout; call_env := Shop.env "o-1";
         call_req := Shop.bearer "tok-alice" |};
      {| call_op := ProductUpdate; call_env := Shop.env "";
         call_req := Shop.with_json
                       (Shop.with_id (Shop.bearer "tok-carol") Shop.mouseId)
                       [("price", JNum (9 # 1))] |};
      {| call_op := Checkout; call_env := Shop.env "o-2";
         call_req := Shop.bearer "tok-bob" |} ] in
  order_totals_hold (run Shop.db0 calls) /\
  map order_totalAmount (orders (run Shop.db0 calls)) = [51 # 2; 9 # 1].
Proof.
  intro calls. split; [|reflexivity].
  apply (order_totals_always_hold Shop.db0 calls); repeat constructor.
Defined.

(** ** Roles *)

(** X9. Without an administrator's token no request writes the catalog:
    each of the six product handlers (create, update and delete, with JSON
    and with forms) answers 401 or 403 and leaves the store unchanged,
    whatever the body says. *)
Theorem catalog_writes_need_admin (op : Op) (env : Env) (db : DB)
  (req : Request) :
  catalog_write op = true ->
  authAdminOnly env db req = false ->
  fst (handle op env db req) = db /\
  (status (snd (handle op env db req)) = 401%nat \/
   status (snd (handle op env db req)) = 403%nat).
Proof.
  intros Hop Hadmin.
  destruct op; try discriminate; cbn [handle];
    [unfold product_POST | unfold product_PUT | unfold product_DELETE
    | unfold product_POST_form | unfold product_PUT_form
    | unfold product_DELETE_form];
    rewrite Hadmin; cbn [negb];
    try destruct (getCurrentUser env db req); cbn; auto.
Qed.

Lemma catalog_writes_need_admin_witness :
  let req := Shop.with_json
               (Shop.with_id (Shop.bearer "tok-alice") Shop.mouseId)
               [("stock", JNum 100); ("price", JNum (1 # 100))] in
  fst (product_PUT (Shop.env "") Shop.db0 req) = Shop.db0 /\
  (status (snd (product_PUT (Shop.env "") Shop.db0 req)) = 401%nat \/
   status (snd (product_PUT (Shop.env "") Shop.db0 req)) = 403%nat).
Proof.
  intro req.
  exact (catalog_writes_need_admin ProductUpdate (Shop.env "") Shop.db0 req
           eq_refl eq_refl).
Defined.

(** X10. Adding to the cart and checking out are for customers: an
    authenticated caller of another role is answered 403 and nothing
    changes, even with a cart of their own in the store.  Updating and
    removing a cart row have no such gate. *)
Theorem cart_and_checkout_need_customer (env : Env) (db : DB) (req : Request)
  (user : AuthUser) :
  getCurrentUser env db req = Some user ->
  au_role user <> CUSTOMER ->
  cart_POST env db req
  = (db, json (Error "Access denied. Only customers can add to cart.") 403) /\
  checkout_POST env db req
  = (db, json (Error "Access denied: only customers can make payment.") 403).
Proof.
  intros Hu Hrole. unfold cart_POST, checkout_POST. rewrite Hu.
  destruct (au_role user); [|contradiction]. split; reflexivity.
Qed.

Lemma cart_and_checkout_need_customer_witness :
  checkout_POST (Shop.env "o-1") Shop.db0 (Shop.bearer "tok-carol")
  = (Shop.db0,
     json (Error "Access denied: only customers can make payment.") 403).
Proof.
  exact (proj2 (cart_and_checkout_need_customer (Shop.env "o-1") Shop.db0
                  (Shop.bearer "tok-carol")
                  {| au_id := "u-carol"; au_email := "carol@example.com";
                     au_name := "Carol"; au_role := ADMIN |}
                  eq_refl ltac:(discriminate))).
Defined.

(** ** Deleting a product *)

Lemma find_none_filter_nil {A : Type} (f : A -> bool) (l : list A) :
  find f l = None <-> filter f l = [].
Proof.
  induction l as [|x l IH]; simpl; [tauto|].
  destruct (f x); [split; discriminate | exact IH].
Qed.

Lemma filter_negb_all {A : Type} (f : A -> bool) (l : list A) :
  filter f l = [] -> filter (fun x => negb (f x)) l = l.
Proof.
  intro H. apply filter_all. intros x Hx.
  destruct (f x) eqn:E; [|reflexivity].
  assert (Hin : In x (filter f l)) by (apply filter_In; auto).
  rewrite H in Hin. destruct Hin.
Qed.

(** X11. The two generations of DELETE /api/products/:id do the same to the
    store on every request: looking for one order item or counting them,
    and deleting reviews and cart rows always or only when there are some,
    makes no difference. *)
Theorem product_delete_variants_agree (env : Env) (db : DB) (req : Request) :
  fst (product_DELETE_form env db req) = fst (product_DELETE env db req).
Proof.
  unfold product_DELETE_form, product_DELETE. cbv zeta.
  destruct (getCurrentUser env db req); [|reflexivity].
  destruct (negb (authAdminOnly env db req)); [reflexivity|].
  destruct (req_params_id req =? "")%string; [reflexivity|].
  destruct (findProduct db (req_params_id req)); [|reflexivity].
  destruct (find (fun oi => (oi_productId oi =? req_params_id req)%string)
              (orderItems db)) eqn:Hf.
  - destruct (filter (fun oi => (oi_productId oi =? req_params_id req)%string)
                (orderItems db)) eqn:E.
    + apply find_none_filter_nil in E. congruence.
    + reflexivity.
  - apply find_none_filter_nil in Hf. rewrite Hf. cbn [List.length Nat.ltb Nat.leb fst].
    destruct (filter (fun r => (pr_productId r =? req_params_id req)%string)
                (reviews db)) eqn:Er;
      destruct (filter (fun c => (ci_productId c =? req_params_id req)%string)
                  (cartItems db)) eqn:Ec;
      cbn [List.length Nat.ltb Nat.leb fst cartItems set_reviews set_cartItems
             products set_products];
      try rewrite (filter_negb_all _ _ Er);
      try rewrite (filter_negb_all _ _ Ec);
      destruct db; reflexivity.
Qed.

(** X12. A DELETE /api/products/:id that answers 200 has removed the
    product, its reviews and its cart rows, and nothing else: no product,
    cart row or review points at the id afterwards, the other rows of these
    tables are as before, and users, brands, categories, orders and order
    items are untouched. *)
Theorem product_delete_cascades (env : Env) (db : DB) (req : Request) :
  status (snd (product_DELETE env db req)) = 200%nat ->
  let id := req_params_id req in
  let db' := fst (product_DELETE env db req) in
  findProduct db' id = None /\
  (forall c, In c (cartItems db') <->
             In c (cartItems db) /\ ci_productId c <> id) /\
  (forall r, In r (reviews db') <->
             In r (reviews db) /\ pr_productId r <> id) /\
  (forall p, In p (products db') <->
             In p (products db) /\ product_id p <> id) /\
  (forall oi, In oi (orderItems db) -> oi_productId oi <> id) /\
  users db' = users db /\ brands db' = brands db /\
  categories db' = categories db /\ orders db' = orders db /\
  orderItems db' = orderItems db /\ invalidTokens db' = invalidTokens db.
Proof.
  unfold product_DELETE. cbv zeta.
  destruct (getCurrentUser env db req); [|discriminate].
  destruct (negb (authAdminOnly env db req)); [discriminate|].
  destruct (req_params_id req =? "")%string; [discriminate|].
  destruct (findProduct db (req_params_id req)) as [existing|];
    [|discriminate].
  destruct (find (fun oi => (oi_productId oi =? req_params_id req)%string)
              (orderItems db)) eqn:Hf; [discriminate|].
  intros _. cbn [fst cartItems reviews products set_reviews set_cartItems
                   set_products users brands categories orders orderItems
                   invalidTokens].
  assert (Hin : forall (A : Type) (key : A -> string) (l : list A) (x : A),
             In x (filter (fun y => negb (key y =? req_params_id req)%string) l)
             <-> In x l /\ key x <> req_params_id req).
  { intros A key l x. rewrite filter_In.
    split; intros [H1 H2]; (split; [exact H1|]).
    - intro E. rewrite E, String.eqb_refl in H2. discriminate.
    - apply String.eqb_neq in H2. rewrite H2. reflexivity. }
  split.
  { unfold findProduct. cbn [products].
    apply (find_filter_drop
             (fun p => (product_id p =? req_params_id req)%string)). }
  split; [intro c; apply (Hin _ ci_productId)|].
  split; [intro r; apply (Hin _ pr_productId)|].
  split; [intro p; apply (Hin _ product_id)|].
  split.
  { intros oi Hoi E. pose proof (find_none _ _ Hf oi Hoi) as Hn. simpl in Hn.
    rewrite E, String.eqb_refl in Hn. discriminate. }
  repeat split.
Qed.

Lemma product_delete_cascades_witness :
  let req := Shop.with_id (Shop.bearer "tok-carol") Shop.mouseId in
  findProduct (fst (product_DELETE (Shop.env "") Shop.db0 req)) Shop.mouseId
  = None /\
  map ci_id (cartItems (fst (product_DELETE (Shop.env "") Shop.db0 req)))
  = ["ci-1"].
Proof.
  intro req. split; [|reflexivity].
  exact (proj1 (product_delete_cascades (Shop.env "") Shop.db0 req eq_refl)).
Defined.

(** ** Logging out *)

Lemma logout_POST_tokens (env : Env) (db : DB) (req : Request) :
  let db' := fst (logout_POST env db req) in
  invalidTokens db' = invalidTokens db \/
  exists t, findInvalidToken db (it_token t) = None /\
            invalidTokens db' = (invalidTokens db ++ [t])%list.
Proof.
  unfold logout_POST. branches; simpl; auto.
  right. eexists. split; [|reflexivity]. simpl. assumption.
Qed.

Lemma step_tokens_distinct (db : DB) (c : Call) :
  tokens_distinct db -> tokens_distinct (step db c).
Proof.
  unfold tokens_distinct, step. intro H. destruct c as [op env req].
  cbn [call_op call_env call_req].
  destruct op; cbn [handle].
  - destruct (cart_POST_frame env db req) as ([_ -> _] & _). exact H.
  - destruct (cart_PUT_frame env db req) as ([_ -> _] & _). exact H.
  - destruct (cart_DELETE_frame env db req) as ([_ -> _] & _). exact H.
  - destruct (checkout_POST_frame env db req) as ([_ -> _] & _). exact H.
  - destruct (product_POST_frame env db req) as (-> & _). exact H.
  - destruct (product_PUT_frame env db req) as (-> & _). exact H.
  - destruct (product_DELETE_frame env db req) as (-> & _). exact H.
  - destruct (product_POST_form_frame env db req) as (-> & _). exact H.
  - destruct (product_PUT_form_frame env db req) as (-> & _). exact H.
  - destruct (product_DELETE_form_frame env db req) as (-> & _). exact H.
  - destruct (logout_POST_tokens env db req) as [-> | (t & Hf & ->)];
      [exact H|].
    rewrite map_app. simpl.
    apply NoDup_app; [exact H | repeat constructor; intros [] |].
    intros k Hin [<-|[]].
    apply (find_id_In it_token) in Hin. unfold findInvalidToken in Hf.
    contradiction.
Qed.

(** X13. Logout never answers an error and never stores a token twice: it
    answers 200 on every request, and from a store whose invalid tokens
    are pairwise different every sequence of requests leads to such a
    store, so the unique index on the token is never hit. *)
Theorem logout_never_fails (db : DB) (calls : list Call) :
  tokens_distinct db ->
  tokens_distinct (run db calls) /\
  forall env req, status (snd (logout_POST env (run db calls) req)) = 200%nat.
Proof.
  intro H. split.
  - revert H. apply run_invariant. intros d c. apply step_tokens_distinct.
  - intros env req. unfold logout_POST.
    destruct (getCurrentUser env (run db calls) req) as [user|] eqn:Hu;
      [|reflexivity].
    destruct (auth_Some_inv env _ req user Hu)
      as (token & (authHeader & Hh & Hs & Ht) & Hf).
    rewrite Hh, Hs, Ht, Hf. reflexivity.
Qed.

Lemma logout_never_fails_witness :
  let calls :=
    [ {| call_op := Logout; call_env := Shop.env "";
         call_req := Shop.bearer "tok-alice" |};
      {| call_op := Logout; call_env := Shop.env "";
         call_req := Shop.bearer "tok-alice" |} ] in
  tokens_distinct (run Shop.db0 calls) /\
  map it_token (invalidTokens (run Shop.db0 calls)) = ["tok-alice"].
Proof.
  intro calls. split; [|reflexivity].
  apply (logout_never_fails Shop.db0 calls). constructor.
Defined.

(** ** The e-mail pattern *)

Lemma allPlain_app (a b : string) :
  allPlain (a ++ b) = allPlain a && allPlain b.
Proof.
  induction a as [|x a IH]; simpl; [reflexivity|].
  rewrite IH, andb_assoc. reflexivity.
Qed.

Lemma plain_not_at (c : ascii) : plain c = true -> (c =? "@")%char = false.
Proof.
  unfold plain. intro H. apply andb_true_iff in H. destruct H as [_ H].
  apply negb_true_iff in H. exact H.
Qed.

Lemma afterDomainChar_spec (s : string) :
  afterDomainChar s = true <->
  exists b c, s = b ++ "." ++ c /\ c <> "" /\
              allPlain b = true /\ allPlain c = true.
Proof.
  split.
  - induction s as [|x r IH]; simpl; [discriminate|].
    intro H. apply orb_true_iff in H. destruct H as [H | H].
    + apply andb_true_iff in H. destruct H as [H Hc].
      apply andb_true_iff in H. destruct H as [Hx Hne].
      apply Ascii.eqb_eq in Hx. subst x.
      apply negb_true_iff, String.eqb_neq in Hne.
      exists "", r. auto.
    + apply andb_true_iff in H. destruct H as [Hx H].
      destruct (IH H) as (b & c & -> & Hne & Hb & Hc).
      exists (String x b), c. simpl. rewrite Hx, Hb. auto.
  - intros (b & c & -> & Hne & Hb & Hc). simpl.
    induction b as [|x b IH]; simpl.
    + apply String.eqb_neq in Hne. rewrite Hne, Hc. reflexivity.
    + simpl in Hb. apply andb_true_iff in Hb. destruct Hb as [Hx Hb].
      rewrite Hx, (IH Hb). apply orb_true_r.
Qed.

Lemma afterLocalChar_spec (s : string) :
  afterLocalChar s = true <->
  exists a b c, s = a ++ "@" ++ b ++ "." ++ c /\ b <> "" /\ c <> "" /\
                allPlain a = true /\ allPlain b = true /\ allPlain c = true.
Proof.
  split.
  - induction s as [|x r IH]; simpl; [discriminate|].
    destruct (x =? "@")%char eqn:Hx.
    + apply Ascii.eqb_eq in Hx. subst x.
      destruct r as [|d r']; [discriminate|]. intro H.
      apply andb_true_iff in H. destruct H as [Hd H].
      apply afterDomainChar_spec in H.
      destruct H as (b & c & -> & Hne & Hb & Hc).
      exists "", (String d b), c. simpl. rewrite Hd, Hb.
      repeat split; auto. discriminate.
    + intro H. apply andb_true_iff in H. destruct H as [Hp H].
      destruct (IH H) as (a & b & c & -> & Hbne & Hcne & Ha & Hb & Hc).
      exists (String x a), b, c. simpl. rewrite Hp, Ha. repeat split; auto.
  - intros (a & b & c & -> & Hbne & Hcne & Ha & Hb & Hc). simpl.
    induction a as [|x a IH]; simpl.
    + destruct b as [|d b]; [contradiction|]. simpl in Hb.
      apply andb_true_iff in Hb. destruct Hb as [Hd Hb]. simpl. rewrite Hd.
      apply afterDomainChar_spec. exists b, c. repeat split; auto.
    + simpl in Ha. apply andb_true_iff in Ha. destruct Ha as [Hx Ha].
      rewrite (plain_not_at x Hx), Hx, (IH Ha). reflexivity.
Qed.

(** X14. The e-mail check of registration and admin creation accepts
    exactly the strings [a@b.c] in which [a], [b] and [c] are not empty and
    hold neither white space nor [@]; so an address has exactly one [@],
    and dots may stand anywhere in [b] and [c]. *)
Theorem emailRegex_spec (s : string) : emailRegex s = true <-> email_shaped s.
Proof.
  unfold emailRegex, email_shaped. split.
  - destruct s as [|x r]; [discriminate|]. intro H.
    apply andb_true_iff in H. destruct H as [Hx H].
    apply afterLocalChar_spec in H.
    destruct H as (a & b & c & -> & Hbne & Hcne & Ha & Hb & Hc).
    exists (String x a), b, c. simpl. rewrite Hx, Ha.
    repeat split; auto. discriminate.
  - intros (a & b & c & -> & Hane & Hbne & Hcne & Ha & Hb & Hc).
    destruct a as [|x a]; [contradiction|]. simpl in *.
    apply andb_true_iff in Ha. destruct Ha as [Hx Ha]. rewrite Hx.
    apply afterLocalChar_spec. exists a, b, c. repeat split; auto.
Qed.

(** ** Users *)

Lemma handle_users (op : Op) (env : Env) (db : DB) (req : Request) :
  scalar_op op req = true ->
  let db' := fst (handle op env db req) in
  users db' = users db /\ brands db' = brands db /\
  categories db' = categories db.
Proof.
  intro Hsc. destruct op; cbn [handle].
  6:{ destruct (product_PUT_scalar env db req Hsc)
        as [-> | (e & p & _ & -> & _)]; repeat split. }
  all: [> unfold cart_POST | unfold cart_PUT | unfold cart_DELETE
        | unfold checkout_POST | unfold product_POST
        | unfold product_DELETE | unfold product_POST_form
        | unfold product_PUT_form | unfold product_DELETE_form
        | unfold logout_POST];
    branches; repeat split.
Qed.

Lemma product_PUT_not_admin (env : Env) (db : DB) (req : Request) :
  authAdminOnly env db req = false -> fst (product_PUT env db req) = db.
Proof.
  intro H. unfold product_PUT. rewrite H.
  destruct (getCurrentUser env db req); reflexivity.
Qed.

Lemma any_scalar_update_false (c : AnyCall) :
  any_scalar_update c = false ->
  any_op c = StoreOp ProductUpdate /\ scalar_json (any_req c) = false.
Proof.
  unfold any_scalar_update. destruct (any_op c) as [[]|]; try discriminate.
  auto.
Qed.

Lemma register_POST_users (crypto : Crypto) (env : Env) (db : DB)
  (body : option Credentials) :
  let db' := fst (register_POST crypto env db body) in
  brands db' = brands db /\ categories db' = categories db /\
  products db' = products db /\
  (users db' = users db \/
   exists u, user_role u = CUSTOMER /\
             findUserByEmail db (user_email u) = None /\
             users db' = (users db ++ [u])%list).
Proof.
  unfold register_POST. branches; simpl; repeat split; auto.
  right. eexists. split; [|split; [|reflexivity]]; [reflexivity | assumption].
Qed.

Lemma admin_POST_users (crypto : Crypto) (env : Env) (db : DB) (req : Request)
  (body : option Credentials) :
  let db' := fst (admin_POST crypto env db req body) in
  brands db' = brands db /\ categories db' = categories db /\
  products db' = products db /\
  (users db' = users db \/
   exists u, authAdminOnly env db req = true /\
             findUserByEmail db (user_email u) = None /\
             users db' = (users db ++ [u])%list).
Proof.
  unfold admin_POST.
  destruct (getCurrentUser env db req); [|simpl; auto].
  destruct (authAdminOnly env db req) eqn:Hadmin; [|simpl; auto].
  branches; simpl; repeat split; auto.
  right. eexists. split; [|split; [|reflexivity]]; [reflexivity | assumption].
Qed.

Lemma brand_category_users (op : AdminOp) (env : Env) (db : DB)
  (req : Request) (crypto : Crypto) (body : option Credentials) :
  op <> UserRegister -> op <> AdminCreate ->
  users (any_step db {| any_op := OtherOp op; any_env := env; any_req := req;
                        any_crypto := crypto; any_body := body |})
  = users db.
Proof.
  intros H1 H2. unfold any_step. cbn [any_op any_env any_req].
  destruct op; try contradiction;
    [unfold brand_POST | unfold brand_PUT | unfold brand_DELETE
    | unfold category_POST | unfold category_PUT | unfold category_DELETE];
    branches; reflexivity.
Qed.

(** X15. A request that is not made with an administrator's token can
    only add customers: after one such request of any route the user table
    is the old one, possibly followed by one new row of the role CUSTOMER,
    so the administrators of the store are the same before and after.
    The same shape (old rows, at most one new row) holds for the requests
    of an administrator, except for a JSON product update whose data names
    more than scalar columns, which is handed to the client with its
    nested writes. *)
Theorem no_privilege_escalation (db : DB) (c : AnyCall) :
  authAdminOnly (any_env c) db (any_req c) = false \/
  any_scalar_update c = true ->
  exists added,
    users (any_step db c) = (users db ++ added)%list /\
    (List.length added <= 1)%nat /\
    (authAdminOnly (any_env c) db (any_req c) = false ->
     Forall (fun u => user_role u = CUSTOMER) added /\
     admins (any_step db c) = admins db).
Proof.
  assert (Hsame : users (any_step db c) = users db ->
                  exists added,
                    users (any_step db c) = (users db ++ added)%list /\
                    (List.length added <= 1)%nat /\
                    (authAdminOnly (any_env c) db (any_req c) = false ->
                     Forall (fun u => user_role u = CUSTOMER) added /\
                     admins (any_step db c) = admins db)).
  { intro H. exists []. rewrite app_nil_r. split; [exact H|].
    split; [simpl; lia|]. intros _. split; [constructor|].
    unfold admins. rewrite H. reflexivity. }
  intro Hc.
  destruct (any_scalar_update c) eqn:Hsc.
  2:{ destruct (any_scalar_update_false c Hsc) as [Hop _].
      destruct Hc as [Hc | Hc]; [|discriminate Hc].
      apply Hsame. unfold any_step. rewrite Hop. cbn [handle].
      rewrite (product_PUT_not_admin _ _ _ Hc). reflexivity. }
  clear Hc. unfold any_scalar_update in Hsc.
  destruct c as [[op | op] env req crypto body].
  - apply Hsame. unfold any_step. cbn [any_op any_env any_req] in *.
    apply handle_users. destruct op; try reflexivity. exact Hsc.
  - destruct op;
      try (apply Hsame; apply brand_category_users; discriminate).
    + unfold any_step. cbn [any_op any_env any_req any_crypto any_body].
      destruct (register_POST_users crypto env db body)
        as (_ & _ & _ & [H | (u & Hr & _ & H)]).
      * apply Hsame. exact H.
      * exists [u]. split; [exact H|]. split; [simpl; lia|]. intros _.
        split; [repeat constructor; exact Hr|].
        unfold admins. rewrite H, filter_app. simpl. rewrite Hr. simpl.
        apply app_nil_r.
    + unfold any_step. cbn [any_op any_env any_req any_crypto any_body].
      destruct (admin_POST_users crypto env db req body)
        as (_ & _ & _ & [H | (u & Hadmin & _ & H)]).
      * apply Hsame. exact H.
      * exists [u]. split; [exact H|]. split; [simpl; lia|].
        intro Hno. congruence.
Qed.

Lemma no_privilege_escalation_witness :
  admins
    (any_step Shop.db0
       {| any_op := OtherOp AdminCreate; any_env := Shop.env "u-mallory";
          any_req := Shop.bearer "tok-alice";
          any_crypto := {| bcrypt_hash := fun p _ => p;
                           bcrypt_compare := String.eqb;
                           jwt_sign := fun c _ => claim_userId c |};
          any_body := Some {| cred_name := Some "Mallory";
                              cred_email := Some "mallory@example.com";
                              cred_password := Some "longenough" |} |})
  = admins Shop.db0.
Proof.
  destruct (no_privilege_escalation Shop.db0
              {| any_op := OtherOp AdminCreate; any_env := Shop.env "u-mallory";
                 any_req := Shop.bearer "tok-alice";
                 any_crypto := {| bcrypt_hash := fun p _ => p;
                                  bcrypt_compare := String.eqb;
                                  jwt_sign := fun c _ => claim_userId c |};
                 any_body := Some {| cred_name := Some "Mallory";
                                     cred_email := Some "mallory@example.com";
                                     cred_password := Some "longenough" |} |}
              (or_introl eq_refl))
    as (added & _ & _ & H).
  exact (proj2 (H eq_refl)).
Defined.

Lemma any_run_invariant (P : DB -> Prop) :
  (forall db c, P db -> P (any_step db c)) ->
  forall calls db, P db -> P (any_run db calls).
Proof.
  intros Hstep calls. induction calls as [|c calls IH]; intros db H.
  - exact H.
  - simpl. apply IH. apply Hstep. exact H.
Qed.

(** X16. From a store in which no two users have the same e-mail address,
    every sequence of requests leads to such a store: registration and
    admin creation look the address up before they create the user, no
    other handler writes a user of its own, and what a JSON product update
    hands to the client is held by the unique index of the column. *)
Theorem emails_stay_distinct (db : DB) (calls : list AnyCall) :
  emails_distinct db -> emails_distinct (any_run db calls).
Proof.
  apply any_run_invariant. clear db calls. intros db c H.
  unfold emails_distinct in *.
  assert (Hnew : forall u, findUserByEmail db (user_email u) = None ->
                           NoDup (map user_email (users db ++ [u]))).
  { intros u Hf. rewrite map_app. simpl.
    apply NoDup_app; [exact H | repeat constructor; intros [] |].
    intros k Hin [<-|[]]. apply (find_id_In user_email) in Hin.
    unfold findUserByEmail in Hf. contradiction. }
  destruct c as [[op | op] env req crypto body].
  - unfold any_step. cbn [any_op any_env any_req].
    destruct (scalar_op op req) eqn:Hsc.
    + destruct (handle_users op env db req Hsc) as (-> & _). exact H.
    + (* the client's nested writes: the e-mail column is unique *)
      destruct op; try discriminate Hsc. cbn [handle].
      destruct (product_PUT_nested env db req Hsc) as [-> | [_ Hk]];
        [exact H | exact (proj1 (constraints_hold _ Hk))].
  - destruct op;
      try (rewrite brand_category_users; [exact H | discriminate | discriminate]).
    + unfold any_step. cbn [any_op any_env any_req any_crypto any_body].
      destruct (register_POST_users crypto env db body)
        as (_ & _ & _ & [-> | (u & _ & Hf & ->)]); [exact H | exact (Hnew u Hf)].
    + unfold any_step. cbn [any_op any_env any_req any_crypto any_body].
      destruct (admin_POST_users crypto env db req body)
        as (_ & _ & _ & [-> | (u & _ & Hf & ->)]); [exact H | exact (Hnew u Hf)].
Qed.

Lemma emails_stay_distinct_witness :
  let dave :=
    {| any_op := OtherOp UserRegister; any_env := Shop.env "u-dave";
       any_req := Shop.bearer "";
       any_crypto := {| bcrypt_hash := fun p _ => p;
                        bcrypt_compare := String.eqb;
                        jwt_sign := fun c _ => claim_userId c |};
       any_body := Some {| cred_name := Some "Dave";
                           cred_email := Some "alice@example.com";
                           cred_password := Some "secret1" |} |} in
  emails_distinct (any_run Shop.db0 [dave]) /\
  List.length (users (any_run Shop.db0 [dave])) = 4%nat.
Proof.
  intro dave. split; [|reflexivity].
  apply (emails_stay_distinct Shop.db0 [dave]).
  unfold emails_distinct. simpl.
  repeat constructor; simpl; intuition discriminate.
Defined.

(** ** Brands and categories of the products *)

Lemma formText_written (v : option FormValue) (old s : string) :
  formText v old = Some s -> isSome v = false /\ s = old \/ isSome v = true.
Proof.
  destruct v as [[|]|]; simpl; intro H; try discriminate; auto.
  injection H as <-. auto.
Qed.

Lemma handle_catalog_resolves (op : Op) (env : Env) (db : DB) (req : Request) :
  catalog_resolves db -> catalog_resolves (fst (handle op env db req)).
Proof.
  destruct (scalar_op op req) eqn:Hsc.
  2:{ (* the client's nested writes: brand and category are foreign keys *)
      destruct op; try discriminate Hsc. cbn [handle]. intro H.
      destruct (product_PUT_nested env db req Hsc) as [-> | [_ Hk]];
        [exact H | apply (constraints_hold _ Hk)]. }
  unfold catalog_resolves, findBrand, findCategory. intro H.
  destruct (handle_users op env db req Hsc) as (_ & -> & ->).
  destruct op; cbn [handle].
  - rewrite (same_products _ _ (proj1 (cart_POST_frame env db req))). exact H.
  - rewrite (same_products _ _ (proj1 (cart_PUT_frame env db req))). exact H.
  - rewrite (same_products _ _ (proj1 (cart_DELETE_frame env db req))). exact H.
  - rewrite (same_products _ _ (proj1 (checkout_POST_frame env db req))). exact H.
  - unfold product_POST. branches; try exact H.
    simpl. apply Forall_app. split; [exact H|]. constructor; [|constructor].
    simpl. unfold findBrand, findCategory in *. split; congruence.
  - destruct (product_PUT_scalar env db req Hsc)
      as [-> | (e & p & Hf & -> & _ & _ & Hb & Hc)]; [exact H|].
    simpl. apply updateProduct_Forall; [exact H|]. intros _.
    apply find_some in Hf. destruct Hf as [Hf _].
    pose proof (proj1 (Forall_forall _ _) H e Hf) as [He1 He2].
    unfold findBrand, findCategory in *.
    split; [destruct Hb as [-> | Hb] | destruct Hc as [-> | Hc]]; assumption.
  - destruct (product_DELETE_frame env db req) as (_ & _ & [-> | (_ & ->)]).
    + exact H.
    + apply Forall_forall. intros x Hx. apply filter_In in Hx.
      rewrite Forall_forall in H. apply H. apply Hx.
  - unfold product_POST_form. branches; try exact H.
    simpl. apply Forall_app. split; [exact H|]. constructor; [|constructor].
    simpl. unfold findBrand, findCategory in *. split; congruence.
  - unfold product_PUT_form. branches; try exact H.
    all: simpl; apply updateProduct_Forall; [exact H|]; intros _; simpl.
    all: match goal with
         | Hf : findProduct _ _ = Some ?e |- _ =>
             apply find_some in Hf; destruct Hf as [Hf _];
             pose proof (proj1 (Forall_forall _ _) H e Hf) as [He1 He2]
         end.
    all: match goal with
         | Hk : (_ && _) = true |- _ =>
             apply andb_true_iff in Hk; destruct Hk as [Hk1 Hk2];
             apply orb_true_iff in Hk1; apply orb_true_iff in Hk2
         end.
    all: split.
    all: match goal with
         | Ho : formText ?v ?old = Some ?s, Hk : negb (isSome ?v) = true \/ _
           |- find _ _ <> None =>
             destruct Hk as [Hk | Hk];
             [ destruct (formText_written _ _ _ Ho) as [[_ ->] | Hw];
               [assumption | rewrite Hw in Hk; discriminate]
             | exact (isSome_not_None _ Hk) ]
         end.
  - destruct (product_DELETE_form_frame env db req) as (_ & _ & [-> | (_ & ->)]).
    + exact H.
    + apply Forall_forall. intros x Hx. apply filter_In in Hx.
      rewrite Forall_forall in H. apply H. apply Hx.
  - destruct (logout_POST_frame env db req) as (_ & -> & _). exact H.
Qed.

Lemma find_map_replace {A : Type} (key : A -> string) (id x : string) (a : A)
  (l : list A) :
  key a = id ->
  find (fun b => (key b =? x)%string) l <> None ->
  find (fun b => (key b =? x)%string)
    (map (fun b => if (key b =? id)%string then a else b) l) <> None.
Proof.
  intros Ha. induction l as [|b l IH]; simpl; [auto|].
  destruct (key b =? x)%string eqn:E.
  - intros _. destruct (key b =? id)%string eqn:E'.
    + apply String.eqb_eq in E, E'. subst. rewrite E', String.eqb_refl.
      discriminate.
    + rewrite E. discriminate.
  - intro H. destruct (key b =? id)%string eqn:E'.
    + destruct (key a =? x)%string; [discriminate | exact (IH H)].
    + rewrite E. exact (IH H).
Qed.

Lemma find_app_not_none {A : Type} (f : A -> bool) (l l' : list A) :
  find f l <> None -> find f (l ++ l') <> None.
Proof.
  destruct (find f l) eqn:E; [|contradiction]. intros _.
  rewrite (find_app_some _ _ l' _ E). discriminate.
Qed.

Lemma find_filter_not_none {A : Type} (key : A -> string) (id x : string)
  (l : list A) :
  (x =? id)%string = false ->
  find (fun b => (key b =? x)%string) l <> None ->
  find (fun b => (key b =? x)%string)
    (filter (fun b => negb (key b =? id)%string) l) <> None.
Proof.
  intros Hx H. rewrite find_filter_keep; [exact H|].
  intros b Hb. apply String.eqb_eq in Hb. rewrite Hb, Hx. reflexivity.
Qed.

Lemma any_step_catalog_resolves (db : DB) (c : AnyCall) :
  catalog_resolves db -> catalog_resolves (any_step db c).
Proof.
  intro H. destruct c as [[op | op] env req crypto body]; unfold any_step;
    cbn [any_op any_env any_req any_crypto any_body].
  { apply handle_catalog_resolves. exact H. }
  unfold catalog_resolves, findBrand, findCategory in *.
  destruct op.
  - unfold brand_POST. branches; try exact H. simpl.
    eapply Forall_impl; [|exact H]. intros p [H1 H2].
    split; [apply find_app_not_none|]; assumption.
  - unfold brand_PUT. branches; try exact H. simpl.
    eapply Forall_impl; [|exact H]. intros p [H1 H2].
    split; [|assumption]. apply find_map_replace; [|assumption]. simpl.
    match goal with
    | Hf : findBrand _ _ = Some _ |- _ =>
        apply find_some in Hf; destruct Hf as [_ Hf];
        apply String.eqb_eq in Hf; exact Hf
    end.
  - unfold brand_DELETE. branches; try exact H. simpl.
    rewrite Forall_forall in *. intros p Hp. destruct (H p Hp) as [H1 H2].
    split; [|assumption]. apply find_filter_not_none; [|assumption].
    match goal with
    | Hl : (0 <? List.length (filter _ _))%nat = false |- _ =>
        exact (filter_length_0 _ _ Hl p Hp)
    end.
  - unfold category_POST. branches; try exact H. simpl.
    eapply Forall_impl; [|exact H]. intros p [H1 H2].
    split; [|apply find_app_not_none]; assumption.
  - unfold category_PUT. branches; try exact H. simpl.
    eapply Forall_impl; [|exact H]. intros p [H1 H2].
    split; [assumption|]. apply find_map_replace; [|assumption]. simpl.
    match goal with
    | Hf : findCategory _ _ = Some _ |- _ =>
        apply find_some in Hf; destruct Hf as [_ Hf];
        apply String.eqb_eq in Hf; exact Hf
    end.
  - unfold category_DELETE. branches; try exact H. simpl.
    rewrite Forall_forall in *. intros p Hp. destruct (H p Hp) as [H1 H2].
    split; [assumption|]. apply find_filter_not_none; [|assumption].
    match goal with
    | Hl : (0 <? List.length (filter _ _))%nat = false |- _ =>
        exact (filter_length_0 _ _ Hl p Hp)
    end.
  - destruct (register_POST_users crypto env db body) as (-> & -> & -> & _).
    exact H.
  - destruct (admin_POST_users crypto env db req body) as (-> & -> & -> & _).
    exact H.
Qed.

Lemma reference_refused (db : DB) (env : Env) (req : Request) (p : Product) :
  In p (products db) ->
  (req_params_id req = product_brandId p ->
   fst (brand_DELETE env db req) = db /\
   (authAdminOnly env db req = true -> findBrand db (req_params_id req) <> None ->
    req_params_id req <> "" ->
    snd (brand_DELETE env db req) = reply (AError "brand has products") 400)) /\
  (req_params_id req = product_categoryId p ->
   fst (category_DELETE env db req) = db /\
   (authAdminOnly env db req = true ->
    findCategory db (req_params_id req) <> None ->
    req_params_id req <> "" ->
    snd (category_DELETE env db req)
    = reply (AError "category has products") 400)).
Proof.
  intro Hin.
  assert (Hb : forall (key : Product -> string),
             req_params_id req = key p ->
             (0 <? List.length
                     (filter (fun q => (key q =? req_params_id req)%string)
                        (products db)))%nat = true).
  { intros key Hid. apply Nat.ltb_lt.
    assert (Hp : In p (filter (fun q => (key q =? req_params_id req)%string)
                         (products db))).
    { apply filter_In. split; [exact Hin|]. rewrite Hid. apply String.eqb_refl. }
    destruct (filter _ (products db)); [destruct Hp | simpl; lia]. }
  split; intro Hid.
  - specialize (Hb product_brandId Hid). unfold brand_DELETE.
    rewrite Hb. split.
    + branches; reflexivity.
    + intros -> Hf Hne. apply String.eqb_neq in Hne. rewrite Hne. simpl.
      destruct (findBrand db (req_params_id req)); [reflexivity | contradiction].
  - specialize (Hb product_categoryId Hid). unfold category_DELETE.
    rewrite Hb. split.
    + branches; reflexivity.
    + intros -> Hf Hne. apply String.eqb_neq in Hne. rewrite Hne. simpl.
      destruct (findCategory db (req_params_id req)); [reflexivity | contradiction].
Qed.

(** X17. From a store in which every product's brand and category exist,
    every sequence of requests (cart, checkout, catalog, logout, brand,
    category, registration, admin creation) leads to such a store: the
    product handlers look the brand and the category up before they write
    them, and what a JSON product update hands to the client beyond scalar
    columns is held by the foreign keys of the two relations.  In it,
    DELETE /api/brands/:id and DELETE /api/categories/:id with the id of a
    brand or category that a product uses change nothing, and for an
    administrator the answer is 400 "brand has products" or "category has
    products". *)
Theorem products_keep_brand_and_category (db : DB) (calls : list AnyCall) :
  catalog_resolves db ->
  catalog_resolves (any_run db calls) /\
  (forall env req p,
      In p (products (any_run db calls)) ->
      (req_params_id req = product_brandId p ->
       fst (brand_DELETE env (any_run db calls) req) = any_run db calls /\
       (authAdminOnly env (any_run db calls) req = true ->
        req_params_id req <> "" ->
        snd (brand_DELETE env (any_run db calls) req)
        = reply (AError "brand has products") 400)) /\
      (req_params_id req = product_categoryId p ->
       fst (category_DELETE env (any_run db calls) req) = any_run db calls /\
       (authAdminOnly env (any_run db calls) req = true ->
        req_params_id req <> "" ->
        snd (category_DELETE env (any_run db calls) req)
        = reply (AError "category has products") 400))).
Proof.
  intro H.
  assert (Hrun : catalog_resolves (any_run db calls)).
  { revert H. apply any_run_invariant. exact any_step_catalog_resolves. }
  split; [exact Hrun|]. intros env req p Hin.
  destruct (reference_refused (any_run db calls) env req p Hin) as [Hb Hc].
  unfold catalog_resolves in Hrun. rewrite Forall_forall in Hrun.
  destruct (Hrun p Hin) as [Hfb Hfc].
  split; intro Hid.
  - destruct (Hb Hid) as [H1 H2]. split; [exact H1|]. intros Hadmin Hne.
    apply H2; [exact Hadmin | rewrite Hid; exact Hfb | exact Hne].
  - destruct (Hc Hid) as [H1 H2]. split; [exact H1|]. intros Hadmin Hne.
    apply H2; [exact Hadmin | rewrite Hid; exact Hfc | exact Hne].
Qed.

Lemma products_keep_brand_and_category_witness :
  let calls :=
    [ {| any_op := OtherOp BrandDelete; any_env := Shop.env "";
         any_req := Shop.with_id (Shop.bearer "tok-carol") "b-1";
         any_crypto := {| bcrypt_hash := fun p _ => p;
                          bcrypt_compare := String.eqb;
                          jwt_sign := fun c _ => claim_userId c |};
         any_body := None |} ] in
  catalog_resolves Shop.db0 /\
  catalog_resolves (any_run Shop.db0 calls) /\
  map brand_id (brands (any_run Shop.db0 calls)) = ["b-1"].
Proof.
  intro calls.
  assert (H : catalog_resolves Shop.db0).
  { repeat constructor; discriminate. }
  split; [exact H|].
  split; [exact (proj1 (products_keep_brand_and_category Shop.db0 calls H))|].
  reflexivity.
Defined.

(** ** Registration and login *)

Lemma find_app_new {A : Type} (f : A -> bool) (l : list A) (x : A) :
  find f l = None -> f x = true -> find f (l ++ [x]) = Some x.
Proof.
  intros Hl Hx. rewrite (find_app_none _ _ _ Hl). simpl. rewrite Hx. reflexivity.
Qed.

(** X18. A registration that answers 201 was made with an address the
    e-mail pattern accepts, a password of at least 6 characters and an
    address no user had; the new user is a customer.  Afterwards a login
    with that address answers 200 with the same user exactly when bcrypt
    accepts the password sent against the hash stored at registration, and
    401 "Invalid email or password" otherwise; and a request that carries a
    token which is not revoked and verifies to the new user's id is
    authenticated as that user. *)
Theorem register_then_login (crypto crypto' : Crypto) (env : Env) (db db' : DB)
  (name email password : string) (user : AuthUser) (token : string) :
  register_POST crypto env db
    (Some {| cred_name := Some name; cred_email := Some email;
             cred_password := Some password |})
  = (db', reply (ASession user token) 201) ->
  emailRegex email = true /\ (6 <= String.length password)%nat /\
  findUserByEmail db email = None /\
  user = {| au_id := uuid env; au_email := email; au_name := name;
            au_role := CUSTOMER |} /\
  (forall attempt,
      attempt <> "" ->
      login_POST crypto' db'
        (Some {| cred_name := None; cred_email := Some email;
                 cred_password := Some attempt |})
      = if bcrypt_compare crypto' attempt (bcrypt_hash crypto password 10)
        then reply (ALogin user
                      (jwt_sign crypto'
                         {| claim_userId := uuid env; claim_email := email;
                            claim_role := CUSTOMER |} "1d")) 200
        else reply (AError "Invalid email or password") 401) /\
  (forall env' req tok payload,
      presents req tok -> ~ revoked db' tok ->
      jwt_verify env' tok = Some payload -> jwt_userId payload = uuid env ->
      getCurrentUser env' db' req = Some user).
Proof.
  unfold register_POST. cbn [cred_name cred_email cred_password].
  destruct (negb (given (Some name)) || negb (given (Some email))
            || negb (given (Some password))) eqn:Hg; [discriminate|].
  destruct (emailRegex email) eqn:He; simpl negb; cbv iota; [|discriminate].
  destruct (String.length password <? 6)%nat eqn:Hl; [discriminate|].
  destruct (findUserByEmail db email) eqn:Hf; [discriminate|].
  destruct (findUser db (uuid env)) eqn:Hu; [discriminate|].
  intro H. injection H as <- <- <-.
  apply orb_false_iff in Hg. destruct Hg as [Hg _].
  apply orb_false_iff in Hg. destruct Hg as [_ Hg].
  apply negb_false_iff in Hg. simpl in Hg. apply negb_true_iff in Hg.
  split; [reflexivity|].
  split; [apply Nat.ltb_ge; exact Hl|].
  split; [reflexivity|]. split; [reflexivity|]. split.
  - intros attempt Hne. unfold login_POST.
    cbn [cred_email cred_password given].
    apply String.eqb_neq in Hne. rewrite Hg, Hne. simpl orb. cbv iota.
    unfold findUserByEmail. cbn [users set_users].
    unfold findUserByEmail in Hf.
    rewrite (find_app_new _ _ _ Hf) by (simpl; apply String.eqb_refl).
    cbn [user_password user_id user_email user_role publicUser user_name].
    destruct (bcrypt_compare crypto' attempt (bcrypt_hash crypto password 10));
      reflexivity.
  - intros env' req tok payload (authHeader & Hh & Hs & Ht) Hr Hv Hid.
    unfold getCurrentUser, auth. rewrite Hh, Hs, Ht. simpl negb. cbv iota.
    destruct (findInvalidToken _ tok) eqn:Hi.
    { exfalso. apply Hr. apply findInvalidToken_revoked. rewrite Hi.
      discriminate. }
    rewrite Hv, Hid. unfold findUser. cbn [users set_users].
    unfold findUser in Hu.
    rewrite (find_app_new _ _ _ Hu) by (simpl; apply String.eqb_refl).
    reflexivity.
Qed.

Lemma register_then_login_witness :
  let crypto := {| bcrypt_hash := fun p _ => "$2a$" ++ p;
                   bcrypt_compare := fun p h => ("$2a$" ++ p =? h)%string;
                   jwt_sign := fun c _ => "tok-" ++ claim_userId c |} in
  let dave := {| cred_name := Some "Dave";
                 cred_email := Some "dave@example.com";
                 cred_password := Some "secret1" |} in
  let db' := fst (register_POST crypto (Shop.env "u-dave") Shop.db0 (Some dave)) in
  reply_status (login_POST crypto db' (Some dave)) = 200%nat /\
  reply_status
    (login_POST crypto db'
       (Some {| cred_name := None; cred_email := Some "dave@example.com";
                cred_password := Some "secret2" |})) = 401%nat.
Proof.
  intros crypto dave db'.
  destruct (register_then_login crypto crypto (Shop.env "u-dave") Shop.db0 db'
              "Dave" "dave@example.com" "secret1"
              {| au_id := "u-dave"; au_email := "dave@example.com";
                 au_name := "Dave"; au_role := CUSTOMER |}
              "tok-u-dave" eq_refl)
    as (_ & _ & _ & _ & Hlogin & _).
  split.
  - exact (f_equal reply_status (Hlogin "secret1" ltac:(discriminate))).
  - exact (f_equal reply_status (Hlogin "secret2" ltac:(discriminate))).
Defined.

(** ** Viewing the cart *)

(** X19. GET /api/cart for an authenticated customer, in a store where every
    cart row points at a product: the answer is 200 and lists exactly the
    caller's rows, each with its product, with their number as [itemCount];
    [totalPrice] is [Number(x.toFixed(2))] of the sum [x] of price times
    quantity over these rows, and that sum, taken over the same rows in
    the same order, is the amount a checkout of the same store by the same
    user charges when it answers 200. *)
Theorem cart_view (env : Env) (db : DB) (req : Request) (user : AuthUser) :
  getCurrentUser env db req = Some user ->
  au_role user = CUSTOMER ->
  cart_items_resolve db ->
  exists cartLines,
    map item cartLines = cartOf db (au_id user) /\
    Forall (fun it => findProduct db (ci_productId (item it))
                      = Some (product it)) cartLines /\
    cart_GET env db req
    = reply (ACart cartLines (toFixed2 env (totalOf cartLines))
               (List.length (cartOf db (au_id user)))) 200 /\
    (forall env' req' db' orderId url amount,
        getCurrentUser env' db req' = Some user ->
        checkout_POST env' db req'
        = (db', json (CheckoutOk orderId url amount) 200) ->
        amount = totalOf cartLines).
Proof.
  intros Hu Hrole Hres.
  destruct (includeProduct_resolved db (cartOf db (au_id user)))
    as [cartLines Hl].
  { unfold cart_items_resolve in Hres. rewrite Forall_forall in *.
    intros c Hc. apply Hres. unfold cartOf in Hc. apply filter_In in Hc.
    apply Hc. }
  exists cartLines.
  pose proof (includeProduct_items _ _ _ Hl) as Hitems.
  split; [exact Hitems|].
  split; [exact (includeProduct_products _ _ _ Hl)|].
  split.
  { unfold cart_GET. rewrite Hu, Hrole, Hl. simpl negb. cbv iota.
    rewrite <- Hitems, length_map. reflexivity. }
  intros env' req' db' orderId url amount Hu'. unfold checkout_POST.
  rewrite Hu', Hrole, Hl. simpl negb. cbv iota.
  branches; intro H; try discriminate H.
  injection H as _ _ _ H. symmetry. exact H.
Qed.

Lemma cart_view_witness :
  exists cartLines,
    map item cartLines = [Shop.aliceKeyboard; Shop.aliceMouse] /\
    cart_GET (Shop.env "") Shop.db0 (Shop.bearer "tok-alice")
    = reply (ACart cartLines
               (toFixed2 (Shop.env "") (totalOf cartLines)) 2) 200.
Proof.
  assert (H : cart_items_resolve Shop.db0).
  { unfold cart_items_resolve. simpl. repeat constructor; discriminate. }
  destruct (cart_view (Shop.env "") Shop.db0 (Shop.bearer "tok-alice")
              (publicUser Shop.alice) eq_refl eq_refl H)
    as (cartLines & H1 & _ & H3 & _).
  exists cartLines. split; [exact H1 | exact H3].
Defined.

(** ** The carts of the other users *)

Lemma NoDup_key_inj {A B : Type} (f : A -> B) (l : list A) (x y : A) :
  NoDup (map f l) -> In x l -> In y l -> f x = f y -> x = y.
Proof.
  induction l as [|a l IH]; simpl; intros Hn Hx Hy Hf; [destruct Hx|].
  inversion Hn as [|b l' Hnot Hn']; subst.
  destruct Hx as [<- | Hx], Hy as [<- | Hy].
  - reflexivity.
  - exfalso. apply Hnot. rewrite Hf. apply in_map. exact Hy.
  - exfalso. apply Hnot. rewrite <- Hf. apply in_map. exact Hx.
  - apply IH; assumption.
Qed.

Lemma filter_map_same {A : Type} (keep : A -> bool) (g : A -> A) (l : list A) :
  (forall x, In x l -> g x = x \/ (keep x = false /\ keep (g x) = false)) ->
  filter keep (map g l) = filter keep l.
Proof.
  induction l as [|a l IH]; simpl; intro H; [reflexivity|].
  rewrite IH by (intros x Hx; apply H; right; exact Hx).
  destruct (H a (or_introl eq_refl)) as [-> | [-> ->]]; reflexivity.
Qed.

Lemma filter_filter_other {A : Type} (keep drop : A -> bool) (l : list A) :
  (forall x, keep x = true -> drop x = false) ->
  filter keep (filter (fun x => negb (drop x)) l) = filter keep l.
Proof.
  intro H. induction l as [|x l IH]; simpl; [reflexivity|].
  destruct (drop x) eqn:E; simpl.
  - destruct (keep x) eqn:K; [|exact IH]. rewrite (H x K) in E. discriminate.
  - rewrite IH. reflexivity.
Qed.

(** X20. Adding to the cart and checking out touch no cart but the
    caller's: in a store whose cart rows have pairwise different ids, the
    cart of every other user is the same after the request as before it
    (a checkout deletes the rows of the caller only), and a checkout leaves
    the product table as it is. *)
Theorem own_cart_only (env : Env) (db : DB) (req : Request) (other : Id) :
  NoDup (map ci_id (cartItems db)) ->
  (forall user, getCurrentUser env db req = Some user -> au_id user <> other) ->
  cartOf (fst (cart_POST env db req)) other = cartOf db other /\
  cartOf (fst (checkout_POST env db req)) other = cartOf db other /\
  products (fst (checkout_POST env db req)) = products db.
Proof.
  intros Hids Hother. unfold cartOf. split; [|split].
  - destruct (cart_POST_effect env db req)
      as [-> | (user & productId & quantity & product & Hu & _ & _ & H)];
      [reflexivity|].
    specialize (Hother user Hu).
    destruct H as [(c & Hc & _ & ->) | (_ & _ & _ & ->)].
    + unfold findFirstCartItem in Hc. apply find_some in Hc.
      destruct Hc as [Hin Hc]. apply andb_true_iff in Hc.
      destruct Hc as [Hc _]. apply String.eqb_eq in Hc.
      unfold updateCartItem. apply filter_map_same. intros x Hx.
      destruct (ci_id x =? ci_id c)%string eqn:E; [|left; reflexivity].
      right. apply String.eqb_eq in E.
      rewrite (NoDup_key_inj ci_id _ x c Hids Hx Hin E). simpl.
      rewrite Hc. split; apply String.eqb_neq; exact Hother.
    + rewrite filter_app. simpl.
      apply String.eqb_neq in Hother. rewrite Hother. apply app_nil_r.
  - unfold checkout_POST.
    destruct (getCurrentUser env db req) as [user|] eqn:Hu; [|reflexivity].
    specialize (Hother user eq_refl).
    branches; try reflexivity. simpl. unfold deleteManyCart.
    apply filter_filter_other. intros x Hx. apply String.eqb_eq in Hx.
    apply String.eqb_neq. rewrite Hx. intro E. apply Hother. symmetry.
    exact E.
  - apply checkout_POST_frame.
Qed.

Lemma own_cart_only_witness :
  cartOf (fst (checkout_POST (Shop.env "o-1") Shop.db0 (Shop.bearer "tok-alice")))
    "u-bob"
  = [Shop.bobMouse] /\
  cartOf (fst (checkout_POST (Shop.env "o-1") Shop.db0 (Shop.bearer "tok-alice")))
    "u-alice"
  = [].
Proof.
  split; [|reflexivity].
  refine (proj1 (proj2 (own_cart_only (Shop.env "o-1") Shop.db0
                          (Shop.bearer "tok-alice") "u-bob" _ _))).
  - simpl. repeat constructor; simpl; intuition discriminate.
  - intros user H. injection H as <-. discriminate.
Defined.
